(** * Warung Madura storefront: the handlers of the pages and the backend they call

    A shallow embedding of the event handlers of [src/pages/Cart.tsx],
    [src/pages/Index.tsx], [src/pages/Orders.tsx], [src/pages/ProductDetail.tsx]
    and [src/pages/Admin.tsx], together with the tables, row-level-security
    policies and triggers of the migration under [supabase/migrations].

    Conventions.
    - A [DECIMAL(10,2)] amount is counted in hundredths and kept in [Z]. The
      client multiplies such an amount by an integer quantity and adds the
      products in floating point, and the backend rounds what it is sent back
      to hundredths; for amounts far below 2^53 that is the exact product and
      sum of the hundredths.
    - An [INTEGER] is a [Z]. The width of a column ([INTEGER],
      [DECIMAL(10,2)]) is not modelled: a request that exceeds one is among
      the requests that resolve with an error ([Refused] below).
    - Text is [string]; each [ascii] stands for one character (code units
      0-255).
    - A timestamp is a number of milliseconds since the epoch, in [Z].
    - A handler closes over the values its render captured (React state and
      what [useAuth()] gave), so these are arguments of the handler; what a
      handler changes is the database (through requests), the log of the
      requests it sent and the list of UI events (toasts, navigation, state
      setters, downloads).
    - The Supabase client is not part of the sources. A request built on it
      is a [Request] (verb and table) together with what the backend does
      with it (a [Server]), written from the tables, constraints, policies
      and triggers of the migration. *)

From Stdlib Require Import ZArith List String Ascii Bool Lia DecimalString.
From Stdlib Require Import Sorting.Sorted Sorting.Permutation.
Import ListNotations.

Local Open Scope string_scope.
Local Open Scope Z_scope.

(** ** Text *)

Module Text.

(** JavaScript's [WhiteSpace] and [LineTerminator] characters below 256:
    TAB, LF, VT, FF, CR, SP and NBSP. *)
Definition is_white_space (c : ascii) : bool :=
  match N_of_ascii c with
  | 9%N | 10%N | 11%N | 12%N | 13%N | 32%N | 160%N => true
  | _ => false
  end.

Fixpoint trimStart (s : list ascii) : list ascii :=
  match s with
  | [] => []
  | c :: s' => if is_white_space c then trimStart s' else s
  end.

Definition trimEnd (s : list ascii) : list ascii := rev (trimStart (rev s)).

(** [String.prototype.trim]. *)
Definition trim (s : string) : string :=
  string_of_list_ascii (trimEnd (trimStart (list_ascii_of_string s))).

(** Truthiness of a JavaScript string: every string but the empty one. *)
Definition truthy (s : string) : bool :=
  match s with EmptyString => false | String _ _ => true end.

(** [a || b] on strings. *)
Definition or_else (a b : string) : string := if truthy a then a else b.

(** [String(n)] for an integer [n] (as a template literal prints it). *)
Definition of_Z (n : Z) : string := NilZero.string_of_int (Z.to_int n).

(** Lower-casing as [ILIKE] folds letters, in the locale of the database:
    a UTF-8 one (the migration sets none, and the backend creates its
    databases with one). Of the characters below 256 the letters A-Z and the
    capital letters of Latin-1 (192-222 without the multiplication sign 215)
    are folded, so that the character 201, E with an acute accent, becomes
    the character 233; every other character is kept. *)
Definition lower (c : ascii) : ascii :=
  let n := N_of_ascii c in
  if ((65 <=? n)%N && (n <=? 90)%N)
     || ((192 <=? n)%N && (n <=? 222)%N && negb (n =? 215)%N)
  then ascii_of_N (n + 32) else c.

Definition lower_all (s : list ascii) : list ascii := map lower s.

(** *** SQL [ILIKE] *)

(** A compiled pattern: [%] is any run of characters, [_] is any one
    character, a backslash makes the next character literal. *)
Inductive pat : Type :=
| PAny
| POne
| PLit (c : ascii).

Definition percent : ascii := "%"%char.
Definition underscore : ascii := "_"%char.
Definition backslash : ascii := "\"%char.
Definition star : ascii := "*"%char.

(** The scan keeps whether the previous character was an unconsumed
    backslash. [None] is PostgreSQL's "LIKE pattern must not end with escape
    character". *)
Fixpoint compile_from (escaped : bool) (p : list ascii) : option (list pat) :=
  match p with
  | [] => if escaped then None else Some []
  | c :: p' =>
      if escaped then option_map (cons (PLit c)) (compile_from false p')
      else if Ascii.eqb c backslash then compile_from true p'
      else if Ascii.eqb c percent then option_map (cons PAny) (compile_from false p')
      else if Ascii.eqb c underscore then option_map (cons POne) (compile_from false p')
      else option_map (cons (PLit c)) (compile_from false p')
  end.

Definition compile : list ascii -> option (list pat) := compile_from false.

(** Matching of a whole text against a compiled pattern, letters compared
    without case. *)
Fixpoint like_match (p : list pat) (s : list ascii) : bool :=
  match p with
  | [] => match s with [] => true | _ :: _ => false end
  | PLit c :: p' =>
      match s with
      | [] => false
      | c' :: s' => Ascii.eqb (lower c) (lower c') && like_match p' s'
      end
  | POne :: p' =>
      match s with
      | [] => false
      | _ :: s' => like_match p' s'
      end
  | PAny :: p' =>
      (fix skip (t : list ascii) : bool :=
         like_match p' t || match t with [] => false | _ :: t' => skip t' end) s
  end.

(** PostgREST reads [*] in the operand of [like] and [ilike] as [%]. *)
Definition star2percent (c : ascii) : ascii :=
  if Ascii.eqb c star then percent else c.

(** [column ILIKE pattern] as the REST layer evaluates it; [None] is an error. *)
Definition ilike (text pattern : string) : option bool :=
  option_map (fun p => like_match p (list_ascii_of_string text))
             (compile (map star2percent (list_ascii_of_string pattern))).

(** The characters a search text must avoid to be matched literally. *)
Definition is_meta (c : ascii) : bool :=
  Ascii.eqb c percent || Ascii.eqb c underscore || Ascii.eqb c backslash
  || Ascii.eqb c star.

(** [needle] occurs in [hay] when letters are compared without case. *)
Definition contains_ci (hay needle : string) : Prop :=
  exists pre mid post : list ascii,
    list_ascii_of_string hay = (pre ++ mid ++ post)%list /\
    lower_all mid = lower_all (list_ascii_of_string needle).

(** The same, as a test: [needle] starts [hay], or occurs further on. *)
Fixpoint starts_ci (needle hay : list ascii) : bool :=
  match needle, hay with
  | [], _ => true
  | _ :: _, [] => false
  | c :: needle', h :: hay' =>
      Ascii.eqb (lower c) (lower h) && starts_ci needle' hay'
  end.

Fixpoint includes_ci (hay needle : list ascii) : bool :=
  starts_ci needle hay
  || match hay with
     | [] => false
     | _ :: hay' => includes_ci hay' needle
     end.

End Text.

(** ** Tables of the migration *)

Definition Id : Type := string.
Definition Timestamp : Type := Z.

(** [CREATE TYPE public.app_role AS ENUM ('admin', 'user')]. *)
Module AppRole.
Inductive t : Type := admin | user.

Definition eqb (a b : t) : bool :=
  match a, b with
  | admin, admin | user, user => true
  | _, _ => false
  end.
End AppRole.

Module UserRole.
Record t : Type := mk
  { id : Id; user_id : Id; role : AppRole.t; created_at : Timestamp }.
End UserRole.

Module Category.
Record t : Type := mk
  { id : Id; name : string; slug : string; icon : option string;
    created_at : Timestamp }.
End Category.

(** [products], with the columns the later migration adds ([barcode] and
    the two dates, which are text here). *)
Module Product.
Record t : Type := mk
  { id : Id; name : string; slug : string; description : option string;
    price : Z; stock : Z; category_id : option Id;
    image_url : option string; dosage : option string;
    is_popular : option bool;
    created_at : Timestamp; updated_at : Timestamp;
    barcode : option string; expiry_date : option string;
    stock_entry_date : option string }.
End Product.

Module Cart.
Record t : Type := mk
  { id : Id; user_id : Id; created_at : Timestamp; updated_at : Timestamp }.
End Cart.

Module CartItemRow.
Record t : Type := mk
  { id : Id; cart_id : Id; product_id : Id; quantity : Z;
    created_at : Timestamp }.
End CartItemRow.

Module Order.
Record t : Type := mk
  { id : Id; user_id : Id; order_number : string; total_amount : Z;
    status : string; payment_method : option string;
    shipping_address : string;
    created_at : Timestamp; updated_at : Timestamp }.
End Order.

Module OrderItem.
Record t : Type := mk
  { id : Id; order_id : Id; product_id : option Id; product_name : string;
    product_price : Z; quantity : Z; subtotal : Z;
    created_at : Timestamp }.
End OrderItem.

(** The database: the tables the pages use ([profiles] and [sales_reports]
    are left out) and the collation that [ORDER BY] uses on text
    ([collation a b] is [a <= b]). *)
Record DB : Type := mkDB
  { user_roles : list UserRole.t;
    categories : list Category.t;
    products : list Product.t;
    carts : list Cart.t;
    cart_items : list CartItemRow.t;
    orders : list Order.t;
    order_items : list OrderItem.t;
    collation : string -> string -> bool }.

Definition with_products (d : DB) (l : list Product.t) : DB :=
  mkDB (user_roles d) (categories d) l (carts d) (cart_items d) (orders d)
       (order_items d) (collation d).

Definition with_carts (d : DB) (l : list Cart.t) : DB :=
  mkDB (user_roles d) (categories d) (products d) l (cart_items d) (orders d)
       (order_items d) (collation d).

Definition with_cart_items (d : DB) (l : list CartItemRow.t) : DB :=
  mkDB (user_roles d) (categories d) (products d) (carts d) l (orders d)
       (order_items d) (collation d).

Definition with_orders (d : DB) (l : list Order.t) : DB :=
  mkDB (user_roles d) (categories d) (products d) (carts d) (cart_items d) l
       (order_items d) (collation d).

Definition with_order_items (d : DB) (l : list OrderItem.t) : DB :=
  mkDB (user_roles d) (categories d) (products d) (carts d) (cart_items d)
       (orders d) l (collation d).

(** ** Row-level security

    [auth.uid()] is the identity of the session that sent the request,
    [None] for an anonymous one. *)

Definition Session : Type := option Id.

Definition uid_is (s : Session) (u : Id) : bool :=
  match s with
  | Some v => String.eqb v u
  | None => false
  end.

(** [public.has_role(_user_id, _role)]. *)
Definition has_role (d : DB) (_user_id : Id) (_role : AppRole.t) : bool :=
  existsb (fun r => String.eqb (UserRole.user_id r) _user_id
                    && AppRole.eqb (UserRole.role r) _role)
          (user_roles d).

(** [has_role(auth.uid(), 'admin')]. *)
Definition is_admin (d : DB) (s : Session) : bool :=
  match s with
  | Some u => has_role d u AppRole.admin
  | None => false
  end.

(** The [USING] clause of the two policies on [cart_items]: the row's cart
    belongs to the session. *)
Definition owns_cart (d : DB) (s : Session) (cart : Id) : bool :=
  existsb (fun c => String.eqb (Cart.id c) cart && uid_is s (Cart.user_id c))
          (carts d).

(** The [WITH CHECK] clause of "Users can insert order items". *)
Definition owns_order (d : DB) (s : Session) (o : Id) : bool :=
  existsb (fun r => String.eqb (Order.id r) o && uid_is s (Order.user_id r))
          (orders d).

(** ** Requests and their fate *)

(** A JavaScript error object, or the [error] member of a response. *)
Record Error : Type := mkError { message : string }.

(** What becomes of a request: the backend runs it ([Applied]); the promise
    resolves with an [error] and nothing ran ([Refused]: no connection, a
    limit of a column exceeded, ...); or the promise rejects ([Rejected]). *)
Inductive Fate : Type :=
| Applied
| Refused (e : Error)
| Rejected (e : Error).

(** The circumstances of one request: its fate, the backend's [now()] while
    it runs, and the values [gen_random_uuid()] yields for the rows it adds. *)
Record Exchange : Type := mkExchange
  { fate : Fate; now : Timestamp; gen_random_uuid : nat -> Id }.

Inductive Verb : Type := SELECT | INSERT | UPDATE | DELETE.

Record Request : Type := mkRequest { verb : Verb; table : string }.

Definition is_write (r : Request) : bool :=
  match verb r with SELECT => false | _ => true end.

(** The backend's side of a request: a result or an error, and the database
    afterwards (unchanged when the statement fails). *)
Definition Server (A : Type) : Type :=
  Session -> Exchange -> DB -> (A + Error) * DB.

(** The [{ data, error }] a request resolves with. *)
Record Response (A : Type) : Type := mkResponse
  { data : option A; error : option Error }.
Arguments mkResponse {A} _ _.
Arguments data {A} _.
Arguments error {A} _.

(** Messages of the errors the backend raises. *)
Definition no_single_row : Error :=
  mkError "JSON object requested, multiple (or no) rows returned".
Definition rls_violation : Error :=
  mkError "new row violates row-level security policy".
Definition unique_violation : Error :=
  mkError "duplicate key value violates unique constraint".
Definition foreign_key_violation : Error :=
  mkError "insert or update on table violates foreign key constraint".
Definition bad_pattern : Error :=
  mkError "LIKE pattern must not end with escape character".

(** [.single()]: exactly one row, or an error. *)
Definition single {A : Type} (rows : list A) : A + Error :=
  match rows with
  | [r] => inl r
  | _ => inr no_single_row
  end.

(** [ORDER BY]: a stable insertion sort by [leb]. *)
Section OrderBy.
Context {A : Type} (leb : A -> A -> bool).

Fixpoint insert_sorted (x : A) (l : list A) : list A :=
  match l with
  | [] => [x]
  | y :: l' => if leb x y then x :: l else y :: insert_sorted x l'
  end.

Fixpoint order_by (l : list A) : list A :=
  match l with
  | [] => []
  | x :: l' => insert_sorted x (order_by l')
  end.
End OrderBy.

(** ** What the pages receive *)

(** [interface CartItem] of Cart.tsx: a row of [cart_items] with the product
    it refers to embedded. *)
Module CartItem.
Module Products.
Record t : Type := mk
  { id : Id; name : string; price : Z; stock : Z;
    image_url : option string }.
End Products.
Record t : Type := mk { id : Id; quantity : Z; products : Products.t }.
End CartItem.

(** A product of the catalog with [categories (name)] embedded. *)
Module Listed.
Record t : Type := mk { product : Product.t; categories : option string }.
End Listed.

(** The payload of an insert into [orders] and into [order_items]. *)
Module NewOrder.
Record t : Type := mk
  { user_id : Id; order_number : string; total_amount : Z; status : string;
    payment_method : string; shipping_address : string }.
End NewOrder.

Module NewOrderItem.
Record t : Type := mk
  { order_id : Id; product_id : Id; product_name : string;
    product_price : Z; quantity : Z; subtotal : Z }.
End NewOrderItem.

(** ** The backend, table by table *)

Module Backend.

(** [i] is already the value of a key. *)
Definition taken (i : Id) (keys : list Id) : bool := existsb (String.eqb i) keys.

Fixpoint distinct (keys : list Id) : bool :=
  match keys with
  | [] => true
  | i :: keys' => negb (taken i keys') && distinct keys'
  end.

(** *** carts *)

(** [from("carts").select("id").eq("user_id", u).single()]. *)
Definition carts_select (u : Id) : Server Id :=
  fun s _ d =>
    (match single (filter (fun c => uid_is s (Cart.user_id c)
                                    && String.eqb (Cart.user_id c) u) (carts d)) with
     | inl c => inl (Cart.id c)
     | inr e => inr e
     end, d).

(** [from("carts").insert({ user_id: u }).select("id").single()]. The
    policy is checked on the new row, then the primary key and
    [UNIQUE(user_id)]. *)
Definition carts_insert (u : Id) : Server Id :=
  fun s x d =>
    if negb (uid_is s u) then (inr rls_violation, d)
    else if taken (gen_random_uuid x 0%nat) (map Cart.id (carts d))
            || existsb (fun c => String.eqb (Cart.user_id c) u) (carts d)
    then (inr unique_violation, d)
    else
      let c := Cart.mk (gen_random_uuid x 0%nat) u (now x) (now x) in
      (inl (Cart.id c), with_carts d (carts d ++ [c])).

(** *** cart_items *)

Definition find_product (d : DB) (p : Id) : option Product.t :=
  find (fun r => String.eqb (Product.id r) p) (products d).

Definition embed_product (p : Product.t) : CartItem.Products.t :=
  CartItem.Products.mk (Product.id p) (Product.name p) (Product.price p)
                       (Product.stock p) (Product.image_url p).

(** The rows of [cart_items] the session may see, change or delete. *)
Definition visible_item (d : DB) (s : Session) (r : CartItemRow.t) : bool :=
  owns_cart d s (CartItemRow.cart_id r).

(** [from("cart_items").select("*, products (id, name, price, stock,
    image_url)").eq("cart_id", c)]. The foreign key of [product_id] gives
    every row its product. *)
Definition cart_items_select (c : Id) : Server (list CartItem.t) :=
  fun s _ d =>
    (inl (flat_map
            (fun r =>
               match find_product d (CartItemRow.product_id r) with
               | Some p => [CartItem.mk (CartItemRow.id r) (CartItemRow.quantity r)
                                        (embed_product p)]
               | None => []
               end)
            (filter (fun r => visible_item d s r
                              && String.eqb (CartItemRow.cart_id r) c)
                    (cart_items d))), d).

(** [from("cart_items").select("*").eq("cart_id", c).eq("product_id",
    p).single()]. *)
Definition cart_items_select_one (c p : Id) : Server CartItemRow.t :=
  fun s _ d =>
    (single (filter (fun r => visible_item d s r
                              && String.eqb (CartItemRow.cart_id r) c
                              && String.eqb (CartItemRow.product_id r) p)
                    (cart_items d)), d).

Definition set_quantity (q : Z) (r : CartItemRow.t) : CartItemRow.t :=
  CartItemRow.mk (CartItemRow.id r) (CartItemRow.cart_id r)
                 (CartItemRow.product_id r) q (CartItemRow.created_at r).

(** [from("cart_items").update({ quantity: q }).eq("id", i)]. *)
Definition cart_items_update (i : Id) (q : Z) : Server unit :=
  fun s _ d =>
    (inl tt,
     with_cart_items d
       (map (fun r => if visible_item d s r && String.eqb (CartItemRow.id r) i
                      then set_quantity q r else r)
            (cart_items d))).

(** [from("cart_items").insert({ cart_id: c, product_id: p, quantity: q })].
    The policy is checked on the new row, then the foreign key of
    [product_id], the primary key and [UNIQUE(cart_id, product_id)]. *)
Definition cart_items_insert (c p : Id) (q : Z) : Server unit :=
  fun s x d =>
    if negb (owns_cart d s c) then (inr rls_violation, d)
    else if match find_product d p with Some _ => false | None => true end
    then (inr foreign_key_violation, d)
    else if taken (gen_random_uuid x 0%nat) (map CartItemRow.id (cart_items d))
            || existsb (fun r => String.eqb (CartItemRow.cart_id r) c
                                 && String.eqb (CartItemRow.product_id r) p)
                       (cart_items d)
    then (inr unique_violation, d)
    else
      (inl tt,
       with_cart_items d
         (cart_items d ++ [CartItemRow.mk (gen_random_uuid x 0%nat) c p q (now x)])).

(** [from("cart_items").delete().eq("cart_id", c)]. *)
Definition cart_items_delete (c : Id) : Server unit :=
  fun s _ d =>
    (inl tt,
     with_cart_items d
       (filter (fun r => negb (visible_item d s r
                               && String.eqb (CartItemRow.cart_id r) c))
               (cart_items d))).

(** *** products *)

Definition set_stock (n : Z) (t : Timestamp) (p : Product.t) : Product.t :=
  Product.mk (Product.id p) (Product.name p) (Product.slug p)
             (Product.description p) (Product.price p) n
             (Product.category_id p) (Product.image_url p) (Product.dosage p)
             (Product.is_popular p) (Product.created_at p) t
             (Product.barcode p) (Product.expiry_date p)
             (Product.stock_entry_date p).

(** [from("products").update({ stock: n }).eq("id", i)]. Only "Admins can
    manage products" covers UPDATE, so for any other session no row
    qualifies and the statement changes nothing, without an error. The
    trigger [update_products_updated_at] stamps the rows that change. *)
Definition products_update (i : Id) (n : Z) : Server unit :=
  fun s x d =>
    (inl tt,
     with_products d
       (map (fun p => if is_admin d s && String.eqb (Product.id p) i
                      then set_stock n (now x) p else p)
            (products d))).

(** The filters fetchProducts puts on its query, besides [stock > 0]. *)
Record CatalogQuery : Type := mkCatalogQuery
  { category_eq : option Id; name_ilike : option string }.

(** [ORDER BY is_popular DESC]: NULL first, then true, then false. *)
Definition popularity (p : Product.t) : Z :=
  match Product.is_popular p with
  | None => 2
  | Some true => 1
  | Some false => 0
  end.

(** [ORDER BY is_popular DESC, name ASC] as a comparison of two rows. *)
Definition catalog_leb (le : string -> string -> bool) (a b : Listed.t) : bool :=
  let pa := popularity (Listed.product a) in
  let pb := popularity (Listed.product b) in
  (pb <? pa) || ((pa =? pb) && le (Product.name (Listed.product a))
                                  (Product.name (Listed.product b))).

Definition category_name (d : DB) (c : option Id) : option string :=
  match c with
  | None => None
  | Some i =>
      option_map Category.name
                 (find (fun r => String.eqb (Category.id r) i) (categories d))
  end.

Definition in_category (c : option Id) (p : Product.t) : bool :=
  match c with
  | None => true
  | Some i =>
      match Product.category_id p with
      | Some j => String.eqb j i
      | None => false
      end
  end.

Definition name_matches (pattern : option (list Text.pat)) (p : Product.t) : bool :=
  match pattern with
  | None => true
  | Some pt => Text.like_match pt (list_ascii_of_string (Product.name p))
  end.

(** [from("products").select("*, categories (name)").gt("stock", 0)] with the
    optional [.eq("category_id", c)] and [.ilike("name", pattern)], then
    [.order("is_popular", { ascending: false }).order("name")]. Everyone may
    read products and categories. *)
Definition products_select (q : CatalogQuery) : Server (list Listed.t) :=
  fun _ _ d =>
    match
      match name_ilike q with
      | None => Some None
      | Some pattern =>
          option_map Some
            (Text.compile (map Text.star2percent (list_ascii_of_string pattern)))
      end
    with
    | None => (inr bad_pattern, d)
    | Some pt =>
        (inl (order_by (catalog_leb (collation d))
                (map (fun p => Listed.mk p (category_name d (Product.category_id p)))
                     (filter (fun p => (0 <? Product.stock p)
                                       && in_category (category_eq q) p
                                       && name_matches pt p)
                             (products d)))), d)
    end.

(** *** orders *)

(** [from("orders").insert({...}).select().single()]. "Users can create
    orders" is checked on the new row, then the primary key and the UNIQUE
    [order_number]. *)
Definition orders_insert (o : NewOrder.t) : Server Order.t :=
  fun s x d =>
    if negb (uid_is s (NewOrder.user_id o)) then (inr rls_violation, d)
    else if taken (gen_random_uuid x 0%nat) (map Order.id (orders d))
            || existsb (fun r => String.eqb (Order.order_number r)
                                            (NewOrder.order_number o)) (orders d)
    then (inr unique_violation, d)
    else
      let r := Order.mk (gen_random_uuid x 0%nat) (NewOrder.user_id o)
                        (NewOrder.order_number o) (NewOrder.total_amount o)
                        (NewOrder.status o) (Some (NewOrder.payment_method o))
                        (NewOrder.shipping_address o) (now x) (now x) in
      (inl r, with_orders d (orders d ++ [r])).

Definition set_status (st : string) (t : Timestamp) (o : Order.t) : Order.t :=
  Order.mk (Order.id o) (Order.user_id o) (Order.order_number o)
           (Order.total_amount o) st (Order.payment_method o)
           (Order.shipping_address o) (Order.created_at o) t.

(** [from("orders").update({ status }).eq("id", i)]. "Admins can update
    orders" is the only policy for UPDATE; the trigger
    [update_orders_updated_at] sets [updated_at] of each row that changes to
    [now()]. *)
Definition orders_update (i : Id) (st : string) : Server unit :=
  fun s x d =>
    (inl tt,
     with_orders d
       (map (fun o => if is_admin d s && String.eqb (Order.id o) i
                      then set_status st (now x) o else o)
            (orders d))).

(** [from("orders").select("*").order("created_at", { ascending: false })]:
    one's own orders, all of them for an administrator. *)
Definition orders_select : Server (list Order.t) :=
  fun s _ d =>
    (inl (order_by (fun a b => Order.created_at b <=? Order.created_at a)
            (filter (fun o => uid_is s (Order.user_id o) || is_admin d s)
                    (orders d))), d).

(** *** order_items *)

Fixpoint number_rows {A : Type} (n : nat) (l : list A) : list (nat * A) :=
  match l with
  | [] => []
  | a :: l' => (n, a) :: number_rows (S n) l'
  end.

Definition new_order_item (x : Exchange) (r : nat * NewOrderItem.t) : OrderItem.t :=
  let i := snd r in
  OrderItem.mk (gen_random_uuid x (fst r)) (NewOrderItem.order_id i)
               (Some (NewOrderItem.product_id i)) (NewOrderItem.product_name i)
               (NewOrderItem.product_price i) (NewOrderItem.quantity i)
               (NewOrderItem.subtotal i) (now x).

(** [from("order_items").insert(rows)]: one statement, all rows or none.
    "Users can insert order items" is checked on every new row, then the
    foreign key of [product_id] and the primary key. *)
Definition order_items_insert (rows : list NewOrderItem.t) : Server unit :=
  fun s x d =>
    if negb (forallb (fun i => owns_order d s (NewOrderItem.order_id i)) rows)
    then (inr rls_violation, d)
    else if negb (forallb (fun i => match find_product d (NewOrderItem.product_id i) with
                                    | Some _ => true
                                    | None => false
                                    end) rows)
    then (inr foreign_key_violation, d)
    else
      let added := map (new_order_item x) (number_rows 0 rows) in
      if negb (distinct (map OrderItem.id added))
         || existsb (fun r => taken (OrderItem.id r) (map OrderItem.id (order_items d)))
                    added
      then (inr unique_violation, d)
      else (inl tt, with_order_items d (order_items d ++ added)).

End Backend.

(** ** The client: what a handler can do *)

(** What a handler does to the page, in the order it does it. [Download] is
    the Blob handed to a clicked anchor with its [download] name. *)
Inductive UiEvent : Type :=
| ToastError (m : string)
| ToastSuccess (m : string)
| Navigate (path : string)
| SetLoading (b : bool)
| SetCartId (c : Id)
| SetCartItems (l : list CartItem.t)
| SetProducts (l : list Listed.t)
| SetOrders (l : list Order.t)
| Download (filename content : string).

(** The database, the session the client is signed in with, what will become
    of the n-th request, the client's [Date.now()], and what has been sent
    and shown so far. *)
Record World : Type := mkWorld
  { db : DB;
    session : Session;
    net : nat -> Exchange;
    clock : Z;
    requests : list Request;
    ui : list UiEvent }.

Inductive Completion (A : Type) : Type :=
| Normal (a : A)
| Thrown (e : Error).
Arguments Normal {A} _.
Arguments Thrown {A} _.

(** An asynchronous computation of the client. *)
Definition M (A : Type) : Type := World -> Completion A * World.

Definition ret {A : Type} (a : A) : M A := fun w => (Normal a, w).

Definition bind {A B : Type} (c : M A) (k : A -> M B) : M B :=
  fun w =>
    match c w with
    | (Normal a, w') => k a w'
    | (Thrown e, w') => (Thrown e, w')
    end.

Definition throw {A : Type} (e : Error) : M A := fun w => (Thrown e, w).

(** [try { c } catch (error) { h error }]. *)
Definition try_catch {A : Type} (c : M A) (h : Error -> M A) : M A :=
  fun w =>
    match c w with
    | (Normal a, w') => (Normal a, w')
    | (Thrown e, w') => h e w'
    end.

(** [try { c } finally { f }]. *)
Definition finally {A : Type} (c : M A) (f : M unit) : M A :=
  fun w =>
    match c w with
    | (r, w') =>
        match f w' with
        | (Normal _, w'') => (r, w'')
        | (Thrown e, w'') => (Thrown e, w'')
        end
    end.

Declare Scope client_scope.
Delimit Scope client_scope with client.
Notation "'let*' x ':=' c 'in' k" := (bind c (fun x => k))
  (at level 10, x name, c at level 100, k at level 200) : client_scope.
Notation "c ';;' k" := (bind c (fun _ => k))
  (at level 100, k at level 200, right associativity) : client_scope.
Local Open Scope client_scope.

Definition emit (e : UiEvent) : M unit :=
  fun w => (Normal tt,
            mkWorld (db w) (session w) (net w) (clock w) (requests w) (ui w ++ [e])).

(** [Date.now()]. *)
Definition Date_now : M Z := fun w => (Normal (clock w), w).

Definition respond {A : Type} (r : A + Error) : Response A :=
  match r with
  | inl a => mkResponse (Some a) None
  | inr e => mkResponse None (Some e)
  end.

(** Modelled from the spec: the Supabase client
    ([@/integrations/supabase/client]) is not among the sources. The spec has
    it as a remote query interface whose calls the handlers await one by one,
    which can fail in the network or in the API, and on which a policy that
    denies access shows as an empty result or a rejected write. [rpc] is the
    [await] of one such call: the request is sent, and its exchange decides
    whether the backend runs it and what comes back. *)
Definition rpc {A : Type} (r : Request) (srv : Server A) : M (Response A) :=
  fun w =>
    let x := net w (List.length (requests w)) in
    let sent := (requests w ++ [r])%list in
    match fate x with
    | Rejected e =>
        (Thrown e, mkWorld (db w) (session w) (net w) (clock w) sent (ui w))
    | Refused e =>
        (Normal (mkResponse None (Some e)),
         mkWorld (db w) (session w) (net w) (clock w) sent (ui w))
    | Applied =>
        let res := srv (session w) x (db w) in
        (Normal (respond (fst res)),
         mkWorld (snd res) (session w) (net w) (clock w) sent (ui w))
    end.

(** [for (const x of l) { await body(x) }]. *)
Fixpoint for_of {A : Type} (l : list A) (body : A -> M unit) : M unit :=
  match l with
  | [] => ret tt
  | x :: l' => body x ;; for_of l' body
  end.

(** The world a computation leaves, and how it completed. *)
Definition exec {A : Type} (c : M A) (w : World) : World := snd (c w).
Definition completion {A : Type} (c : M A) (w : World) : Completion A := fst (c w).

(** Modelled from the spec: [useAuth()] ([@/hooks/use-auth]) is not among
    the sources; it gives the pages the current authenticated identity. *)
Module User.
Record t : Type := mk { id : Id }.
End User.

Definition null_dereference : Error :=
  mkError "Cannot read properties of null".

(** ** src/pages/Cart.tsx *)

Module CartPage.

Definition fetchCart (user : option User.t) : M unit :=
  match user with
  | None => ret tt
  | Some u =>
      let* r := rpc (mkRequest SELECT "carts") (Backend.carts_select (User.id u)) in
      match data r with
      | None => ret tt
      | Some cart =>
          emit (SetCartId cart) ;;
          let* r := rpc (mkRequest SELECT "cart_items") (Backend.cart_items_select cart) in
          match error r with
          | Some _ => emit (ToastError "Gagal memuat keranjang")
          | None =>
              emit (SetCartItems match data r with Some l => l | None => [] end)
          end
      end
  end.

(** The closing [fetchCart()] is not awaited; its requests follow the update
    all the same. *)
Definition updateQuantity (user : option User.t) (itemId : Id) (newQuantity : Z)
  : M unit :=
  if newQuantity <? 1 then ret tt
  else
    let* r := rpc (mkRequest UPDATE "cart_items")
                  (Backend.cart_items_update itemId newQuantity) in
    match error r with
    | Some _ => emit (ToastError "Gagal update jumlah")
    | None => fetchCart user
    end.

(** The sum is the amount in hundredths that the backend stores for the
    number the function returns (see the conventions); the double itself,
    which can differ in its last bits with the order of the additions, is
    not modelled. *)
Definition calculateTotal (cartItems : list CartItem.t) : Z :=
  fold_left (fun total item =>
               total + CartItem.Products.price (CartItem.products item)
                       * CartItem.quantity item)
            cartItems 0.

Definition orderItems (order : Order.t) (cartItems : list CartItem.t)
  : list NewOrderItem.t :=
  map (fun item =>
         NewOrderItem.mk
           (Order.id order)
           (CartItem.Products.id (CartItem.products item))
           (CartItem.Products.name (CartItem.products item))
           (CartItem.Products.price (CartItem.products item))
           (CartItem.quantity item)
           (CartItem.Products.price (CartItem.products item)
            * CartItem.quantity item))
      cartItems.

(** The body of the loop "Update product stock": the response is dropped. *)
Definition update_stock (item : CartItem.t) : M unit :=
  let* _ := rpc (mkRequest UPDATE "products")
                (Backend.products_update
                   (CartItem.Products.id (CartItem.products item))
                   (CartItem.Products.stock (CartItem.products item)
                    - CartItem.quantity item)) in
  ret tt.

(** "Clear cart": the response is dropped as well. *)
Definition clear_cart (cartId : Id) : M unit :=
  let* _ := rpc (mkRequest DELETE "cart_items") (Backend.cart_items_delete cartId) in
  ret tt.

(** The body of the [try] block of handleCheckout. *)
Definition checkout_steps (u : User.t) (cartId : Id)
  (cartItems : list CartItem.t) (shippingAddress : string) : M unit :=
  let* t := Date_now in
  let orderNumber := "WM" ++ Text.of_Z t in
  let totalAmount := calculateTotal cartItems in
  let* r := rpc (mkRequest INSERT "orders")
                (Backend.orders_insert
                   (NewOrder.mk (User.id u) orderNumber totalAmount
                                "pending" "cash" shippingAddress)) in
  match error r with
  | Some orderError => throw orderError
  | None =>
      match data r with
      | None => throw null_dereference
      | Some order =>
          let* r := rpc (mkRequest INSERT "order_items")
                        (Backend.order_items_insert (orderItems order cartItems)) in
          match error r with
          | Some itemsError => throw itemsError
          | None =>
              for_of cartItems update_stock ;;
              clear_cart cartId ;;
              emit (ToastSuccess "Pesanan berhasil dibuat!") ;;
              emit (Navigate "/orders")
          end
      end
  end.

Definition handleCheckout (user : option User.t) (cartId : option Id)
  (cartItems : list CartItem.t) (shippingAddress : string) : M unit :=
  match user, cartId, cartItems with
  | Some u, Some c, _ :: _ =>
      if Text.truthy c then
        if negb (Text.truthy (Text.trim shippingAddress)) then
          emit (ToastError "Silakan isi alamat pengiriman")
        else
          emit (SetLoading true) ;;
          finally
            (try_catch
               (checkout_steps u c cartItems shippingAddress)
               (fun error =>
                  emit (ToastError (Text.or_else (message error)
                                                 "Gagal membuat pesanan"))))
            (emit (SetLoading false))
      else ret tt
  | _, _, _ => ret tt
  end.

End CartPage.

(** ** src/pages/Index.tsx *)

Module IndexPage.

(** The query fetchProducts builds from the selected category and the
    search text; an empty string is as good as none. *)
Definition catalog_query (selectedCategory : option Id) (searchQuery : string)
  : Backend.CatalogQuery :=
  Backend.mkCatalogQuery
    match selectedCategory with
    | Some c => if Text.truthy c then Some c else None
    | None => None
    end
    (if Text.truthy searchQuery then Some ("%" ++ searchQuery ++ "%") else None).

Definition fetchProducts (selectedCategory : option Id) (searchQuery : string)
  : M unit :=
  let* r := rpc (mkRequest SELECT "products")
                (Backend.products_select (catalog_query selectedCategory searchQuery)) in
  match error r with
  | Some _ => emit (ToastError "Gagal memuat produk")
  | None => emit (SetProducts match data r with Some l => l | None => [] end)
  end.

End IndexPage.

(** ** src/pages/ProductDetail.tsx *)

Module ProductDetailPage.

(** "Get or create cart": the key of the user's cart, a new one if the
    query found none. *)
Definition get_or_create_cart (u : User.t) : M (option Id) :=
  let* r := rpc (mkRequest SELECT "carts") (Backend.carts_select (User.id u)) in
  match data r with
  | Some cart => ret (Some cart)
  | None =>
      let* r := rpc (mkRequest INSERT "carts") (Backend.carts_insert (User.id u)) in
      match error r with
      | Some cartError => throw cartError
      | None => ret (data r)
      end
  end.

Definition added : M unit :=
  emit (ToastSuccess "Produk ditambahkan ke keranjang") ;;
  emit (Navigate "/cart").

(** "Check if product already in cart", then "Update quantity" or "Insert
    new item". *)
Definition put_in_cart (cart : Id) (product : Product.t) (quantity : Z) : M unit :=
  let* r := rpc (mkRequest SELECT "cart_items")
                (Backend.cart_items_select_one cart (Product.id product)) in
  match data r with
  | Some existingItem =>
      let* r := rpc (mkRequest UPDATE "cart_items")
                    (Backend.cart_items_update
                       (CartItemRow.id existingItem)
                       (CartItemRow.quantity existingItem + quantity)) in
      match error r with
      | Some error => throw error
      | None => added
      end
  | None =>
      let* r := rpc (mkRequest INSERT "cart_items")
                    (Backend.cart_items_insert cart (Product.id product) quantity) in
      match error r with
      | Some error => throw error
      | None => added
      end
  end.

(** The [try] block of addToCart. *)
Definition add_steps (u : User.t) (product : Product.t) (quantity : Z) : M unit :=
  let* cart := get_or_create_cart u in
  match cart with
  | None => throw null_dereference
  | Some cart => put_in_cart cart product quantity
  end.

Definition addToCart (user : option User.t) (product : option Product.t)
  (quantity : Z) : M unit :=
  match user with
  | None =>
      emit (ToastError "Silakan login terlebih dahulu") ;;
      emit (Navigate "/auth")
  | Some u =>
      match product with
      | None => ret tt
      | Some p =>
          emit (SetLoading true) ;;
          finally
            (try_catch
               (add_steps u p quantity)
               (fun error =>
                  emit (ToastError (Text.or_else (message error)
                                                 "Gagal menambahkan ke keranjang"))))
            (emit (SetLoading false))
      end
  end.

End ProductDetailPage.

(** ** src/pages/Admin.tsx *)

Module AdminPage.

Definition fetchOrders : M unit :=
  let* r := rpc (mkRequest SELECT "orders") Backend.orders_select in
  emit (SetOrders match data r with Some l => l | None => [] end).

Definition updateOrderStatus (orderId : Id) (status : string) : M unit :=
  let* r := rpc (mkRequest UPDATE "orders") (Backend.orders_update orderId status) in
  match error r with
  | Some _ => emit (ToastError "Gagal update status")
  | None =>
      emit (ToastSuccess "Status berhasil diupdate") ;;
      fetchOrders
  end.

(** The values of the status selector of the orders table. *)
Definition statuses : list string :=
  ["pending"; "paid"; "processing"; "shipped"; "completed"; "cancelled"].

End AdminPage.

(** ** src/pages/Orders.tsx *)

Module OrdersPage.

(** [interface Order] of Orders.tsx: an order with its items nested. *)
Module Item.
Record t : Type := mk
  { product_name : string; product_price : Z; quantity : Z; subtotal : Z }.
End Item.

Module Order.
Record t : Type := mk
  { id : Id; order_number : string; total_amount : Z; status : string;
    shipping_address : string; created_at : string;
    order_items : list Item.t }.
End Order.

Definition nl : string := String (ascii_of_nat 10) EmptyString.

Fixpoint join (l : list string) : string :=
  match l with
  | [] => EmptyString
  | s :: l' => s ++ join l'
  end.

Fixpoint mapi {A B : Type} (f : A -> nat -> B) (i : nat) (l : list A) : list B :=
  match l with
  | [] => []
  | a :: l' => f a i :: mapi f (S i) l'
  end.

(** [statusMap[status] || status]; keys that an object literal inherits from
    its prototype are left out. *)
Definition getStatusText (status : string) : string :=
  if String.eqb status "pending" then "Menunggu Pembayaran"
  else if String.eqb status "paid" then "Dibayar"
  else if String.eqb status "processing" then "Diproses"
  else if String.eqb status "shipped" then "Dikirim"
  else if String.eqb status "completed" then "Selesai"
  else if String.eqb status "cancelled" then "Dibatalkan"
  else status.

Section Platform.

(** [new Intl.NumberFormat("id-ID", { style: "currency", currency: "IDR",
    minimumFractionDigits: 0 }).format] *)
Variable Intl_NumberFormat_format : Z -> string.

(** [s => new Date(s).toLocaleDateString("id-ID")] *)
Variable toLocaleDateString : string -> string.

Definition formatPrice (price : Z) : string := Intl_NumberFormat_format price.

Definition item_lines (item : Item.t) (index : nat) : string :=
  nl ++ Text.of_Z (Z.of_nat index + 1) ++ ". " ++ Item.product_name item ++ nl
  ++ "   " ++ Text.of_Z (Item.quantity item) ++ " x "
  ++ formatPrice (Item.product_price item) ++ " = "
  ++ formatPrice (Item.subtotal item) ++ nl.

Definition invoiceContent (order : Order.t) : string :=
  Text.trim
    (nl ++ "=================================" ++ nl
     ++ "      WARUNG MADURA" ++ nl
     ++ "   Apotek Online Terpercaya" ++ nl
     ++ "=================================" ++ nl
     ++ "Invoice: " ++ Order.order_number order ++ nl
     ++ "Tanggal: " ++ toLocaleDateString (Order.created_at order) ++ nl
     ++ "---------------------------------" ++ nl
     ++ nl
     ++ "ITEM PESANAN:" ++ nl
     ++ join (mapi item_lines 0 (Order.order_items order)) ++ nl
     ++ nl
     ++ "---------------------------------" ++ nl
     ++ "TOTAL: " ++ formatPrice (Order.total_amount order) ++ nl
     ++ "---------------------------------" ++ nl
     ++ nl
     ++ "Alamat Pengiriman:" ++ nl
     ++ Order.shipping_address order ++ nl
     ++ nl
     ++ "Status: " ++ getStatusText (Order.status order) ++ nl
     ++ nl
     ++ "Terima kasih telah berbelanja" ++ nl
     ++ "di Warung Madura!" ++ nl
     ++ "=================================" ++ nl
     ++ "    ").

Definition downloadInvoice (order : Order.t) : M unit :=
  emit (Download ("Invoice-" ++ Order.order_number order ++ ".txt")
                 (invoiceContent order)).

End Platform.

End OrdersPage.

(** ** A small shop to run the handlers on

    Two of the products and categories the migration seeds, a customer and
    an administrator, each with a cart. *)

Module Shop.

Definition budi : User.t := User.mk "u-budi".
Definition siti : User.t := User.mk "u-siti".

Definition obat_herbal : Category.t :=
  Category.mk "c-herbal" "Obat Herbal" "obat-herbal" None 0.
Definition obat_demam : Category.t :=
  Category.mk "c-demam" "Obat Demam" "obat-demam" None 0.

Definition tolak_angin : Product.t :=
  Product.mk "p-tolak-angin" "Tolak Angin" "tolak-angin"
             (Some "Obat herbal masuk angin") 500000 200 (Some "c-herbal")
             None (Some "Diminum saat masuk angin") (Some true) 0 0
             None None (Some "2025-11-06").
Definition paracetamol : Product.t :=
  Product.mk "p-paracetamol" "Paracetamol 500mg" "paracetamol-500mg"
             (Some "Obat penurun panas dan pereda nyeri") 800000 120
             (Some "c-demam") None (Some "3-4x sehari 1 tablet") (Some false) 0 0
             None None (Some "2025-11-06").

Definition database : DB :=
  mkDB
    [ UserRole.mk "r-1" "u-budi" AppRole.user 0;
      UserRole.mk "r-2" "u-siti" AppRole.user 0;
      UserRole.mk "r-3" "u-siti" AppRole.admin 0 ]
    [ obat_herbal; obat_demam ]
    [ tolak_angin; paracetamol ]
    [ Cart.mk "cart-budi" "u-budi" 0 0; Cart.mk "cart-siti" "u-siti" 0 0 ]
    [ CartItemRow.mk "ci-1" "cart-budi" "p-paracetamol" 2 0;
      CartItemRow.mk "ci-2" "cart-siti" "p-paracetamol" 2 0 ]
    [] []
    String.leb.

(** Every request is applied, at time 1000; the n-th row that the k-th
    request adds gets the key row-k-n. *)
Definition fair : nat -> Exchange :=
  fun k =>
    mkExchange Applied 1000
      (fun n => "row-" ++ Text.of_Z (Z.of_nat k) ++ "-" ++ Text.of_Z (Z.of_nat n)).

Definition world (who : User.t) : World :=
  mkWorld database (Some (User.id who)) fair 1730000000000 [] [].

(** The cart page shows one line: two boxes of paracetamol. *)
Definition cart_line (i : Id) : CartItem.t :=
  CartItem.mk i 2 (Backend.embed_product paracetamol).

End Shop.

(** ** The status of an order: the statement under test *)

(** An order that differs from [o] in its status alone. *)
Definition with_status (st : string) (o : Order.t) : Order.t :=
  Order.mk (Order.id o) (Order.user_id o) (Order.order_number o)
           (Order.total_amount o) st (Order.payment_method o)
           (Order.shipping_address o) (Order.created_at o) (Order.updated_at o).

(** "When an administrator sets the status of an order to one of the six
    values, the order has that status afterwards and no other field of it
    has changed." *)
Definition status_update_changes_status_only : Prop :=
  forall (orderId : Id) (status : string) (w : World) (k : nat) (o : Order.t),
    is_admin (db w) (session w) = true ->
    In status AdminPage.statuses ->
    fate (net w (List.length (requests w))) = Applied ->
    nth_error (orders (db w)) k = Some o ->
    Order.id o = orderId ->
    nth_error (orders (db (exec (AdminPage.updateOrderStatus orderId status) w))) k
    = Some (with_status status o).

(** The shop after Budi's first order, placed at time 500. *)
Definition first_order : Order.t :=
  Order.mk "o-1" "u-budi" "WM500" 1600000 "pending" (Some "cash")
           "Jl. Merdeka 1" 500 500.

Definition shop_with_order (who : User.t) : World :=
  mkWorld (with_orders Shop.database [first_order]) (Some (User.id who))
          Shop.fair 1730000000000 [] [].

(** ** The stock loop, request by request

    What the loop "Update product stock" of handleCheckout does to the
    products, as a function of the fates of its requests: [stopped] is the
    error of a rejected request, if one ended the loop, [shelf] the products
    afterwards, [sent] the number of requests sent. *)

Record LoopRun : Type := mkLoopRun
  { stopped : option Error; shelf : list Product.t; sent : nat }.

Definition bought (item : CartItem.t) : Id :=
  CartItem.Products.id (CartItem.products item).

Definition remaining (item : CartItem.t) : Z :=
  CartItem.Products.stock (CartItem.products item) - CartItem.quantity item.

Definition restock (may_write : bool) (x : Exchange) (item : CartItem.t)
  (ps : list Product.t) : list Product.t :=
  map (fun p => if may_write && String.eqb (Product.id p) (bought item)
                then Backend.set_stock (remaining item) (now x) p else p)
      ps.

Fixpoint stock_loop (may_write : bool) (xs : nat -> Exchange) (n : nat)
  (items : list CartItem.t) (ps : list Product.t) : LoopRun :=
  match items with
  | [] => mkLoopRun None ps 0
  | item :: rest =>
      match fate (xs n) with
      | Rejected e => mkLoopRun (Some e) ps 1
      | Refused _ =>
          let r := stock_loop may_write xs (S n) rest ps in
          mkLoopRun (stopped r) (shelf r) (S (sent r))
      | Applied =>
          let r := stock_loop may_write xs (S n) rest
                              (restock may_write (xs n) item ps) in
          mkLoopRun (stopped r) (shelf r) (S (sent r))
      end
  end.

(** The cart line that buys product [p], if there is one. *)
Definition purchase (items : list CartItem.t) (p : Id) : option CartItem.t :=
  find (fun item => String.eqb (bought item) p) items.

(** The products [ps'] are the products [ps] after the purchases [items]:
    row by row, a product that a cart line buys has the stock that line
    computed ([may_write] says whether the session may update products at
    all), and every other product is as it was. *)
Definition restocked (may_write : bool) (items : list CartItem.t)
  (ps ps' : list Product.t) : Prop :=
  List.length ps' = List.length ps
  /\ forall (j : nat) (p : Product.t),
       nth_error ps j = Some p ->
       exists p',
         nth_error ps' j = Some p'
         /\ Product.id p' = Product.id p
         /\ match purchase items (Product.id p) with
            | Some item =>
                if may_write
                then exists t, p' = Backend.set_stock (remaining item) t p
                else p' = p
            | None => p' = p
            end.

(** ** Checkout, outcome by outcome

    The world a checkout leaves when its guards let it through, as a
    function of the fates of its requests. *)

Definition ins_orders : Request := mkRequest INSERT "orders".
Definition ins_order_items : Request := mkRequest INSERT "order_items".
Definition upd_products : Request := mkRequest UPDATE "products".
Definition del_cart_items : Request := mkRequest DELETE "cart_items".

(** The row the checkout asks the backend to add to [orders]. *)
Definition order_payload (u : User.t) (cartItems : list CartItem.t)
  (shippingAddress : string) (w : World) : NewOrder.t :=
  NewOrder.mk (User.id u) ("WM" ++ Text.of_Z (clock w))
              (CartPage.calculateTotal cartItems) "pending" "cash"
              shippingAddress.

(** The checkout gave up with error [e], having sent [sent] and left [d]. *)
Definition gave_up (w : World) (d : DB) (sent : list Request) (e : Error) : World :=
  mkWorld d (session w) (net w) (clock w) (requests w ++ sent)
          (ui w ++ [SetLoading true;
                    ToastError (Text.or_else (message e) "Gagal membuat pesanan");
                    SetLoading false]).

(** The checkout announced success, having sent [sent] and left [d]. *)
Definition went_through (w : World) (d : DB) (sent : list Request) : World :=
  mkWorld d (session w) (net w) (clock w) (requests w ++ sent)
          (ui w ++ [SetLoading true; ToastSuccess "Pesanan berhasil dibuat!";
                    Navigate "/orders"; SetLoading false]).

Definition checkout_outcome (u : User.t) (c : Id) (cartItems : list CartItem.t)
  (shippingAddress : string) (w : World) : World :=
  let n := List.length (requests w) in
  match fate (net w n) with
  | Rejected e | Refused e => gave_up w (db w) [ins_orders] e
  | Applied =>
      match Backend.orders_insert (order_payload u cartItems shippingAddress w)
                                  (session w) (net w n) (db w) with
      | (inr e, _) => gave_up w (db w) [ins_orders] e
      | (inl order, d1) =>
          match fate (net w (S n)) with
          | Rejected e | Refused e => gave_up w d1 [ins_orders; ins_order_items] e
          | Applied =>
              match Backend.order_items_insert
                      (CartPage.orderItems order cartItems)
                      (session w) (net w (S n)) d1 with
              | (inr e, _) => gave_up w d1 [ins_orders; ins_order_items] e
              | (inl _, d2) =>
                  let r := stock_loop (is_admin d2 (session w)) (net w) (S (S n))
                                      cartItems (products d2) in
                  let d3 := with_products d2 (shelf r) in
                  let sent_so_far :=
                    (ins_orders :: ins_order_items :: repeat upd_products (sent r)) in
                  match stopped r with
                  | Some e => gave_up w d3 sent_so_far e
                  | None =>
                      let x := net w (S (S n) + sent r) in
                      match fate x with
                      | Rejected e =>
                          gave_up w d3 (sent_so_far ++ [del_cart_items]) e
                      | Refused _ =>
                          went_through w d3 (sent_so_far ++ [del_cart_items])
                      | Applied =>
                          went_through w
                            (snd (Backend.cart_items_delete c (session w) x d3))
                            (sent_so_far ++ [del_cart_items])
                      end
                  end
              end
          end
      end
  end.

(** ** Checkout: the statements under test *)

(** The checkout of [w] announced success on its way to [w']. *)
Definition checkout_succeeded (w w' : World) : Prop :=
  ui w' = (ui w ++ [SetLoading true; ToastSuccess "Pesanan berhasil dibuat!";
                    Navigate "/orders"; SetLoading false])%list.

Definition every_request_applied (w : World) : Prop :=
  forall k : nat, fate (net w k) = Applied.

Definition line_total (item : CartItem.t) : Z :=
  CartItem.Products.price (CartItem.products item) * CartItem.quantity item.

Definition total (amounts : list Z) : Z := fold_right Z.add 0 amounts.

(** [row] is the snapshot of the cart line [item] in the order [o]. *)
Definition snapshot_of (o : Order.t) (item : CartItem.t) (row : OrderItem.t) : Prop :=
  OrderItem.order_id row = Order.id o
  /\ OrderItem.product_id row = Some (bought item)
  /\ OrderItem.product_name row = CartItem.Products.name (CartItem.products item)
  /\ OrderItem.product_price row = CartItem.Products.price (CartItem.products item)
  /\ OrderItem.quantity row = CartItem.quantity item
  /\ OrderItem.subtotal row = line_total item.

(** The third part of C1: "each purchased product's stock is set to its
    prior stock minus the purchased quantity", for a checkout that went
    through with every request applied and one cart line per product. *)
Definition checkout_decrements_prior_stock : Prop :=
  forall (u : User.t) (c : Id) (cartItems : list CartItem.t)
         (shippingAddress : string) (w : World),
    let w' := exec (CartPage.handleCheckout (Some u) (Some c) cartItems
                                            shippingAddress) w in
    checkout_succeeded w w' ->
    every_request_applied w ->
    NoDup (map bought cartItems) ->
    forall (j : nat) (p : Product.t) (item : CartItem.t),
      nth_error (products (db w)) j = Some p ->
      purchase cartItems (Product.id p) = Some item ->
      exists p',
        nth_error (products (db w')) j = Some p'
        /\ Product.stock p' = Product.stock p - CartItem.quantity item.

(** Siti's cart page was loaded when 150 boxes of paracetamol were in stock;
    30 have been sold since. *)
Definition stale_line : CartItem.t :=
  CartItem.mk "ci-2" 2
    (CartItem.Products.mk "p-paracetamol" "Paracetamol 500mg" 800000 150 None).


(** A network on which the request number [k] resolves with an error and
    every other request is applied. *)
Definition refuses_at (k : nat) : nat -> Exchange :=
  fun j =>
    if Nat.eqb j k
    then mkExchange (Refused (mkError "Failed to fetch")) 1000 (fun _ => "none")
    else Shop.fair j.

(** Siti's cart with two lines: 2 sachets of Tolak Angin, 2 boxes of
    paracetamol. *)
Definition two_lines : list CartItem.t :=
  [ CartItem.mk "ci-3" 2 (Backend.embed_product Shop.tolak_angin);
    Shop.cart_line "ci-2" ].

Definition shop_on (nt : nat -> Exchange) (who : User.t) : World :=
  mkWorld Shop.database (Some (User.id who)) nt 1730000000000 [] [].


(** ** Checkout: failures, the statements under test *)



(** ** The catalog: statements under test *)

(** [a] may come before [b] in a list ordered by [leb]. *)
Definition ordered_by {A : Type} (leb : A -> A -> bool) (a b : A) : Prop :=
  leb a b = true.

(** [ORDER BY is_popular DESC, name ASC] in the collation of [d]. *)
Definition catalog_order (d : DB) : Listed.t -> Listed.t -> Prop :=
  ordered_by (Backend.catalog_leb (collation d)).

(** The part of C5 about the search text: "every returned product's name
    contains q as a case-insensitive substring when q is present". *)
Definition catalog_shows_only_names_containing_the_search : Prop :=
  forall (selectedCategory : option Id) (searchQuery : string) (w : World)
         (shown : list Listed.t) (p : Listed.t),
    ui (exec (IndexPage.fetchProducts selectedCategory searchQuery) w)
    = (ui w ++ [SetProducts shown])%list ->
    In p shown ->
    Text.truthy searchQuery = true ->
    Text.contains_ci (Product.name (Listed.product p)) searchQuery.

(** What fetchProducts guarantees of a product it shows. *)
Definition listed_for (selectedCategory : option Id) (searchQuery : string)
  (p : Listed.t) : Prop :=
  0 < Product.stock (Listed.product p)
  /\ (forall c, selectedCategory = Some c -> Text.truthy c = true ->
                Product.category_id (Listed.product p) = Some c)
  /\ (Text.truthy searchQuery = true ->
      Text.ilike (Product.name (Listed.product p)) ("%" ++ searchQuery ++ "%")
      = Some true)
  /\ (Text.truthy searchQuery = true ->
      forallb (fun c => negb (Text.is_meta c)) (list_ascii_of_string searchQuery)
      = true ->
      Text.contains_ci (Product.name (Listed.product p)) searchQuery).

(** The pattern fetchProducts sends for a search text, as the REST layer
    hands it to [ILIKE]. *)
Definition search_pattern (searchQuery : string) : list ascii :=
  map Text.star2percent (list_ascii_of_string ("%" ++ searchQuery ++ "%")).

(** The two products of the shop as the catalog lists them. *)
Definition whole_catalog : list Listed.t :=
  [ Listed.mk Shop.tolak_angin (Some "Obat Herbal");
    Listed.mk Shop.paracetamol (Some "Obat Demam") ].

(** [ORDER BY is_popular DESC] puts [a] before [b]: a row without the flag
    comes before every row with one, and a popular row before one that is
    not. *)
Definition more_popular (a b : Product.t) : Prop :=
  match Product.is_popular a, Product.is_popular b with
  | None, Some _ => True
  | Some true, Some false => True
  | _, _ => False
  end.

(** [a] may stand before [b] in a list sorted by popularity descending,
    then by name ascending in the collation of [d]. *)
Definition popular_first_then_by_name (d : DB) (a b : Listed.t) : Prop :=
  more_popular (Listed.product a) (Listed.product b)
  \/ (Product.is_popular (Listed.product a) = Product.is_popular (Listed.product b)
      /\ collation d (Product.name (Listed.product a))
                      (Product.name (Listed.product b)) = true).

(** A larger catalog: three more products in stock, one of them without the
    popularity flag and one with a capital E with an acute accent in its
    name, and one product that is sold out. The accented letter is the one
    character 201 of the text; it is not written inside the literal, where
    it would stand for the two bytes of its UTF-8 encoding. *)
Definition antangin : Product.t :=
  Product.mk "p-antangin" "Antangin JRG" "antangin-jrg" None 300000 50
             (Some "c-herbal") None None None 0 0 None None None.
Definition bodrex : Product.t :=
  Product.mk "p-bodrex" "Bodrex Flu" "bodrex-flu" None 1200000 80 None
             None None (Some true) 0 0 None None None.
Definition sirop : Product.t :=
  Product.mk "p-sirop" ("SIROP " ++ String (ascii_of_nat 201) "CHINACEA")
             "sirop-echinacea" None 4500000 10 (Some "c-herbal")
             None None (Some false) 0 0 None None None.
Definition paramex : Product.t :=
  Product.mk "p-paramex" "Paramex Nyeri" "paramex-nyeri" None 1500000 0 None
             None None (Some true) 0 0 None None None.

Definition apotek : World :=
  mkWorld (with_products Shop.database
             [Shop.paracetamol; sirop; paramex; Shop.tolak_angin; bodrex; antangin])
          None Shop.fair 1730000000000 [] [].

(** The search text "ech" with a small e with an acute accent (the
    character 233) in place of the e. *)
Definition e_acute_ch : string := String (ascii_of_nat 233) "ch".

(** ** Adding to the cart: statements *)






(** A visitor without a cart. *)
Definition wati : User.t := User.mk "u-wati".



(** ** Invariants of the database *)



(** * The other handlers of the pages *)

(** ** More requests of the backend *)

(** The payload of an insert into, or an update of, [products] by the
    administration page. [None] in [price] or [stock] is the [null] that
    [JSON.stringify] makes of [NaN]. *)
Module ProductData.
Record t : Type := mk
  { name : string; slug : string; description : string;
    price : option Z; stock : option Z; category_id : option Id;
    dosage : string }.
End ProductData.

Definition not_null_violation : Error :=
  mkError "null value in column violates not-null constraint".

Module Store.

(** *** cart_items *)

(** [from("cart_items").delete().eq("id", i)]. *)
Definition cart_items_delete_one (i : Id) : Server unit :=
  fun s _ d =>
    (inl tt,
     with_cart_items d
       (filter (fun r => negb (Backend.visible_item d s r
                               && String.eqb (CartItemRow.id r) i))
               (cart_items d))).

(** *** categories *)

(** [ORDER BY name] in the collation of the database. *)
Definition by_name {A : Type} (d : DB) (name : A -> string) (a b : A) : bool :=
  collation d (name a) (name b).

(** [from("categories").select("*").order("name")]. Everyone may read
    categories. *)
Definition categories_select : Server (list Category.t) :=
  fun _ _ d => (inl (order_by (by_name d Category.name) (categories d)), d).

(** *** products *)

Definition with_category (d : DB) (p : Product.t) : Listed.t :=
  Listed.mk p (Backend.category_name d (Product.category_id p)).

(** [from("products").select("*, categories (name)").order("name")]. *)
Definition products_select_all : Server (list Listed.t) :=
  fun _ _ d =>
    (inl (order_by (by_name d (fun l => Product.name (Listed.product l)))
                   (map (with_category d) (products d))), d).

(** [from("products").select("*, categories (name)").eq("slug",
    slug).single()]. *)
Definition products_select_by_slug (slug : string) : Server Listed.t :=
  fun _ _ d =>
    (single (map (with_category d)
                 (filter (fun p => String.eqb (Product.slug p) slug) (products d))),
     d).

(** The foreign key of [products.category_id]. *)
Definition category_known (d : DB) (c : option Id) : bool :=
  match c with
  | None => true
  | Some i => existsb (fun r => String.eqb (Category.id r) i) (categories d)
  end.

(** The row [p] with the columns of the payload set; the trigger
    [update_products_updated_at] stamps it. *)
Definition set_fields (n : ProductData.t) (price stock : Z) (t : Timestamp)
  (p : Product.t) : Product.t :=
  Product.mk (Product.id p) (ProductData.name n) (ProductData.slug n)
             (Some (ProductData.description n)) price stock
             (ProductData.category_id n) (Product.image_url p)
             (Some (ProductData.dosage n)) (Product.is_popular p)
             (Product.created_at p) t (Product.barcode p)
             (Product.expiry_date p) (Product.stock_entry_date p).

(** [from("products").update(productData).eq("id", i)]. "Admins can manage
    products" is the only policy for UPDATE: for any other session no row
    qualifies. A statement that changes no row succeeds; for one that does,
    [NOT NULL] of [price] and [stock], [UNIQUE(slug)] and the foreign key of
    [category_id] are checked on the new rows. *)
Definition products_update_row (i : Id) (n : ProductData.t) : Server unit :=
  fun s x d =>
    let hit := fun p => is_admin d s && String.eqb (Product.id p) i in
    match filter hit (products d) with
    | [] => (inl tt, d)
    | [_] =>
        match ProductData.price n, ProductData.stock n with
        | Some price, Some stock =>
            if existsb (fun p => negb (hit p)
                                 && String.eqb (Product.slug p) (ProductData.slug n))
                       (products d)
            then (inr unique_violation, d)
            else if negb (category_known d (ProductData.category_id n))
            then (inr foreign_key_violation, d)
            else
              (inl tt,
               with_products d
                 (map (fun p => if hit p then set_fields n price stock (now x) p
                                else p)
                      (products d)))
        | _, _ => (inr not_null_violation, d)
        end
    | _ :: _ :: _ =>
        match ProductData.price n, ProductData.stock n with
        | Some _, Some _ => (inr unique_violation, d)
        | _, _ => (inr not_null_violation, d)
        end
    end.

Section Calendar.

(** [CURRENT_DATE] as the backend prints it, at the time of a request. *)
Variable current_date : Timestamp -> string.

(** The row an insert of the payload adds: the columns the payload leaves
    out get their defaults. *)
Definition new_product (x : Exchange) (n : ProductData.t) (price stock : Z)
  : Product.t :=
  Product.mk (gen_random_uuid x 0%nat) (ProductData.name n) (ProductData.slug n)
             (Some (ProductData.description n)) price stock
             (ProductData.category_id n) None (Some (ProductData.dosage n))
             (Some false) (now x) (now x) None None
             (Some (current_date (now x))).

(** [from("products").insert(productData)]. The policy is checked on the
    new row, then [NOT NULL], the primary key and [UNIQUE(slug)], and the
    foreign key of [category_id]. *)
Definition products_insert (n : ProductData.t) : Server unit :=
  fun s x d =>
    if negb (is_admin d s) then (inr rls_violation, d)
    else
      match ProductData.price n, ProductData.stock n with
      | Some price, Some stock =>
          if Backend.taken (gen_random_uuid x 0%nat) (map Product.id (products d))
             || existsb (fun p => String.eqb (Product.slug p) (ProductData.slug n))
                        (products d)
          then (inr unique_violation, d)
          else if negb (category_known d (ProductData.category_id n))
          then (inr foreign_key_violation, d)
          else (inl tt, with_products d (products d ++ [new_product x n price stock]))
      | _, _ => (inr not_null_violation, d)
      end.

End Calendar.

(** [ON DELETE SET NULL] of [order_items.product_id]. *)
Definition without_product (r : OrderItem.t) : OrderItem.t :=
  OrderItem.mk (OrderItem.id r) (OrderItem.order_id r) None
               (OrderItem.product_name r) (OrderItem.product_price r)
               (OrderItem.quantity r) (OrderItem.subtotal r)
               (OrderItem.created_at r).

Definition refers_to (i : Id) (p : option Id) : bool :=
  match p with
  | Some j => String.eqb j i
  | None => false
  end.

(** [from("products").delete().eq("id", i)]. Only an administrator's
    statement finds the row. With the row go the cart items of the product
    ([ON DELETE CASCADE]); the order items of the product stay, without
    their reference ([ON DELETE SET NULL]). *)
Definition products_delete (i : Id) : Server unit :=
  fun s _ d =>
    let deleted :=
      is_admin d s && Backend.taken i (map Product.id (products d)) in
    (inl tt,
     mkDB (user_roles d) (categories d)
          (filter (fun p => negb (deleted && String.eqb (Product.id p) i))
                  (products d))
          (carts d)
          (filter (fun r => negb (deleted && String.eqb (CartItemRow.product_id r) i))
                  (cart_items d))
          (orders d)
          (map (fun r => if deleted && refers_to i (OrderItem.product_id r)
                         then without_product r else r)
               (order_items d))
          (collation d)).

(** *** orders, with their items *)

(** The rows of [order_items] the session may see: those of its own orders,
    and all of them for an administrator. *)
Definition visible_order_item (d : DB) (s : Session) (r : OrderItem.t) : bool :=
  owns_order d s (OrderItem.order_id r) || is_admin d s.

Definition as_item (r : OrderItem.t) : OrdersPage.Item.t :=
  OrdersPage.Item.mk (OrderItem.product_name r) (OrderItem.product_price r)
                     (OrderItem.quantity r) (OrderItem.subtotal r).

Section Json.

(** The text of a [TIMESTAMPTZ] in a response. *)
Variable timestamptz : Timestamp -> string.

(** An order with its [order_items] embedded: the visible rows that refer
    to it, in the order of the table. *)
Definition with_items (d : DB) (s : Session) (o : Order.t) : OrdersPage.Order.t :=
  OrdersPage.Order.mk
    (Order.id o) (Order.order_number o) (Order.total_amount o) (Order.status o)
    (Order.shipping_address o) (timestamptz (Order.created_at o))
    (map as_item
         (filter (fun r => visible_order_item d s r
                           && String.eqb (OrderItem.order_id r) (Order.id o))
                 (order_items d))).

(** [from("orders").select("*, order_items (*)").eq("user_id",
    u).order("created_at", { ascending: false })]. *)
Definition orders_select_of (u : Id) : Server (list OrdersPage.Order.t) :=
  fun s _ d =>
    (inl (map (with_items d s)
              (order_by (fun a b => Order.created_at b <=? Order.created_at a)
                 (filter (fun o => (uid_is s (Order.user_id o) || is_admin d s)
                                   && String.eqb (Order.user_id o) u)
                         (orders d)))), d).

End Json.

End Store.

(** A call that is not awaited: its requests and its effects follow, and a
    rejection of its promise reaches no handler. *)
Definition detached (c : M unit) : M unit := try_catch c (fun _ => ret tt).

(** ** src/pages/Cart.tsx: removeItem *)

Module Removal.

Definition removeItem (user : option User.t) (itemId : Id) : M unit :=
  let* r := rpc (mkRequest DELETE "cart_items")
                (Store.cart_items_delete_one itemId) in
  match error r with
  | Some _ => emit (ToastError "Gagal menghapus item")
  | None =>
      emit (ToastSuccess "Item dihapus") ;;
      detached (CartPage.fetchCart user)
  end.

End Removal.

(** ** src/pages/ProductDetail.tsx: fetchProduct and the quantity field

    A handler that sets a state of the page which is no [UiEvent] returns
    what it sets: [None] when it returns without setting it. *)

Module ProductPage.

(** [slug] is what the route [/product/:slug] gave the page. *)
Definition fetchProduct (slug : string) : M (option Listed.t) :=
  let* r := rpc (mkRequest SELECT "products")
                (Store.products_select_by_slug slug) in
  match error r, data r with
  | None, Some product => ret (Some product)
  | _, _ =>
      emit (ToastError "Produk tidak ditemukan") ;;
      emit (Navigate "/") ;;
      ret None
  end.

Section Platform.

(** [parseInt] on the text of the field; [None] is [NaN]. *)
Variable parseInt : string -> option Z.

(** [x || 1] on a number: [NaN] and 0 are falsy. *)
Definition or_one (x : option Z) : Z :=
  match x with
  | Some n => if n =? 0 then 1 else n
  | None => 1
  end.

(** The [onChange] of the quantity field:
    [Math.max(1, Math.min(product.stock, parseInt(e.target.value) || 1))]. *)
Definition quantity_input (product : Product.t) (value : string) : Z :=
  Z.max 1 (Z.min (Product.stock product) (or_one (parseInt value))).

End Platform.

End ProductPage.

(** ** src/pages/Index.tsx: fetchCategories *)

Module Categories.

Definition fetchCategories : M (option (list Category.t)) :=
  let* r := rpc (mkRequest SELECT "categories") Store.categories_select in
  match error r with
  | Some _ => emit (ToastError "Gagal memuat kategori") ;; ret None
  | None => ret (Some match data r with Some l => l | None => [] end)
  end.

End Categories.

(** ** src/pages/Orders.tsx: fetchOrders *)

Module History.

Section Json.

Variable timestamptz : Timestamp -> string.

Definition fetchOrders (user : option User.t)
  : M (option (list OrdersPage.Order.t)) :=
  match user with
  | None => ret None
  | Some u =>
      let* r := rpc (mkRequest SELECT "orders")
                    (Store.orders_select_of timestamptz (User.id u)) in
      match error r with
      | Some _ =>
          emit (ToastError "Gagal memuat pesanan") ;;
          emit (SetLoading false) ;;
          ret None
      | None =>
          emit (SetLoading false) ;;
          ret (Some match data r with Some l => l | None => [] end)
      end
  end.

End Json.

End History.

(** ** src/pages/Admin.tsx: the products *)

Module Inventory.

(** The state [productForm]. *)
Module Form.
Record t : Type := mk
  { name : string; slug : string; description : string; price : string;
    stock : string; category_id : string; dosage : string }.

Definition empty : t :=
  mk EmptyString EmptyString EmptyString EmptyString EmptyString EmptyString
     EmptyString.
End Form.

(** The two states the product handlers set. *)
Record Page : Type := mkPage
  { editingProduct : option Id; productForm : Form.t }.

(** [String.prototype.toLowerCase] on one character below 256: the letters
    A-Z and the capital letters of Latin-1 (all of 192-222 but the
    multiplication sign). *)
Definition toLowerCase (c : ascii) : ascii :=
  let n := N_of_ascii c in
  if ((65 <=? n)%N && (n <=? 90)%N)
     || ((192 <=? n)%N && (n <=? 222)%N && negb (n =? 215)%N)
  then ascii_of_N (n + 32) else c.

(** [replace(/\s+/g, "-")]: every maximal run of white space becomes one
    dash. [in_run] says that the previous character was white space. *)
Fixpoint dashes (in_run : bool) (s : list ascii) : list ascii :=
  match s with
  | [] => []
  | c :: s' =>
      if Text.is_white_space c
      then if in_run then dashes true s' else "-"%char :: dashes true s'
      else c :: dashes false s'
  end.

(** [name.toLowerCase().replace(/\s+/g, "-")]. *)
Definition slug_of_name (name : string) : string :=
  string_of_list_ascii (dashes false (map toLowerCase (list_ascii_of_string name))).

Definition fetchCategories : M (list Category.t) :=
  let* r := rpc (mkRequest SELECT "categories") Store.categories_select in
  ret match data r with Some l => l | None => [] end.

Definition fetchProducts : M unit :=
  let* r := rpc (mkRequest SELECT "products") Store.products_select_all in
  emit (SetProducts match data r with Some l => l | None => [] end).

Section Platform.

(** [parseFloat] on the text of the price field, as the hundredths the
    backend makes of the number, and [parseInt] on the text of the stock
    field; [None] is [NaN]. [Number_toString] is [toString] of an amount. *)
Variable parseFloat : string -> option Z.
Variable parseInt : string -> option Z.
Variable Number_toString : Z -> string.
Variable current_date : Timestamp -> string.

Definition productData (productForm : Form.t) : ProductData.t :=
  ProductData.mk
    (Form.name productForm)
    (Text.or_else (Form.slug productForm) (slug_of_name (Form.name productForm)))
    (Form.description productForm)
    (parseFloat (Form.price productForm))
    (parseInt (Form.stock productForm))
    (if Text.truthy (Form.category_id productForm)
     then Some (Form.category_id productForm) else None)
    (Form.dosage productForm).

(** The product being edited, if [editingProduct] is truthy. *)
Definition editing (page : Page) : option Id :=
  match editingProduct page with
  | Some i => if Text.truthy i then Some i else None
  | None => None
  end.

(** The handler returns the page's two states as it leaves them. *)
Definition handleProductSubmit (page : Page) : M Page :=
  match editing page with
  | Some i =>
      let* r := rpc (mkRequest UPDATE "products")
                    (Store.products_update_row i (productData (productForm page))) in
      match error r with
      | Some _ => emit (ToastError "Gagal update produk") ;; ret page
      | None =>
          emit (ToastSuccess "Produk berhasil diupdate") ;;
          detached fetchProducts ;;
          ret (mkPage None Form.empty)
      end
  | None =>
      let* r := rpc (mkRequest INSERT "products")
                    (Store.products_insert current_date
                                           (productData (productForm page))) in
      match error r with
      | Some _ => emit (ToastError "Gagal menambah produk") ;; ret page
      | None =>
          emit (ToastSuccess "Produk berhasil ditambahkan") ;;
          detached fetchProducts ;;
          ret (mkPage (editingProduct page) Form.empty)
      end
  end.

Definition handleEditProduct (product : Listed.t) : Page :=
  mkPage (Some (Product.id (Listed.product product)))
         (Form.mk (Product.name (Listed.product product)) EmptyString EmptyString
                  (Number_toString (Product.price (Listed.product product)))
                  (Text.of_Z (Product.stock (Listed.product product)))
                  EmptyString EmptyString).

End Platform.

(** [confirmed] is the answer to [confirm("Yakin ingin menghapus produk
    ini?")]. *)
Definition handleDeleteProduct (confirmed : bool) (id : Id) : M unit :=
  if negb confirmed then ret tt
  else
    let* r := rpc (mkRequest DELETE "products") (Store.products_delete id) in
    match error r with
    | Some _ => emit (ToastError "Gagal menghapus produk")
    | None =>
        emit (ToastSuccess "Produk berhasil dihapus") ;;
        detached fetchProducts
    end.

End Inventory.

(** ** Invariants that depend on who is signed in *)

(** A computation of a client signed in as [s] takes a database with
    property [P] to one with property [Q], and stays signed in as [s]. *)
Definition leads_as (s : Session) (P Q : DB -> Prop) {A : Type} (c : M A) : Prop :=
  forall w : World,
    session w = s -> P (db w) ->
    Q (db (snd (c w))) /\ session (snd (c w)) = s.

(** A computation of a client signed in as [s] keeps a property of the
    database. *)
Definition preserves_as (s : Session) (I : DB -> Prop) {A : Type} (c : M A) : Prop :=
  leads_as s I I c.

(** A request of the session [s] keeps a property of the database. *)
Definition keeps_as (s : Session) (I : DB -> Prop) {A : Type} (srv : Server A)
  : Prop :=
  forall (x : Exchange) (d : DB), I d -> I (snd (srv s x d)).

(** A request that changes nothing. *)
Definition reads_only {A : Type} (srv : Server A) : Prop :=
  forall (s : Session) (x : Exchange) (d : DB), snd (srv s x d) = d.

(** ** The cart: statements *)

(** Every item of a cart has a quantity of one or more. *)
Definition quantities_positive (d : DB) : Prop :=
  Forall (fun r => 1 <= CartItemRow.quantity r) (cart_items d).

(** [UNIQUE(user_id)] holds of [carts]. *)
Definition one_cart_per_user (d : DB) : Prop :=
  NoDup (map Cart.user_id (carts d)).

(** The item [r] is in the database, in a cart that exists and is not the
    session's. *)
Definition item_of_another_cart (s : Session) (r : CartItemRow.t) (d : DB) : Prop :=
  In r (cart_items d)
  /\ owns_cart d s (CartItemRow.cart_id r) = false
  /\ In (CartItemRow.cart_id r) (map Cart.id (carts d)).

(** The carts of [u] that the session of [w] may see. *)
Definition own_carts (u : User.t) (w : World) : list Cart.t :=
  filter (fun x => uid_is (session w) (Cart.user_id x)
                   && String.eqb (Cart.user_id x) (User.id u))
         (carts (db w)).

(** The line the cart page shows for the item [r] of product [p]. *)
Definition line_of (r : CartItemRow.t) (p : Product.t) : CartItem.t :=
  CartItem.mk (CartItemRow.id r) (CartItemRow.quantity r) (Backend.embed_product p).

(** The lines the backend answers a query for the items of cart [c] with,
    in the world [w]. *)
Definition shown_lines (w : World) (c : Id) : list CartItem.t :=
  match fst (Backend.cart_items_select c (session w) (net w 0%nat) (db w)) with
  | inl l => l
  | inr _ => []
  end.

(** ** The lists of the pages: statements *)

(** [a] may come before [b] in a list ordered by name. *)
Definition by_category_name (d : DB) : Category.t -> Category.t -> Prop :=
  ordered_by (Store.by_name d Category.name).

Definition by_product_name (d : DB) : Listed.t -> Listed.t -> Prop :=
  ordered_by (Store.by_name d (fun l => Product.name (Listed.product l))).

(** [a] may come before [b] in a list with the newest order first. *)
Definition newest_first : Order.t -> Order.t -> Prop :=
  ordered_by (fun a b => Order.created_at b <=? Order.created_at a).

(** The order [o] as the orders page shows it when it shows all of its
    items: every row of [order_items] that refers to it. *)
Definition with_all_items (timestamptz : Timestamp -> string) (d : DB)
  (o : Order.t) : OrdersPage.Order.t :=
  OrdersPage.Order.mk
    (Order.id o) (Order.order_number o) (Order.total_amount o) (Order.status o)
    (Order.shipping_address o) (timestamptz (Order.created_at o))
    (map Store.as_item
         (filter (fun r => String.eqb (OrderItem.order_id r) (Order.id o))
                 (order_items d))).

(** ** The products of the administration page: statements *)

(** A form filled in for a new product, its slug left empty. *)
Definition jamu : Inventory.Form.t :=
  Inventory.Form.mk "Jamu Kunyit  Asam" EmptyString "Jamu segar" "7500" "40"
                    "c-herbal" "1x sehari".

(** ** Constraints of the tables: statements *)

(** The foreign key of [cart_items.product_id] holds. *)
Definition items_refer_to_products (d : DB) : Prop :=
  forall r, In r (cart_items d) ->
            In (CartItemRow.product_id r) (map Product.id (products d)).

(** The primary key of [products] and [UNIQUE(slug)] hold. *)
Definition product_keys_unique (d : DB) : Prop :=
  NoDup (map Product.id (products d)) /\ NoDup (map Product.slug (products d)).

(** ** From the cart to the orders page: statements *)

(** The foreign key of [order_items.order_id] holds. *)
Definition order_items_refer_to_orders (d : DB) : Prop :=
  forall r, In r (order_items d) ->
            In (OrderItem.order_id r) (map Order.id (orders d)).

(** The item the orders page shows for a line of the cart that was checked
    out. *)
Definition item_of_line (line : CartItem.t) : OrdersPage.Item.t :=
  OrdersPage.Item.mk (CartItem.Products.name (CartItem.products line))
                     (CartItem.Products.price (CartItem.products line))
                     (CartItem.quantity line)
                     (CartItem.Products.price (CartItem.products line)
                      * CartItem.quantity line).

(** * Properties of the handlers *)

(** ** The guards of handleCheckout *)

Lemma trimStart_white_space (s : list ascii) :
  forallb Text.is_white_space s = true -> Text.trimStart s = [].
Proof.
  induction s as [|c s IH]; simpl; [reflexivity|].
  intros H. apply andb_true_iff in H. destruct H as [Hc Hs].
  rewrite Hc. auto.
Qed.

Lemma trim_white_space (s : string) :
  forallb Text.is_white_space (list_ascii_of_string s) = true ->
  Text.trim s = EmptyString.
Proof.
  intros H. unfold Text.trim, Text.trimEnd.
  rewrite (trimStart_white_space _ H). reflexivity.
Qed.

(** C4. A checkout on an empty cart returns at once: no request is sent, no
    order is created, and nothing at all changes, whoever is signed in and
    whatever the address is. *)
Theorem checkout_empty_cart_does_nothing :
  forall (user : option User.t) (cartId : option Id) (shippingAddress : string)
         (w : World),
    CartPage.handleCheckout user cartId [] shippingAddress w = (Normal tt, w).
Proof.
  intros [u|] [c|] a w; reflexivity.
Qed.

(** C3. A checkout with an empty or whitespace-only shipping address sends no
    request: the database, and with it every order and every stock, is as it
    was. *)
Theorem checkout_blank_address_changes_nothing :
  forall (user : option User.t) (cartId : option Id)
         (cartItems : list CartItem.t) (shippingAddress : string) (w : World),
    forallb Text.is_white_space (list_ascii_of_string shippingAddress) = true ->
    db (exec (CartPage.handleCheckout user cartId cartItems shippingAddress) w) = db w
    /\ requests (exec (CartPage.handleCheckout user cartId cartItems shippingAddress) w)
       = requests w.
Proof.
  intros user cartId cartItems a w H.
  unfold exec, CartPage.handleCheckout.
  destruct user as [u|]; [|split; reflexivity].
  destruct cartId as [c|]; [|split; reflexivity].
  destruct cartItems as [|i l]; [split; reflexivity|].
  destruct (Text.truthy c); [|split; reflexivity].
  rewrite (trim_white_space _ H). simpl. split; reflexivity.
Qed.

Lemma checkout_blank_address_witness :
  db (exec (CartPage.handleCheckout (Some Shop.budi) (Some "cart-budi")
              [Shop.cart_line "ci-1"] "   ") (Shop.world Shop.budi))
  = db (Shop.world Shop.budi)
  /\ requests (exec (CartPage.handleCheckout (Some Shop.budi) (Some "cart-budi")
                       [Shop.cart_line "ci-1"] "   ") (Shop.world Shop.budi))
     = requests (Shop.world Shop.budi).
Proof.
  apply (checkout_blank_address_changes_nothing
           (Some Shop.budi) (Some "cart-budi") [Shop.cart_line "ci-1"] "   "
           (Shop.world Shop.budi)).
  reflexivity.
Defined.

(** ** The invoice *)

(** C8. The invoice is a function of the order record alone (and of the
    platform's number and date formatting): whatever the database, the
    session, the clock and the network are, downloading the invoice of one
    order twice hands out the same file name and the same text both times;
    it sends no request and leaves the database alone. *)
Theorem downloadInvoice_is_local_and_repeatable :
  forall (Intl_NumberFormat_format : Z -> string)
         (toLocaleDateString : string -> string)
         (order : OrdersPage.Order.t) (w1 w2 : World),
    let download :=
      OrdersPage.downloadInvoice Intl_NumberFormat_format toLocaleDateString order in
    let file :=
      Download ("Invoice-" ++ OrdersPage.Order.order_number order ++ ".txt")
               (OrdersPage.invoiceContent Intl_NumberFormat_format
                                          toLocaleDateString order) in
    ui (exec download w1) = (ui w1 ++ [file])%list
    /\ ui (exec download w2) = (ui w2 ++ [file])%list
    /\ ui (exec (download ;; download) w1) = (ui w1 ++ [file; file])%list
    /\ requests (exec download w1) = requests w1
    /\ db (exec download w1) = db w1.
Proof.
  intros fmt date order w1 w2 download file.
  unfold download, file, exec, OrdersPage.downloadInvoice, bind, emit; simpl.
  rewrite <- app_assoc. simpl. repeat split; reflexivity.
Qed.

(** ** Reading the cart, changing a quantity *)

(** Unfolds the plumbing of the client monad. *)
Ltac client_unfold :=
  unfold exec, completion, bind, rpc, emit, ret, throw, try_catch, finally,
         Date_now, respond in *.

Lemma fetchCart_reads_only (user : option User.t) (w : World) :
  db (exec (CartPage.fetchCart user) w) = db w
  /\ exists reads,
       requests (exec (CartPage.fetchCart user) w) = (requests w ++ reads)%list
       /\ Forall (fun r => is_write r = false) reads.
Proof.
  unfold CartPage.fetchCart. destruct user as [u|].
  2:{ split; [reflexivity|]. exists []. rewrite app_nil_r. split; [reflexivity|constructor]. }
  client_unfold. cbn [data error fst snd].
  destruct (fate (net w (List.length (requests w)))) eqn:F1; cbn.
  - destruct (single _) as [c|e]; cbn.
    + match goal with
      | |- context [fate ?x] => destruct (fate x) eqn:F2
      end; cbn.
      * split; [reflexivity|].
        exists [mkRequest SELECT "carts"; mkRequest SELECT "cart_items"].
        rewrite <- app_assoc. split; [reflexivity|repeat constructor].
      * split; [reflexivity|].
        exists [mkRequest SELECT "carts"; mkRequest SELECT "cart_items"].
        rewrite <- app_assoc. split; [reflexivity|repeat constructor].
      * split; [reflexivity|].
        exists [mkRequest SELECT "carts"; mkRequest SELECT "cart_items"].
        rewrite <- app_assoc. split; [reflexivity|repeat constructor].
    + split; [reflexivity|]. exists [mkRequest SELECT "carts"].
      split; [reflexivity|repeat constructor].
  - split; [reflexivity|]. exists [mkRequest SELECT "carts"].
    split; [reflexivity|repeat constructor].
  - split; [reflexivity|]. exists [mkRequest SELECT "carts"].
    split; [reflexivity|repeat constructor].
Qed.

(** C6. A quantity below 1 is rejected: updateQuantity returns without
    sending anything, so the item keeps its quantity. For a quantity of 1 or
    more the handler sends one UPDATE of [cart_items] and, after it, only
    reads; once that update is applied, the item of the user's own cart
    with the given key has the new quantity and every other item is as it
    was. *)
Theorem updateQuantity_rejects_below_one_and_sets_otherwise :
  forall (user : option User.t) (itemId : Id) (newQuantity : Z) (w : World),
    let w' := exec (CartPage.updateQuantity user itemId newQuantity) w in
    (newQuantity < 1 ->
       CartPage.updateQuantity user itemId newQuantity w = (Normal tt, w))
    /\ (1 <= newQuantity ->
        (exists reads,
           requests w' = (requests w ++ mkRequest UPDATE "cart_items" :: reads)%list
           /\ Forall (fun r => is_write r = false) reads)
        /\ (fate (net w (List.length (requests w))) = Applied ->
            forall (k : nat) (r : CartItemRow.t),
              nth_error (cart_items (db w)) k = Some r ->
              (CartItemRow.id r = itemId ->
               owns_cart (db w) (session w) (CartItemRow.cart_id r) = true ->
               nth_error (cart_items (db w')) k
               = Some (Backend.set_quantity newQuantity r))
              /\ (CartItemRow.id r <> itemId ->
                  nth_error (cart_items (db w')) k = Some r))).
Proof.
  intros user itemId n w w'. split.
  - intros Hn. unfold CartPage.updateQuantity.
    destruct (Z.ltb_spec n 1); [reflexivity|lia].
  - intros Hn.
    assert (E : w' = exec (CartPage.updateQuantity user itemId n) w) by reflexivity.
    clearbody w'. unfold CartPage.updateQuantity in E.
    destruct (Z.ltb_spec n 1); [lia|].
    unfold exec, bind, rpc, Backend.cart_items_update in E.
    destruct (fate (net w (List.length (requests w)))) eqn:F;
      cbn [fst snd respond error] in E.
    + match type of E with
      | context [CartPage.fetchCart user ?w1] =>
          destruct (fetchCart_reads_only user w1) as [Hdb [reads [Hreq Hreads]]];
          unfold exec in Hdb, Hreq; cbn [db requests] in Hdb, Hreq
      end.
      rewrite <- E in Hdb, Hreq. clear E. split.
      * exists reads. rewrite Hreq, <- app_assoc. split; [reflexivity|exact Hreads].
      * intros _ k r Hk. rewrite Hdb. cbn [cart_items with_cart_items].
        rewrite nth_error_map, Hk. cbn [option_map].
        unfold Backend.visible_item. split.
        -- intros Hid Hown. rewrite Hown. subst itemId.
           rewrite String.eqb_refl. reflexivity.
        -- intros Hid. apply String.eqb_neq in Hid. rewrite Hid, andb_false_r.
           reflexivity.
    + subst w'. cbn. split.
      * exists []. split; [reflexivity|constructor].
      * discriminate.
    + subst w'. cbn. split.
      * exists []. split; [reflexivity|constructor].
      * discriminate.
Qed.

Lemma updateQuantity_witness :
  CartPage.updateQuantity (Some Shop.budi) "ci-1" 0 (Shop.world Shop.budi)
  = (Normal tt, Shop.world Shop.budi)
  /\ nth_error
       (cart_items (db (exec (CartPage.updateQuantity (Some Shop.budi) "ci-1" 5)
                             (Shop.world Shop.budi)))) 0
     = Some (CartItemRow.mk "ci-1" "cart-budi" "p-paracetamol" 5 0).
Proof.
  split.
  - apply (updateQuantity_rejects_below_one_and_sets_otherwise
             (Some Shop.budi) "ci-1" 0 (Shop.world Shop.budi)).
    lia.
  - apply (proj1 (proj2 (proj2 (updateQuantity_rejects_below_one_and_sets_otherwise
                                  (Some Shop.budi) "ci-1" 5 (Shop.world Shop.budi))
                               ltac:(lia))
                        eq_refl 0%nat
                        (CartItemRow.mk "ci-1" "cart-budi" "p-paracetamol" 2 0)
                        eq_refl));
      reflexivity.
Defined.

(** ** The status of an order *)

Lemma fetchOrders_reads_only (w : World) :
  db (exec AdminPage.fetchOrders w) = db w.
Proof.
  unfold AdminPage.fetchOrders. client_unfold.
  destruct (fate (net w (List.length (requests w)))); reflexivity.
Qed.

Lemma updateOrderStatus_database (orderId : Id) (status : string) (w : World) :
  fate (net w (List.length (requests w))) = Applied ->
  db (exec (AdminPage.updateOrderStatus orderId status) w)
  = snd (Backend.orders_update orderId status (session w)
           (net w (List.length (requests w))) (db w)).
Proof.
  intros F. unfold AdminPage.updateOrderStatus, exec, bind, rpc.
  rewrite F. cbn [fst snd respond error Backend.orders_update].
  unfold emit at 1. cbn [fst snd].
  match goal with
  | |- db (snd (AdminPage.fetchOrders ?w1)) = _ =>
      exact (fetchOrders_reads_only w1)
  end.
Qed.

(** C7, as stated, fails: the trigger [update_orders_updated_at] also
    changes [updated_at]. Siti, an administrator, sets Budi's pending order
    to shipped at time 1000; the order was last updated at time 500. *)
Lemma status_update_changes_more_than_status :
  ~ status_update_changes_status_only.
Proof.
  intros claim.
  specialize (claim "o-1" "shipped" (shop_with_order Shop.siti) 0%nat first_order
                    eq_refl).
  assert (S : In "shipped" AdminPage.statuses) by (simpl; tauto).
  specialize (claim S eq_refl eq_refl eq_refl).
  rewrite updateOrderStatus_database in claim by reflexivity.
  vm_compute in claim. discriminate claim.
Qed.

(** C7, amended. When an administrator sets the status of an order to one
    of the six values and the update is applied, the order has that status
    afterwards, its [updated_at] is the time of the update, and none of its
    other fields has changed, whatever its status was before; every other
    order is as it was. *)
Theorem updateOrderStatus_sets_status_and_updated_at :
  forall (orderId : Id) (status : string) (w : World) (k : nat) (o : Order.t),
    is_admin (db w) (session w) = true ->
    In status AdminPage.statuses ->
    fate (net w (List.length (requests w))) = Applied ->
    nth_error (orders (db w)) k = Some o ->
    let w' := exec (AdminPage.updateOrderStatus orderId status) w in
    (Order.id o = orderId ->
     exists o',
       nth_error (orders (db w')) k = Some o'
       /\ Order.status o' = status
       /\ Order.updated_at o' = now (net w (List.length (requests w)))
       /\ Order.id o' = Order.id o
       /\ Order.user_id o' = Order.user_id o
       /\ Order.order_number o' = Order.order_number o
       /\ Order.total_amount o' = Order.total_amount o
       /\ Order.payment_method o' = Order.payment_method o
       /\ Order.shipping_address o' = Order.shipping_address o
       /\ Order.created_at o' = Order.created_at o)
    /\ (Order.id o <> orderId -> nth_error (orders (db w')) k = Some o).
Proof.
  intros orderId status w k o Hadmin _ F Hk w'. subst w'.
  rewrite updateOrderStatus_database by exact F.
  cbn [snd Backend.orders_update orders with_orders].
  rewrite nth_error_map, Hk, Hadmin. cbn [option_map andb]. split.
  - intros Hid. subst orderId. rewrite String.eqb_refl.
    eexists. split; [reflexivity|]. cbn. repeat split; reflexivity.
  - intros Hid. apply String.eqb_neq in Hid. rewrite Hid. reflexivity.
Qed.

Lemma updateOrderStatus_witness :
  exists o',
    nth_error
      (orders (db (exec (AdminPage.updateOrderStatus "o-1" "shipped")
                        (shop_with_order Shop.siti)))) 0
    = Some o'
    /\ Order.status o' = "shipped"
    /\ Order.updated_at o' = 1000
    /\ Order.id o' = "o-1"
    /\ Order.user_id o' = "u-budi"
    /\ Order.order_number o' = "WM500"
    /\ Order.total_amount o' = 1600000
    /\ Order.payment_method o' = Some "cash"
    /\ Order.shipping_address o' = "Jl. Merdeka 1"
    /\ Order.created_at o' = 500.
Proof.
  apply (proj1 (updateOrderStatus_sets_status_and_updated_at
                  "o-1" "shipped" (shop_with_order Shop.siti) 0%nat first_order
                  eq_refl (or_intror (or_intror (or_intror (or_introl eq_refl))))
                  eq_refl eq_refl)).
  reflexivity.
Defined.

(** ** Checkout: the stock loop *)

Lemma is_admin_with_products (d : DB) (l : list Product.t) (s : Session) :
  is_admin (with_products d l) s = is_admin d s.
Proof. reflexivity. Qed.

Lemma stock_loop_run (items : list CartItem.t) :
  forall w : World,
    let r := stock_loop (is_admin (db w) (session w)) (net w)
                        (List.length (requests w)) items (products (db w)) in
    for_of items CartPage.update_stock w
    = (match stopped r with None => Normal tt | Some e => Thrown e end,
       mkWorld (with_products (db w) (shelf r)) (session w) (net w) (clock w)
               (requests w ++ repeat (mkRequest UPDATE "products") (sent r))
               (ui w)).
Proof.
  induction items as [|item rest IH]; intros w.
  - destruct w as [[] s nt c rq u]. cbn. rewrite app_nil_r. reflexivity.
  - cbn [for_of stock_loop]. unfold bind at 1.
    unfold CartPage.update_stock at 1. unfold bind, rpc, ret.
    destruct (fate (net w (List.length (requests w)))) eqn:F.
    + cbn [fst snd Backend.products_update]. rewrite IH. clear IH.
      cbn [db session net clock requests ui].
      rewrite is_admin_with_products, length_app, Nat.add_1_r.
      cbn [products with_products].
      fold (bought item). fold (remaining item).
      fold (restock (is_admin (db w) (session w))
                    (net w (List.length (requests w))) item (products (db w))).
      cbn [stopped shelf sent repeat]. rewrite <- app_assoc. reflexivity.
    + rewrite IH. clear IH. cbn [db session net clock requests ui].
      rewrite length_app, Nat.add_1_r.
      cbn [stopped shelf sent repeat]. rewrite <- app_assoc. reflexivity.
    + cbn [stopped shelf sent repeat].
      destruct w as [[] s nt c rq u]. reflexivity.
Qed.

Lemma purchase_absent (items : list CartItem.t) (p : Id) :
  ~ In p (map bought items) -> purchase items p = None.
Proof.
  induction items as [|i l IH]; cbn; [reflexivity|].
  intros H. destruct (String.eqb_spec (bought i) p) as [E|E].
  - exfalso. apply H. left. exact E.
  - apply IH. intros HIn. apply H. right. exact HIn.
Qed.

Lemma restocked_nil (may_write : bool) (ps : list Product.t) :
  restocked may_write [] ps ps.
Proof.
  split; [reflexivity|]. intros j p Hj. exists p. cbn. auto.
Qed.

Lemma restocked_step (may_write : bool) (x : Exchange) (item : CartItem.t)
  (l : list CartItem.t) (ps ps' : list Product.t) :
  ~ In (bought item) (map bought l) ->
  restocked may_write l (restock may_write x item ps) ps' ->
  restocked may_write (item :: l) ps ps'.
Proof.
  intros Hfresh [Hlen Hrows]. split.
  - rewrite Hlen. unfold restock. apply length_map.
  - intros j p Hj.
    destruct (Hrows j (if may_write && String.eqb (Product.id p) (bought item)
                       then Backend.set_stock (remaining item) (now x) p else p))
      as [p' [Hj' [Hid Hp']]].
    { unfold restock. rewrite nth_error_map, Hj. reflexivity. }
    exists p'. split; [exact Hj'|].
    cbn [purchase find]. rewrite String.eqb_sym.
    destruct (String.eqb_spec (Product.id p) (bought item)) as [E|E].
    + rewrite andb_true_r in Hid, Hp'.
      assert (Hnone : purchase l (Product.id p) = None)
        by (apply purchase_absent; rewrite E; exact Hfresh).
      destruct may_write; cbn [Product.id Backend.set_stock] in Hid, Hp';
        rewrite Hnone in Hp'; subst p'.
      * split; [reflexivity|]. exists (now x). reflexivity.
      * split; reflexivity.
    + rewrite andb_false_r in Hid, Hp'. split; [exact Hid|exact Hp'].
Qed.

(** Every request of the loop is applied: the loop runs to its end. *)
Lemma stock_loop_all_applied (may_write : bool) (xs : nat -> Exchange)
  (items : list CartItem.t) :
  forall (n : nat) (ps : list Product.t),
    NoDup (map bought items) ->
    (forall j, (j < List.length items)%nat -> fate (xs (n + j)%nat) = Applied) ->
    let r := stock_loop may_write xs n items ps in
    stopped r = None /\ sent r = List.length items
    /\ restocked may_write items ps (shelf r).
Proof.
  induction items as [|item l IH]; intros n ps Hnd Hall; cbn.
  - split; [reflexivity|split; [reflexivity|apply restocked_nil]].
  - pose proof (Hall 0%nat ltac:(cbn; lia)) as H0. rewrite Nat.add_0_r in H0.
    rewrite H0. cbn [stopped sent shelf].
    inversion Hnd as [|? ? Hfresh Hnd']; subst.
    destruct (IH (S n) (restock may_write (xs n) item ps) Hnd')
      as [Hs [Hn Hr]].
    { intros j Hj. rewrite Nat.add_succ_comm. apply Hall. cbn. lia. }
    split; [exact Hs|split; [now rewrite Hn|]].
    eapply restocked_step; eassumption.
Qed.


(** ** Checkout as a whole *)

Ltac world_simpl :=
  cbn [db session net clock requests ui fst snd respond error data];
  rewrite ?length_app; cbn [List.length]; rewrite ?Nat.add_1_r.

Ltac same_world := world_simpl; rewrite <- ?app_assoc; reflexivity.

Lemma orders_insert_failed (o : NewOrder.t) (s : Session) (x : Exchange)
  (d d1 : DB) (e : Error) :
  Backend.orders_insert o s x d = (inr e, d1) -> d1 = d.
Proof.
  unfold Backend.orders_insert.
  destruct (negb _); [congruence|]. destruct (_ || _); congruence.
Qed.

Lemma order_items_insert_failed (rows : list NewOrderItem.t) (s : Session)
  (x : Exchange) (d d1 : DB) (e : Error) :
  Backend.order_items_insert rows s x d = (inr e, d1) -> d1 = d.
Proof.
  unfold Backend.order_items_insert.
  destruct (negb _); [congruence|]. destruct (negb _); [congruence|].
  destruct (_ || _); congruence.
Qed.

Lemma handleCheckout_outcome (u : User.t) (c : Id) (i : CartItem.t)
  (l : list CartItem.t) (a : string) (w : World) :
  Text.truthy c = true ->
  Text.truthy (Text.trim a) = true ->
  exec (CartPage.handleCheckout (Some u) (Some c) (i :: l) a) w
  = checkout_outcome u c (i :: l) a w.
Proof.
  intros Hc Ha. unfold CartPage.handleCheckout. rewrite Hc, Ha. cbn [negb].
  generalize (i :: l). clear i l. intros items.
  unfold checkout_outcome, CartPage.checkout_steps, CartPage.clear_cart.
  destruct w as [d s nt ck rq u0].
  unfold exec, bind, finally, try_catch, emit, Date_now, rpc, throw, ret,
         gave_up, went_through.
  world_simpl.
  destruct (fate (nt (List.length rq))) eqn:F0; [|same_world..].
  unfold order_payload. world_simpl.
  destruct (Backend.orders_insert _ s (nt (List.length rq)) d)
    as [[order|e] d1] eqn:Ho; world_simpl;
    [|apply orders_insert_failed in Ho; subst d1; same_world].
  destruct (fate (nt (S (List.length rq)))) eqn:F1; [|same_world..].
  destruct (Backend.order_items_insert _ s (nt (S (List.length rq))) d1)
    as [[[]|e] d2] eqn:Hi; world_simpl;
    [|apply order_items_insert_failed in Hi; subst d2; same_world].
  rewrite stock_loop_run. world_simpl.
  set (r := stock_loop (is_admin d2 s) nt (S (S (List.length rq))) items
                       (products d2)).
  destruct (stopped r) as [e|] eqn:Hs; world_simpl; [same_world|].
  rewrite repeat_length.
  replace (List.length rq + 1 + 1 + sent r)%nat
    with (S (S (List.length rq)) + sent r)%nat by lia.
  destruct (fate (nt (S (S (List.length rq)) + sent r)%nat)) eqn:F2; same_world.
Qed.

Lemma orders_insert_done (p : NewOrder.t) (s : Session) (x : Exchange)
  (d d1 : DB) (o : Order.t) :
  Backend.orders_insert p s x d = (inl o, d1) ->
  o = Order.mk (gen_random_uuid x 0%nat) (NewOrder.user_id p)
               (NewOrder.order_number p) (NewOrder.total_amount p)
               (NewOrder.status p) (Some (NewOrder.payment_method p))
               (NewOrder.shipping_address p) (now x) (now x)
  /\ d1 = with_orders d (orders d ++ [o]).
Proof.
  unfold Backend.orders_insert.
  destruct (negb _); [congruence|]. destruct (_ || _); [congruence|].
  intros H. inversion H. split; reflexivity.
Qed.

Lemma order_items_insert_done (rows : list NewOrderItem.t) (s : Session)
  (x : Exchange) (d d1 : DB) :
  Backend.order_items_insert rows s x d = (inl tt, d1) ->
  d1 = with_order_items d
         (order_items d ++ map (Backend.new_order_item x) (Backend.number_rows 0 rows)).
Proof.
  unfold Backend.order_items_insert.
  destruct (negb _); [congruence|]. destruct (negb _); [congruence|].
  destruct (_ || _); [congruence|].
  intros H. inversion H. reflexivity.
Qed.

Lemma calculateTotal_from (items : list CartItem.t) (acc : Z) :
  fold_left (fun t item =>
               t + CartItem.Products.price (CartItem.products item)
                   * CartItem.quantity item) items acc
  = acc + total (map line_total items).
Proof.
  unfold total, line_total.
  revert acc. induction items as [|i l IH]; intros acc; cbn.
  - lia.
  - rewrite IH. lia.
Qed.

Lemma calculateTotal_sum (items : list CartItem.t) :
  CartPage.calculateTotal items = total (map line_total items).
Proof.
  unfold CartPage.calculateTotal. rewrite calculateTotal_from. lia.
Qed.

(** The rows added to [order_items] are the snapshots of the cart lines, in
    order, and their subtotals add up to the total of the cart. *)
Lemma order_item_rows (x : Exchange) (o : Order.t) (items : list CartItem.t) :
  forall n : nat,
    let rows := map (Backend.new_order_item x)
                    (Backend.number_rows n (CartPage.orderItems o items)) in
    Forall2 (snapshot_of o) items rows
    /\ total (map OrderItem.subtotal rows) = total (map line_total items).
Proof.
  unfold total, CartPage.orderItems.
  induction items as [|i l IH]; intros n; cbn.
  - split; [constructor|reflexivity].
  - destruct (IH (S n)) as [Hrows Hsum]. split.
    + constructor; [|exact Hrows]. repeat split; reflexivity.
    + cbn in Hsum. rewrite Hsum. reflexivity.
Qed.

Lemma gave_up_is_no_success (w : World) (d : DB) (sent : list Request) (e : Error) :
  ~ checkout_succeeded w (gave_up w d sent e).
Proof.
  unfold checkout_succeeded, gave_up. cbn [ui]. intros H.
  apply app_inv_head in H. discriminate H.
Qed.

Lemma checkout_succeeded_guards (user : option User.t) (cartId : option Id)
  (cartItems : list CartItem.t) (a : string) (w : World) :
  checkout_succeeded w (exec (CartPage.handleCheckout user cartId cartItems a) w) ->
  exists u c i l,
    user = Some u /\ cartId = Some c /\ cartItems = i :: l
    /\ Text.truthy c = true /\ Text.truthy (Text.trim a) = true.
Proof.
  unfold checkout_succeeded, CartPage.handleCheckout.
  assert (Hsame : forall evs, ui w = (ui w ++ evs)%list -> evs = []).
  { intros evs H. rewrite <- (app_nil_r (ui w)) in H at 1.
    apply app_inv_head in H. auto. }
  destruct user as [u|]; [|intros H; apply Hsame in H; discriminate H].
  destruct cartId as [c|]; [|intros H; apply Hsame in H; discriminate H].
  destruct cartItems as [|i l]; [intros H; apply Hsame in H; discriminate H|].
  destruct (Text.truthy c) eqn:Hc; [|intros H; apply Hsame in H; discriminate H].
  destruct (Text.truthy (Text.trim a)) eqn:Ha.
  - intros _. exists u, c, i, l. repeat split; assumption.
  - cbn. intros H. apply app_inv_head in H. discriminate H.
Qed.

(** C1, amended. A checkout that announces success, with every request
    applied and one cart line per product, has added one order, pending and
    with the total of the cart (the sum of price times quantity over the
    lines); has added one order item per cart line, in order, each the
    snapshot of its line with subtotal price times quantity, so that the
    order's total is the sum of the subtotals; has, when the session is an
    administrator's, set the stock of each purchased product to the stock
    shown in its cart line minus the quantity (its prior stock minus the
    quantity when the line showed the current stock) and left the other
    products alone; and has deleted the items of the cart the request names
    that the session may see (all of them when the cart is the user's own),
    while the carts themselves are as before. *)
Theorem checkout_creates_order_and_clears_cart :
  forall (user : option User.t) (cartId : option Id)
         (cartItems : list CartItem.t) (shippingAddress : string) (w : World),
    let w' := exec (CartPage.handleCheckout user cartId cartItems shippingAddress) w in
    checkout_succeeded w w' ->
    every_request_applied w ->
    NoDup (map bought cartItems) ->
    exists (u : User.t) (c : Id) (order : Order.t) (rows : list OrderItem.t),
      user = Some u /\ cartId = Some c /\ cartItems <> []
      /\ Text.truthy (Text.trim shippingAddress) = true
      /\ orders (db w') = (orders (db w) ++ [order])%list
      /\ Order.status order = "pending"
      /\ Order.user_id order = User.id u
      /\ Order.shipping_address order = shippingAddress
      /\ Order.total_amount order = total (map line_total cartItems)
      /\ order_items (db w') = (order_items (db w) ++ rows)%list
      /\ Forall2 (snapshot_of order) cartItems rows
      /\ Order.total_amount order = total (map OrderItem.subtotal rows)
      /\ (is_admin (db w) (session w) = true ->
          restocked true cartItems (products (db w)) (products (db w'))
          /\ forall (j : nat) (p : Product.t) (item : CartItem.t),
               nth_error (products (db w)) j = Some p ->
               purchase cartItems (Product.id p) = Some item ->
               CartItem.Products.stock (CartItem.products item) = Product.stock p ->
               exists p',
                 nth_error (products (db w')) j = Some p'
                 /\ Product.stock p' = Product.stock p - CartItem.quantity item)
      /\ cart_items (db w')
         = filter (fun r => negb (Backend.visible_item (db w) (session w) r
                                  && String.eqb (CartItemRow.cart_id r) c))
                  (cart_items (db w))
      /\ (owns_cart (db w) (session w) c = true ->
          forall r, In r (cart_items (db w')) -> CartItemRow.cart_id r <> c)
      /\ carts (db w') = carts (db w).
Proof.
  intros user cartId cartItems a w w' Hok Hall Hnd.
  destruct (checkout_succeeded_guards _ _ _ _ _ Hok)
    as [u [c [i [l [-> [-> [Hitems [Hc Ha]]]]]]]].
  subst w'. rewrite Hitems in Hok |- *.
  rewrite handleCheckout_outcome in Hok |- * by assumption.
  rewrite <- Hitems in Hok |- *.
  unfold checkout_outcome in Hok |- *.
  rewrite !Hall in Hok |- *.
  destruct (Backend.orders_insert _ _ _ _) as [[order|e] d1] eqn:Ho;
    [|exfalso; exact (gave_up_is_no_success _ _ _ _ Hok)].
  destruct (Backend.order_items_insert _ _ _ _) as [[[]|e] d2] eqn:Hi;
    [|exfalso; exact (gave_up_is_no_success _ _ _ _ Hok)].
  apply orders_insert_done in Ho. destruct Ho as [Horder ->].
  apply order_items_insert_done in Hi. subst d2.
  cbn [order_payload NewOrder.user_id NewOrder.order_number NewOrder.total_amount
       NewOrder.status NewOrder.payment_method NewOrder.shipping_address]
    in Horder.
  set (n := List.length (requests w)) in *.
  set (d2 := with_order_items _ _) in *.
  assert (Hadm : is_admin d2 (session w) = is_admin (db w) (session w))
    by reflexivity.
  assert (Hps : products d2 = products (db w)) by reflexivity.
  rewrite Hadm, Hps in Hok |- *.
  destruct (stock_loop_all_applied (is_admin (db w) (session w)) (net w) cartItems
                                   (S (S n)) (products (db w)) Hnd)
    as [Hstop [Hsent Hshelf]].
  { intros j _. apply Hall. }
  clear Hok. rewrite Hstop, Hall.
  destruct (order_item_rows (net w (S n)) order cartItems 0) as [Hrows Hsum].
  exists u, c, order,
    (map (Backend.new_order_item (net w (S n)))
         (Backend.number_rows 0 (CartPage.orderItems order cartItems))).
  unfold went_through. cbn [db].
  split; [reflexivity|]. split; [reflexivity|].
  split; [rewrite Hitems; discriminate|]. split; [exact Ha|].
  split; [reflexivity|].
  split; [rewrite Horder; reflexivity|].
  split; [rewrite Horder; reflexivity|].
  split; [rewrite Horder; reflexivity|].
  split; [rewrite Horder; cbn [Order.total_amount]; apply calculateTotal_sum|].
  split; [reflexivity|].
  split; [exact Hrows|].
  split; [rewrite Hsum, Horder; cbn [Order.total_amount]; apply calculateTotal_sum|].
  split.
  { intros Hadmin. rewrite Hadmin in Hshelf |- *.
    cbn [snd Backend.cart_items_delete products with_cart_items with_products].
    split; [exact Hshelf|].
    intros j p item Hj Hbuy Hfresh.
    destruct Hshelf as [_ Hrowsp]. destruct (Hrowsp j p Hj) as [p' [Hj' [_ Hp']]].
    rewrite Hbuy in Hp'. destruct Hp' as [t ->].
    exists (Backend.set_stock (remaining item) t p). split; [exact Hj'|].
    cbn. unfold remaining. rewrite Hfresh. reflexivity. }
  split; [reflexivity|].
  split; [|reflexivity].
  intros Hown r Hr Hcart.
  cbn [snd Backend.cart_items_delete cart_items with_cart_items with_products
       with_order_items with_orders] in Hr.
  apply filter_In in Hr. destruct Hr as [_ Hr].
  unfold Backend.visible_item in Hr. rewrite Hcart in Hr.
  change (owns_cart _ (session w) c) with (owns_cart (db w) (session w) c) in Hr.
  rewrite Hown, String.eqb_refl in Hr. discriminate Hr.
Qed.

Lemma checkout_witness :
  exists order : Order.t,
    orders (db (exec (CartPage.handleCheckout (Some Shop.siti) (Some "cart-siti")
                        [Shop.cart_line "ci-2"] "Jl. Merdeka 1")
                     (Shop.world Shop.siti)))
    = [order]
    /\ Order.status order = "pending"
    /\ Order.total_amount order = 1600000.
Proof.
  destruct (checkout_creates_order_and_clears_cart
              (Some Shop.siti) (Some "cart-siti") [Shop.cart_line "ci-2"]
              "Jl. Merdeka 1" (Shop.world Shop.siti))
    as [u [c [order [rows [_ [_ [_ [_ [Ho [Hs [_ [_ [Ht _]]]]]]]]]]]]].
  - reflexivity.
  - intros k. reflexivity.
  - repeat constructor. simpl. tauto.
  - exists order. split; [exact Ho|]. split; [exact Hs|exact Ht].
Defined.

(** C1, as stated, fails where the cart page shows an old stock: the
    checkout writes the stock of the page minus the quantity. Siti, an
    administrator, buys 2 boxes from a page that shows 150 in stock while
    120 are left: the stock becomes 148, not 118. *)
Lemma checkout_writes_stale_stock :
  ~ checkout_decrements_prior_stock.
Proof.
  intros claim.
  destruct (claim Shop.siti "cart-siti" [stale_line] "Jl. Merdeka 1"
                  (Shop.world Shop.siti))
    with (j := 1%nat) (p := Shop.paracetamol) (item := stale_line)
    as [p' [Hp' Hstock]].
  - reflexivity.
  - intros k. reflexivity.
  - repeat constructor. simpl. tauto.
  - reflexivity.
  - reflexivity.
  - vm_compute in Hp'. inversion Hp'. subst p'. vm_compute in Hstock.
    discriminate Hstock.
Qed.

(** A customer's checkout announces success and leaves the stock as it was:
    no policy lets a customer update [products]. *)
Example customer_checkout_leaves_stock :
  let w' := exec (CartPage.handleCheckout (Some Shop.budi) (Some "cart-budi")
                    [Shop.cart_line "ci-1"] "Jl. Merdeka 1")
                 (Shop.world Shop.budi) in
  checkout_succeeded (Shop.world Shop.budi) w'
  /\ products (db w') = products (db (Shop.world Shop.budi))
  /\ map Product.stock (products (db w')) = [200; 120].
Proof.
  cbv zeta. split; [reflexivity|]. split; reflexivity.
Qed.

(** C10. Whatever the page holds, a checkout either leaves [orders] as it
    was or adds exactly one order, and that order is paid in cash and is
    numbered WM followed by the client's clock in milliseconds: neither
    depends on anything the user enters. *)
Theorem checkout_order_is_cash_and_numbered_by_the_clock :
  forall (user : option User.t) (cartId : option Id)
         (cartItems : list CartItem.t) (shippingAddress : string) (w : World),
    let w' := exec (CartPage.handleCheckout user cartId cartItems shippingAddress) w in
    orders (db w') = orders (db w)
    \/ exists order : Order.t,
         orders (db w') = (orders (db w) ++ [order])%list
         /\ Order.payment_method order = Some "cash"
         /\ Order.order_number order = "WM" ++ Text.of_Z (clock w).
Proof.
  intros user cartId cartItems a w w'. subst w'.
  destruct user as [u|]; [|left; reflexivity].
  destruct cartId as [c|]; [|left; reflexivity].
  destruct cartItems as [|i l]; [left; reflexivity|].
  destruct (Text.truthy c) eqn:Hc;
    [|left; unfold CartPage.handleCheckout; rewrite Hc; reflexivity].
  destruct (Text.truthy (Text.trim a)) eqn:Ha;
    [|left; unfold CartPage.handleCheckout; rewrite Hc, Ha; reflexivity].
  rewrite handleCheckout_outcome by assumption.
  unfold checkout_outcome.
  destruct (fate (net w (List.length (requests w)))); [|left; reflexivity..].
  destruct (Backend.orders_insert _ _ _ _) as [[order|e] d1] eqn:Ho;
    [|left; reflexivity].
  apply orders_insert_done in Ho. destruct Ho as [Horder ->].
  right. exists order.
  split; [|rewrite Horder; split; reflexivity].
  destruct (fate (net w (S (List.length (requests w))))); [|reflexivity..].
  destruct (Backend.order_items_insert _ _ _ _) as [[[]|e] d2] eqn:Hi;
    [|reflexivity].
  apply order_items_insert_done in Hi. subst d2.
  destruct (stopped _); [reflexivity|].
  destruct (fate _); reflexivity.
Qed.

(** ** Checkout: failures *)






(** An error that a stock update resolves with is not looked at: the loop
    goes on, the cart is cleared and success is announced, while the stock
    of that line's product is as it was. *)
Example refused_stock_update_goes_unnoticed :
  let w' := exec (CartPage.handleCheckout (Some Shop.siti) (Some "cart-siti")
                    two_lines "Jl. Merdeka 1")
                 (shop_on (refuses_at 2) Shop.siti) in
  checkout_succeeded (shop_on (refuses_at 2) Shop.siti) w'
  /\ map Product.stock (products (db w')) = [200; 118].
Proof.
  cbv zeta. split; reflexivity.
Qed.

(** ** The catalog: matching a name against the search text *)

Lemma lower_eqb_iff (a b : ascii) :
  Ascii.eqb (Text.lower a) (Text.lower b) = true <-> Text.lower a = Text.lower b.
Proof. apply Ascii.eqb_eq. Qed.

Lemma starts_ci_iff (needle hay : list ascii) :
  Text.starts_ci needle hay = true
  <-> exists mid post : list ascii,
        hay = (mid ++ post)%list /\ Text.lower_all mid = Text.lower_all needle.
Proof.
  unfold Text.lower_all.
  revert hay. induction needle as [|c needle IH]; intros hay; cbn.
  - split; [|reflexivity]. intros _. exists [], hay. split; reflexivity.
  - destruct hay as [|h hay].
    + split; [discriminate|]. intros [mid [post [H1 H2]]].
      destruct mid; [discriminate H2|discriminate H1].
    + rewrite andb_true_iff, lower_eqb_iff, IH. split.
      * intros [Hc [mid [post [H1 H2]]]]. exists (h :: mid), post.
        split; [cbn; rewrite H1; reflexivity|]. cbn. rewrite H2, Hc. reflexivity.
      * intros [mid [post [H1 H2]]]. destruct mid as [|m mid]; [discriminate H2|].
        cbn in H1, H2. injection H1 as Hm Hhay. injection H2 as Hh Hmid. subst.
        split; [congruence|]. exists mid, post. split; [reflexivity|exact Hmid].
Qed.

Lemma includes_ci_iff (hay needle : list ascii) :
  Text.includes_ci hay needle = true
  <-> exists pre mid post : list ascii,
        hay = (pre ++ mid ++ post)%list
        /\ Text.lower_all mid = Text.lower_all needle.
Proof.
  induction hay as [|h hay IH]; cbn [Text.includes_ci];
    rewrite orb_true_iff, starts_ci_iff.
  - split.
    + intros [[mid [post [H1 H2]]]|H]; [|discriminate H].
      exists [], mid, post. split; assumption.
    + intros [pre [mid [post [H1 H2]]]]. left.
      destruct pre; [|discriminate H1]. exists mid, post. split; assumption.
  - rewrite IH. split.
    + intros [[mid [post [H1 H2]]]|[pre [mid [post [H1 H2]]]]].
      * exists [], mid, post. split; assumption.
      * exists (h :: pre), mid, post. split; [cbn; rewrite H1; reflexivity|assumption].
    + intros [pre [mid [post [H1 H2]]]]. destruct pre as [|x pre].
      * left. exists mid, post. split; assumption.
      * right. cbn in H1. inversion H1; subst.
        exists pre, mid, post. split; [reflexivity|assumption].
Qed.

Lemma contains_ci_iff (hay needle : string) :
  Text.contains_ci hay needle
  <-> Text.includes_ci (list_ascii_of_string hay) (list_ascii_of_string needle)
      = true.
Proof. unfold Text.contains_ci. symmetry. apply includes_ci_iff. Qed.

Lemma like_match_any (p : list Text.pat) (s : list ascii) :
  Text.like_match (Text.PAny :: p) s
  = Text.like_match p s
    || match s with
       | [] => false
       | _ :: s' => Text.like_match (Text.PAny :: p) s'
       end.
Proof. destruct s; reflexivity. Qed.

Lemma like_match_any_alone (s : list ascii) :
  Text.like_match [Text.PAny] s = true.
Proof.
  induction s as [|c s IH]; [reflexivity|].
  rewrite like_match_any, IH. apply orb_true_r.
Qed.

Lemma like_match_literals (q s : list ascii) :
  Text.like_match (map Text.PLit q ++ [Text.PAny]) s = Text.starts_ci q s.
Proof.
  revert s. induction q as [|c q IH]; intros s.
  - cbn [map app Text.starts_ci]. apply like_match_any_alone.
  - cbn [map app Text.like_match Text.starts_ci].
    destruct s as [|h s]; [reflexivity|]. rewrite IH. reflexivity.
Qed.

(** Between two [%], a text without wildcards is looked for anywhere. *)
Lemma like_match_between_any (q s : list ascii) :
  Text.like_match (Text.PAny :: map Text.PLit q ++ [Text.PAny]) s
  = Text.includes_ci s q.
Proof.
  induction s as [|h s IH]; rewrite like_match_any, like_match_literals.
  - reflexivity.
  - rewrite IH. reflexivity.
Qed.

Lemma list_ascii_of_string_app (a b : string) :
  list_ascii_of_string (a ++ b)
  = (list_ascii_of_string a ++ list_ascii_of_string b)%list.
Proof.
  induction a as [|c a IH]; cbn; [reflexivity|]. rewrite IH. reflexivity.
Qed.

Lemma compile_literals (q rest : list ascii) :
  forallb (fun c => negb (Text.is_meta c)) q = true ->
  Text.compile_from false (map Text.star2percent (q ++ rest))
  = option_map (app (map Text.PLit q))
               (Text.compile_from false (map Text.star2percent rest)).
Proof.
  induction q as [|c q IH]; intros Hq.
  - cbn. destruct (Text.compile_from _ _); reflexivity.
  - cbn in Hq. apply andb_true_iff in Hq. destruct Hq as [Hc Hq].
    unfold Text.is_meta in Hc. rewrite !negb_orb in Hc.
    apply andb_true_iff in Hc. destruct Hc as [Hc Hstar].
    apply andb_true_iff in Hc. destruct Hc as [Hc Hback].
    apply andb_true_iff in Hc. destruct Hc as [Hpct Hund].
    apply negb_true_iff in Hstar, Hback, Hpct, Hund.
    cbn [app map].
    change (Text.star2percent c)
      with (if Ascii.eqb c Text.star then Text.percent else c).
    rewrite Hstar. cbn [Text.compile_from].
    rewrite Hback, Hpct, Hund, (IH Hq).
    destruct (Text.compile_from false (map Text.star2percent rest)); reflexivity.
Qed.

(** A pattern that ends with [%] compiles. *)
Lemma compile_ends_with_percent (l : list ascii) :
  forall escaped : bool,
    Text.compile_from escaped (map Text.star2percent (l ++ [Text.percent])) <> None.
Proof.
  induction l as [|c l IH]; intros escaped.
  - destruct escaped; cbn; discriminate.
  - cbn [app map Text.compile_from].
    set (c' := Text.star2percent c).
    destruct escaped.
    + pose proof (IH false) as H.
      destruct (Text.compile_from false _); [discriminate|contradiction].
    + destruct (Ascii.eqb c' Text.backslash); [apply IH|].
      pose proof (IH false) as H.
      destruct (Ascii.eqb c' Text.percent), (Ascii.eqb c' Text.underscore);
        destruct (Text.compile_from false _); cbn; try discriminate;
        contradiction.
Qed.

(** ** The catalog: ORDER BY *)

Section OrderByFacts.

Context {A : Type} (leb : A -> A -> bool).

Lemma insert_sorted_permutation (x : A) (l : list A) :
  Permutation (insert_sorted leb x l) (x :: l).
Proof.
  induction l as [|y l IH]; cbn; [reflexivity|].
  destruct (leb x y); [reflexivity|].
  rewrite IH. apply perm_swap.
Qed.

Lemma order_by_permutation (l : list A) : Permutation (order_by leb l) l.
Proof.
  induction l as [|x l IH]; cbn; [reflexivity|].
  rewrite insert_sorted_permutation. apply perm_skip. exact IH.
Qed.

Hypothesis leb_total : forall a b, leb a b = true \/ leb b a = true.

Lemma insert_sorted_head (x y : A) (l : list A) :
  ordered_by leb y x -> HdRel (ordered_by leb) y l -> HdRel (ordered_by leb) y (insert_sorted leb x l).
Proof.
  intros Hyx Hyl. destruct l as [|z l]; cbn.
  - constructor. exact Hyx.
  - destruct (leb x z); constructor; [exact Hyx|].
    inversion Hyl; assumption.
Qed.

Lemma insert_sorted_sorted (x : A) (l : list A) :
  Sorted (ordered_by leb) l -> Sorted (ordered_by leb) (insert_sorted leb x l).
Proof.
  induction 1 as [|y l Hl IH Hy]; cbn.
  - repeat constructor.
  - destruct (leb x y) eqn:Hxy.
    + constructor; [constructor; assumption|]. constructor. exact Hxy.
    + constructor; [exact IH|]. apply insert_sorted_head; [|exact Hy].
      destruct (leb_total x y) as [H|H]; [congruence|exact H].
Qed.

Lemma order_by_sorted (l : list A) : Sorted (ordered_by leb) (order_by leb l).
Proof.
  induction l as [|x l IH]; cbn; [constructor|].
  apply insert_sorted_sorted. exact IH.
Qed.

End OrderByFacts.

Lemma catalog_leb_total (le : string -> string -> bool) :
  (forall a b, le a b = true \/ le b a = true) ->
  forall a b, Backend.catalog_leb le a b = true \/ Backend.catalog_leb le b a = true.
Proof.
  intros Hle a b. unfold Backend.catalog_leb.
  set (pa := Backend.popularity (Listed.product a)).
  set (pb := Backend.popularity (Listed.product b)).
  destruct (Z.ltb_spec pb pa) as [H|H]; [left; reflexivity|].
  destruct (Z.ltb_spec pa pb) as [H'|H']; [right; reflexivity|].
  assert (E : pa = pb) by lia. rewrite E, Z.eqb_refl. cbn.
  apply Hle.
Qed.

(** ** The catalog: fetchProducts *)

(** [ORDER BY is_popular DESC, name ASC], spelled out. *)
Lemma catalog_leb_order (d : DB) (a b : Listed.t) :
  catalog_order d a b -> popular_first_then_by_name d a b.
Proof.
  unfold catalog_order, ordered_by, Backend.catalog_leb, Backend.popularity,
         popular_first_then_by_name, more_popular.
  destruct (Product.is_popular (Listed.product a)) as [[|]|];
    destruct (Product.is_popular (Listed.product b)) as [[|]|];
    cbn; intros H; try discriminate H; tauto.
Qed.

Lemma Sorted_weaken {A : Type} (R R' : A -> A -> Prop) (l : list A) :
  (forall a b, R a b -> R' a b) -> Sorted R l -> Sorted R' l.
Proof.
  intros H. induction 1 as [|a l Hl IH Hd]; constructor; [exact IH|].
  destruct Hd; constructor. apply H. assumption.
Qed.

Lemma search_pattern_unfold (q : string) :
  search_pattern q
  = Text.percent
    :: map Text.star2percent (list_ascii_of_string q ++ [Text.percent]).
Proof.
  unfold search_pattern. cbn [append list_ascii_of_string map].
  rewrite list_ascii_of_string_app. reflexivity.
Qed.

Lemma search_pattern_compiles (q : string) :
  exists pt, Text.compile (search_pattern q) = Some pt.
Proof.
  rewrite search_pattern_unfold. unfold Text.compile.
  cbn [Text.compile_from].
  change (Ascii.eqb Text.percent Text.backslash) with false.
  change (Ascii.eqb Text.percent Text.percent) with true. cbn match.
  pose proof (compile_ends_with_percent (list_ascii_of_string q) false) as H.
  destruct (Text.compile_from false _) as [pt|]; [|contradiction].
  eexists. reflexivity.
Qed.

Lemma search_pattern_literal (q : string) :
  forallb (fun c => negb (Text.is_meta c)) (list_ascii_of_string q) = true ->
  Text.compile (search_pattern q)
  = Some (Text.PAny :: map Text.PLit (list_ascii_of_string q) ++ [Text.PAny]).
Proof.
  intros Hq. rewrite search_pattern_unfold. unfold Text.compile.
  cbn [Text.compile_from].
  change (Ascii.eqb Text.percent Text.backslash) with false.
  change (Ascii.eqb Text.percent Text.percent) with true. cbn match.
  rewrite (compile_literals _ _ Hq). reflexivity.
Qed.

Lemma shown_products (selectedCategory : option Id) (searchQuery : string)
  (w : World) (shown : list Listed.t) :
  ui (exec (IndexPage.fetchProducts selectedCategory searchQuery) w)
  = (ui w ++ [SetProducts shown])%list ->
  exists pt,
    match Backend.name_ilike (IndexPage.catalog_query selectedCategory searchQuery) with
    | None => Some None
    | Some pattern =>
        option_map Some
          (Text.compile (map Text.star2percent (list_ascii_of_string pattern)))
    end = Some pt
    /\ shown
       = order_by (Backend.catalog_leb (collation (db w)))
           (map (fun p => Listed.mk p (Backend.category_name (db w) (Product.category_id p)))
                (filter (fun p => (0 <? Product.stock p)
                                  && Backend.in_category
                                       (Backend.category_eq
                                          (IndexPage.catalog_query selectedCategory searchQuery)) p
                                  && Backend.name_matches pt p)
                        (products (db w)))).
Proof.
  unfold IndexPage.fetchProducts, exec, bind, rpc, emit.
  destruct (fate (net w (List.length (requests w)))); cbn [fst snd ui].
  - unfold Backend.products_select.
    destruct (match Backend.name_ilike _ with None => _ | Some _ => _ end)
      as [pt|]; cbn [fst snd respond error data ui]; intros H;
      apply app_inv_head in H.
    + injection H as H. exists pt. split; [reflexivity|]. symmetry. exact H.
    + discriminate H.
  - intros H. apply app_inv_head in H. discriminate H.
  - intros H. rewrite <- (app_nil_r (ui w)) in H at 1.
    apply app_inv_head in H. discriminate H.
Qed.

(** C5, amended. fetchProducts sends one SELECT and writes nothing. Every
    product it shows has stock above 0, belongs to the selected category if
    one is selected, and, if a search text is present, has a name that
    matches the pattern %text% under ILIKE, where [%], [_] and [*] in the
    text are wildcards and a backslash escapes; when the text has none of
    these characters the name contains it, letters compared without case
    (as the locale of the database folds them). The list is ordered by
    popularity descending (a product without the flag first, then the
    popular ones, then the others), then by name ascending in the database's
    collation. *)
Theorem fetchProducts_shows_matching_products_in_order :
  forall (selectedCategory : option Id) (searchQuery : string) (w : World),
    let w' := exec (IndexPage.fetchProducts selectedCategory searchQuery) w in
    (forall a b, collation (db w) a b = true \/ collation (db w) b a = true) ->
    db w' = db w
    /\ requests w' = (requests w ++ [mkRequest SELECT "products"])%list
    /\ (fate (net w (List.length (requests w))) = Applied ->
        exists shown, ui w' = (ui w ++ [SetProducts shown])%list)
    /\ (forall shown,
          ui w' = (ui w ++ [SetProducts shown])%list ->
          Forall (listed_for selectedCategory searchQuery) shown
          /\ Sorted (catalog_order (db w)) shown
          /\ Sorted (popular_first_then_by_name (db w)) shown).
Proof.
  intros selectedCategory q w w' Htotal.
  split; [|split; [|split]].
  - subst w'. unfold IndexPage.fetchProducts, exec, bind, rpc, emit.
    destruct (fate (net w (List.length (requests w)))); cbn [fst snd db];
      try reflexivity.
    unfold Backend.products_select.
    destruct (match Backend.name_ilike _ with None => _ | Some _ => _ end);
      reflexivity.
  - subst w'. unfold IndexPage.fetchProducts, exec, bind, rpc, emit.
    destruct (fate (net w (List.length (requests w)))); cbn [fst snd requests];
      try reflexivity.
    destruct (error _); reflexivity.
  - intros F. subst w'. unfold IndexPage.fetchProducts, exec, bind, rpc, emit.
    rewrite F. unfold Backend.products_select, IndexPage.catalog_query.
    cbn [Backend.name_ilike].
    destruct (Text.truthy q).
    + destruct (search_pattern_compiles q) as [pt Hpt].
      unfold search_pattern in Hpt. rewrite Hpt.
      cbn [option_map fst snd respond error data ui]. eexists. reflexivity.
    + cbn [option_map fst snd respond error data ui]. eexists. reflexivity.
  - intros shown Hshown. subst w'.
    destruct (shown_products _ _ _ _ Hshown) as [pt [Hpt ->]]. clear Hshown.
    split.
    + apply Forall_forall. intros p Hp.
      apply (Permutation_in _ (order_by_permutation _ _)) in Hp.
      apply in_map_iff in Hp. destruct Hp as [row [<- Hrow]].
      apply filter_In in Hrow. destruct Hrow as [_ Hrow].
      apply andb_true_iff in Hrow. destruct Hrow as [Hrow Hname].
      apply andb_true_iff in Hrow. destruct Hrow as [Hstock Hcat].
      unfold listed_for. cbn [Listed.product].
      split; [apply Z.ltb_lt; exact Hstock|].
      split.
      * intros c -> Hc. unfold IndexPage.catalog_query in Hcat.
        cbn [Backend.category_eq] in Hcat. rewrite Hc in Hcat.
        unfold Backend.in_category in Hcat.
        destruct (Product.category_id row) as [j|]; [|discriminate Hcat].
        apply String.eqb_eq in Hcat. subst j. reflexivity.
      * unfold IndexPage.catalog_query in Hpt. cbn [Backend.name_ilike] in Hpt.
        split.
        -- intros Hq. rewrite Hq in Hpt. unfold Text.ilike.
           destruct (Text.compile _) as [pt'|]; [|discriminate Hpt].
           injection Hpt as <-. cbn [option_map Backend.name_matches] in Hname |- *.
           rewrite Hname. reflexivity.
        -- intros Hq Hplain. rewrite Hq in Hpt.
           pose proof (search_pattern_literal q Hplain) as Hlit.
           unfold search_pattern in Hlit. rewrite Hlit in Hpt.
           injection Hpt as <-. cbn [Backend.name_matches] in Hname.
           rewrite like_match_between_any in Hname.
           apply contains_ci_iff. exact Hname.
    + assert (Hsorted : Sorted (catalog_order (db w))
                               (order_by (Backend.catalog_leb (collation (db w)))
                                  (map (fun p => Listed.mk p (Backend.category_name
                                                                (db w)
                                                                (Product.category_id p)))
                                       (filter (fun p =>
                                                  (0 <? Product.stock p)
                                                  && Backend.in_category
                                                       (Backend.category_eq
                                                          (IndexPage.catalog_query
                                                             selectedCategory q)) p
                                                  && Backend.name_matches pt p)
                                               (products (db w))))))
        by (apply order_by_sorted; apply catalog_leb_total; exact Htotal).
      split; [exact Hsorted|].
      eapply Sorted_weaken; [|exact Hsorted].
      intros a b. apply catalog_leb_order.
Qed.

Lemma fetchProducts_witness :
  db (exec (IndexPage.fetchProducts None EmptyString) apotek) = db apotek
  /\ requests (exec (IndexPage.fetchProducts None EmptyString) apotek)
     = [mkRequest SELECT "products"]
  /\ Forall (listed_for None EmptyString)
            [ Listed.mk antangin (Some "Obat Herbal"); Listed.mk bodrex None;
              Listed.mk Shop.tolak_angin (Some "Obat Herbal");
              Listed.mk Shop.paracetamol (Some "Obat Demam");
              Listed.mk sirop (Some "Obat Herbal") ]
  /\ Sorted (popular_first_then_by_name (db apotek))
            [ Listed.mk antangin (Some "Obat Herbal"); Listed.mk bodrex None;
              Listed.mk Shop.tolak_angin (Some "Obat Herbal");
              Listed.mk Shop.paracetamol (Some "Obat Demam");
              Listed.mk sirop (Some "Obat Herbal") ]
  /\ Forall (listed_for (Some "c-herbal") e_acute_ch)
            [Listed.mk sirop (Some "Obat Herbal")].
Proof.
  destruct (fetchProducts_shows_matching_products_in_order None EmptyString apotek)
    as [Hdb [Hreq [_ Hshown]]].
  { intros a b. apply String.leb_total. }
  destruct (fetchProducts_shows_matching_products_in_order
              (Some "c-herbal") e_acute_ch apotek) as [_ [_ [_ Hfound]]].
  { intros a b. apply String.leb_total. }
  split; [exact Hdb|]. split; [exact Hreq|].
  destruct (Hshown [ Listed.mk antangin (Some "Obat Herbal"); Listed.mk bodrex None;
                     Listed.mk Shop.tolak_angin (Some "Obat Herbal");
                     Listed.mk Shop.paracetamol (Some "Obat Demam");
                     Listed.mk sirop (Some "Obat Herbal") ] eq_refl)
    as [Hall [_ Hsorted]].
  split; [exact Hall|]. split; [exact Hsorted|].
  apply (Hfound [Listed.mk sirop (Some "Obat Herbal")]). reflexivity.
Defined.

(** C5, as stated, fails for a search text with a wildcard: the search for
    "_" shows every product with a name of one character or more, and no
    product of the shop has an underscore in its name. *)
Lemma search_for_underscore_shows_every_product :
  ~ catalog_shows_only_names_containing_the_search.
Proof.
  intros claim.
  specialize (claim None "_" (Shop.world Shop.budi) whole_catalog
                    (Listed.mk Shop.tolak_angin (Some "Obat Herbal"))
                    eq_refl (or_introl eq_refl) eq_refl).
  apply contains_ci_iff in claim. vm_compute in claim. discriminate claim.
Qed.

(** ** Adding to the cart *)

Lemma single_one {A : Type} (l : list A) (a : A) : single l = inl a -> l = [a].
Proof.
  destruct l as [|x [|y l]]; cbn; intros H; try discriminate H.
  injection H as ->. reflexivity.
Qed.





(** *** An invariant of the database through a handler *)

Section Preservation.

Variable I : DB -> Prop.








End Preservation.














(** * More properties of the handlers *)

(** ** Invariants by session *)

Section PreservationAs.

Variable s : Session.
Variable I : DB -> Prop.

Lemma preserves_as_ret {A : Type} (a : A) : preserves_as s I (ret a).
Proof. intros w Hs H. split; assumption. Qed.

Lemma preserves_as_throw {A : Type} (e : Error) : preserves_as s I (@throw A e).
Proof. intros w Hs H. split; assumption. Qed.

Lemma preserves_as_emit (e : UiEvent) : preserves_as s I (emit e).
Proof. intros w Hs H. split; assumption. Qed.

Lemma preserves_as_bind {A B : Type} (c : M A) (k : A -> M B) :
  preserves_as s I c -> (forall a, preserves_as s I (k a)) ->
  preserves_as s I (bind c k).
Proof.
  intros Hc Hk w Hs H. unfold bind. destruct (Hc w Hs H) as [H1 Hs1].
  destruct (c w) as [[a|e] w1]; cbn [snd] in *; [apply Hk; assumption|].
  split; assumption.
Qed.

Lemma preserves_as_try_catch {A : Type} (c : M A) (h : Error -> M A) :
  preserves_as s I c -> (forall e, preserves_as s I (h e)) ->
  preserves_as s I (try_catch c h).
Proof.
  intros Hc Hh w Hs H. unfold try_catch. destruct (Hc w Hs H) as [H1 Hs1].
  destruct (c w) as [[a|e] w1]; cbn [snd] in *; [split; assumption|].
  apply Hh; assumption.
Qed.

Lemma preserves_as_finally {A : Type} (c : M A) (f : M unit) :
  preserves_as s I c -> preserves_as s I f -> preserves_as s I (finally c f).
Proof.
  intros Hc Hf w Hs H. unfold finally. destruct (Hc w Hs H) as [H1 Hs1].
  destruct (c w) as [r w1]; cbn [snd] in *. specialize (Hf w1 Hs1 H1).
  destruct (f w1) as [[u|e] w2]; exact Hf.
Qed.

Lemma preserves_as_rpc {A : Type} (r : Request) (srv : Server A) :
  keeps_as s I srv -> preserves_as s I (rpc r srv).
Proof.
  intros Hsrv w Hs H. unfold rpc.
  destruct (fate (net w (List.length (requests w)))); cbn [snd db session];
    try (split; assumption).
  split; [|exact Hs]. rewrite Hs. apply Hsrv. exact H.
Qed.

Lemma preserves_as_for_of {A : Type} (l : list A) (body : A -> M unit) :
  (forall a, preserves_as s I (body a)) -> preserves_as s I (for_of l body).
Proof.
  intros Hb. induction l as [|a l IH]; cbn [for_of].
  - apply preserves_as_ret.
  - apply preserves_as_bind; [apply Hb|intros _; exact IH].
Qed.

Lemma preserves_as_detached (c : M unit) :
  preserves_as s I c -> preserves_as s I (detached c).
Proof.
  intros Hc. apply preserves_as_try_catch; [exact Hc|].
  intros e. apply preserves_as_ret.
Qed.

(** A request that only reads keeps every property. *)
Lemma keeps_as_read {A : Type} (srv : Server A) :
  (forall x d, snd (srv s x d) = d) -> keeps_as s I srv.
Proof. intros Hr x d H. rewrite Hr. exact H. Qed.

Lemma fetchCart_preserves_as (user : option User.t) :
  preserves_as s I (CartPage.fetchCart user).
Proof.
  unfold CartPage.fetchCart. destruct user as [u|]; [|apply preserves_as_ret].
  apply preserves_as_bind.
  { apply preserves_as_rpc, keeps_as_read. reflexivity. }
  intros r. destruct (data r) as [c|]; [|apply preserves_as_ret].
  apply preserves_as_bind; [apply preserves_as_emit|intros _].
  apply preserves_as_bind.
  { apply preserves_as_rpc, keeps_as_read. reflexivity. }
  intros r'. destruct (error r'); apply preserves_as_emit.
Qed.

Lemma updateQuantity_preserves_as (user : option User.t) (itemId : Id) (n : Z) :
  (1 <= n -> keeps_as s I (Backend.cart_items_update itemId n)) ->
  preserves_as s I (CartPage.updateQuantity user itemId n).
Proof.
  intros Hupd. unfold CartPage.updateQuantity.
  destruct (Z.ltb_spec n 1); [apply preserves_as_ret|].
  apply preserves_as_bind; [apply preserves_as_rpc, Hupd; lia|].
  intros r. destruct (error r); [apply preserves_as_emit|].
  apply fetchCart_preserves_as.
Qed.

Lemma removeItem_preserves_as (user : option User.t) (itemId : Id) :
  keeps_as s I (Store.cart_items_delete_one itemId) ->
  preserves_as s I (Removal.removeItem user itemId).
Proof.
  intros Hdel. unfold Removal.removeItem.
  apply preserves_as_bind; [apply preserves_as_rpc, Hdel|].
  intros r. destruct (error r); [apply preserves_as_emit|].
  apply preserves_as_bind; [apply preserves_as_emit|intros _].
  apply preserves_as_detached, fetchCart_preserves_as.
Qed.

Lemma handleCheckout_preserves_as (user : option User.t) (cartId : option Id)
  (cartItems : list CartItem.t) (a : string) :
  (forall o, keeps_as s I (Backend.orders_insert o)) ->
  (forall rows, keeps_as s I (Backend.order_items_insert rows)) ->
  (forall i n, keeps_as s I (Backend.products_update i n)) ->
  (forall c, keeps_as s I (Backend.cart_items_delete c)) ->
  preserves_as s I (CartPage.handleCheckout user cartId cartItems a).
Proof.
  intros Ho Hi Hp Hd. unfold CartPage.handleCheckout.
  destruct user as [u|]; [|apply preserves_as_ret].
  destruct cartId as [c|]; [|apply preserves_as_ret].
  destruct cartItems as [|i l]; [apply preserves_as_ret|].
  destruct (Text.truthy c); [|apply preserves_as_ret].
  destruct (negb _); [apply preserves_as_emit|].
  apply preserves_as_bind; [apply preserves_as_emit|intros _].
  apply preserves_as_finally; [|apply preserves_as_emit].
  apply preserves_as_try_catch; [|intros; apply preserves_as_emit].
  unfold CartPage.checkout_steps.
  apply preserves_as_bind.
  { intros w Hs H. split; assumption. }
  intros t. apply preserves_as_bind; [apply preserves_as_rpc, Ho|].
  intros r. destruct (error r); [apply preserves_as_throw|].
  destruct (data r) as [order|]; [|apply preserves_as_throw].
  apply preserves_as_bind; [apply preserves_as_rpc, Hi|].
  intros r'. destruct (error r'); [apply preserves_as_throw|].
  apply preserves_as_bind.
  { apply preserves_as_for_of. intros item. unfold CartPage.update_stock.
    apply preserves_as_bind; [apply preserves_as_rpc, Hp|].
    intros; apply preserves_as_ret. }
  intros _. apply preserves_as_bind.
  { unfold CartPage.clear_cart.
    apply preserves_as_bind; [apply preserves_as_rpc, Hd|].
    intros; apply preserves_as_ret. }
  intros _. apply preserves_as_bind; [apply preserves_as_emit|intros _].
  apply preserves_as_emit.
Qed.

(** What a handler learns from a request that only reads holds of the
    database it goes on with. *)
Lemma preserves_as_read_then {A B : Type} (r : Request) (srv : Server A)
  (k : Response A -> M B) :
  reads_only srv ->
  (forall rsp : Response A,
     leads_as s (fun d => I d /\ forall a, data rsp = Some a ->
                                          exists x, fst (srv s x d) = inl a)
              I (k rsp)) ->
  preserves_as s I (bind (rpc r srv) k).
Proof.
  intros Hread Hk w Hs H. unfold bind, rpc.
  destruct (fate (net w (List.length (requests w)))) eqn:F; cbn [fst snd].
  - apply Hk; cbn [session db]; [exact Hs|]. rewrite Hs, Hread.
    split; [exact H|].
    intros a Ha. exists (net w (List.length (requests w))).
    rewrite ?Hs, ?Hread in *.
    destruct (fst (srv s (net w (List.length (requests w))) (db w)));
      cbn in Ha; congruence.
  - apply Hk; cbn [session db data]; [exact Hs|]. split; [exact H|discriminate].
  - split; assumption.
Qed.

Lemma leads_as_bind {A B : Type} (P R Q : DB -> Prop) (c : M A) (k : A -> M B) :
  leads_as s P R c -> (forall d, R d -> Q d) ->
  (forall a, leads_as s R Q (k a)) ->
  leads_as s P Q (bind c k).
Proof.
  intros Hc HRQ Hk w Hs H. unfold bind. destruct (Hc w Hs H) as [H1 Hs1].
  destruct (c w) as [[a|e] w1]; cbn [snd] in *; [apply Hk; assumption|].
  split; [apply HRQ|]; assumption.
Qed.

Lemma leads_as_rpc {A : Type} (P Q : DB -> Prop) (r : Request) (srv : Server A) :
  (forall d, P d -> Q d) ->
  (forall x d, P d -> Q (snd (srv s x d))) ->
  leads_as s P Q (rpc r srv).
Proof.
  intros HPQ Hsrv w Hs H. unfold rpc.
  destruct (fate (net w (List.length (requests w)))); cbn [snd db session];
    try (split; [apply HPQ|]; assumption).
  split; [|exact Hs]. rewrite Hs. apply Hsrv. exact H.
Qed.

Lemma leads_as_weaken {A : Type} (P Q : DB -> Prop) (c : M A) :
  (forall d, P d -> I d) -> (forall d, I d -> Q d) ->
  preserves_as s I c -> leads_as s P Q c.
Proof.
  intros HP HQ Hc w Hs H. destruct (Hc w Hs (HP _ H)) as [H1 Hs1].
  split; [apply HQ|]; assumption.
Qed.

Lemma put_in_cart_preserves_as (c : Id) (p : Product.t) (q : Z) :
  (forall r x d,
     I d -> In r (cart_items d) ->
     I (snd (Backend.cart_items_update
               (CartItemRow.id r) (CartItemRow.quantity r + q) s x d))) ->
  keeps_as s I (Backend.cart_items_insert c (Product.id p) q) ->
  preserves_as s I (ProductDetailPage.put_in_cart c p q).
Proof.
  intros Hupd Hins.
  unfold ProductDetailPage.put_in_cart, ProductDetailPage.added.
  apply preserves_as_read_then; [intros s0 x d; reflexivity|].
  intros rsp. destruct (data rsp) as [r0|].
  - apply leads_as_bind with (R := I).
    + apply leads_as_rpc; [tauto|].
      intros x d [H Hr0]. destruct (Hr0 r0 eq_refl) as [x0 Hx0].
      apply Hupd; [exact H|].
      unfold Backend.cart_items_select_one in Hx0. cbn [fst] in Hx0.
      apply single_one in Hx0.
      assert (Hf : In r0 [r0]) by (left; reflexivity).
      rewrite <- Hx0 in Hf. apply filter_In in Hf. tauto.
    + tauto.
    + intros r'. destruct (error r'); [apply preserves_as_throw|].
      apply preserves_as_bind; [apply preserves_as_emit|intros; apply preserves_as_emit].
  - apply leads_as_weaken; [tauto|tauto|].
    apply preserves_as_bind; [apply preserves_as_rpc, Hins|].
    intros r'. destruct (error r'); [apply preserves_as_throw|].
    apply preserves_as_bind; [apply preserves_as_emit|intros; apply preserves_as_emit].
Qed.

Lemma addToCart_preserves_as (user : option User.t) (product : option Product.t)
  (q : Z) :
  (forall u, keeps_as s I (Backend.carts_insert u)) ->
  (forall r x d,
     I d -> In r (cart_items d) ->
     I (snd (Backend.cart_items_update
               (CartItemRow.id r) (CartItemRow.quantity r + q) s x d))) ->
  (forall c p, keeps_as s I (Backend.cart_items_insert c p q)) ->
  preserves_as s I (ProductDetailPage.addToCart user product q).
Proof.
  intros Hcart Hupd Hins. unfold ProductDetailPage.addToCart.
  destruct user as [u|].
  2:{ apply preserves_as_bind; [apply preserves_as_emit|intros; apply preserves_as_emit]. }
  destruct product as [p|]; [|apply preserves_as_ret].
  apply preserves_as_bind; [apply preserves_as_emit|intros _].
  apply preserves_as_finally; [|apply preserves_as_emit].
  apply preserves_as_try_catch; [|intros; apply preserves_as_emit].
  unfold ProductDetailPage.add_steps. apply preserves_as_bind.
  - unfold ProductDetailPage.get_or_create_cart. apply preserves_as_bind.
    + apply preserves_as_rpc, keeps_as_read. reflexivity.
    + intros r. destruct (data r); [apply preserves_as_ret|].
      apply preserves_as_bind; [apply preserves_as_rpc, Hcart|].
      intros r'. destruct (error r'); [apply preserves_as_throw|apply preserves_as_ret].
  - intros [c|]; [|apply preserves_as_throw].
    apply put_in_cart_preserves_as; [exact Hupd|apply Hins].
Qed.

End PreservationAs.

(** ** What each request does to the carts and their items *)

Lemma owns_cart_carts (d d' : DB) (s : Session) (c : Id) :
  carts d' = carts d -> owns_cart d' s c = owns_cart d s c.
Proof. intros H. unfold owns_cart. rewrite H. reflexivity. Qed.

Lemma orders_insert_carts (o : NewOrder.t) (s : Session) (x : Exchange) (d : DB) :
  carts (snd (Backend.orders_insert o s x d)) = carts d
  /\ cart_items (snd (Backend.orders_insert o s x d)) = cart_items d.
Proof.
  unfold Backend.orders_insert.
  destruct (negb _); [split; reflexivity|].
  destruct (_ || _); split; reflexivity.
Qed.

Lemma order_items_insert_carts (rows : list NewOrderItem.t) (s : Session)
  (x : Exchange) (d : DB) :
  carts (snd (Backend.order_items_insert rows s x d)) = carts d
  /\ cart_items (snd (Backend.order_items_insert rows s x d)) = cart_items d.
Proof.
  unfold Backend.order_items_insert.
  destruct (negb _); [split; reflexivity|].
  destruct (negb _); [split; reflexivity|].
  destruct (_ || _); split; reflexivity.
Qed.

Lemma products_update_carts (i : Id) (n : Z) (s : Session) (x : Exchange) (d : DB) :
  carts (snd (Backend.products_update i n s x d)) = carts d
  /\ cart_items (snd (Backend.products_update i n s x d)) = cart_items d.
Proof. split; reflexivity. Qed.

Lemma carts_insert_cart_items (u : Id) (s : Session) (x : Exchange) (d : DB) :
  cart_items (snd (Backend.carts_insert u s x d)) = cart_items d.
Proof.
  unfold Backend.carts_insert.
  destruct (negb _); [reflexivity|]. destruct (_ || _); reflexivity.
Qed.

Lemma cart_items_insert_carts (c p : Id) (q : Z) (s : Session) (x : Exchange)
  (d : DB) :
  carts (snd (Backend.cart_items_insert c p q s x d)) = carts d.
Proof.
  unfold Backend.cart_items_insert.
  destruct (negb _); [reflexivity|].
  destruct (match Backend.find_product d p with Some _ => false | None => true end);
    [reflexivity|].
  destruct (_ || _); reflexivity.
Qed.

(** An insert into [cart_items] adds at most one row, with the quantity it
    was given, at the end. *)
Lemma cart_items_insert_rows (c p : Id) (q : Z) (s : Session) (x : Exchange)
  (d : DB) :
  cart_items (snd (Backend.cart_items_insert c p q s x d)) = cart_items d
  \/ exists i t,
       cart_items (snd (Backend.cart_items_insert c p q s x d))
       = (cart_items d ++ [CartItemRow.mk i c p q t])%list.
Proof.
  unfold Backend.cart_items_insert.
  destruct (negb _); [left; reflexivity|].
  destruct (match Backend.find_product d p with Some _ => false | None => true end);
    [left; reflexivity|].
  destruct (_ || _); [left; reflexivity|].
  right. eexists. eexists. reflexivity.
Qed.

(** ** The quantities in the carts *)

Lemma cart_items_update_keeps_quantities (s : Session) (i : Id) (q : Z) :
  1 <= q -> keeps_as s quantities_positive (Backend.cart_items_update i q).
Proof.
  intros Hq x d H. unfold quantities_positive in *.
  cbn [snd Backend.cart_items_update cart_items with_cart_items].
  apply Forall_map. eapply Forall_impl; [|exact H].
  intros r Hr. cbn beta. destruct (_ && _); [exact Hq|exact Hr].
Qed.

Lemma filter_keeps_quantities (f : CartItemRow.t -> bool) (d : DB) :
  quantities_positive d -> quantities_positive (with_cart_items d (filter f (cart_items d))).
Proof.
  unfold quantities_positive. cbn [cart_items with_cart_items]. intros H.
  apply Forall_forall. intros r Hr. apply filter_In in Hr.
  rewrite Forall_forall in H. apply H. tauto.
Qed.

(** X5. The handlers of the cart page and addToCart keep every quantity in
    [cart_items] at one or more: updateQuantity whatever quantity it is
    asked for (it sends nothing for one below 1), removeItem and
    handleCheckout because they only delete, addToCart when the quantity to
    add is one or more. *)
Theorem cart_quantities_stay_positive :
  forall w : World,
    quantities_positive (db w) ->
    (forall user itemId newQuantity,
        quantities_positive
          (db (exec (CartPage.updateQuantity user itemId newQuantity) w)))
    /\ (forall user itemId,
           quantities_positive (db (exec (Removal.removeItem user itemId) w)))
    /\ (forall user cartId cartItems shippingAddress,
           quantities_positive
             (db (exec (CartPage.handleCheckout user cartId cartItems
                                                shippingAddress) w)))
    /\ (forall user product quantity,
           1 <= quantity ->
           quantities_positive
             (db (exec (ProductDetailPage.addToCart user product quantity) w))).
Proof.
  intros w H. repeat split.
  - intros user itemId n.
    apply (updateQuantity_preserves_as (session w) quantities_positive user itemId n);
      [|reflexivity|exact H].
    intros Hn. apply cart_items_update_keeps_quantities. exact Hn.
  - intros user itemId.
    apply (removeItem_preserves_as (session w) quantities_positive user itemId);
      [|reflexivity|exact H].
    intros x d Hd. apply filter_keeps_quantities. exact Hd.
  - intros user cartId cartItems a.
    apply (handleCheckout_preserves_as (session w) quantities_positive);
      [| | | |reflexivity|exact H].
    + intros o x d Hd. unfold quantities_positive in *.
      rewrite (proj2 (orders_insert_carts o (session w) x d)). exact Hd.
    + intros rows x d Hd. unfold quantities_positive in *.
      rewrite (proj2 (order_items_insert_carts rows (session w) x d)). exact Hd.
    + intros i n x d Hd. exact Hd.
    + intros c x d Hd. apply filter_keeps_quantities. exact Hd.
  - intros user product q Hq.
    apply (addToCart_preserves_as (session w) quantities_positive user product q);
      [| | |reflexivity|exact H].
    + intros u x d Hd. unfold quantities_positive in *.
      rewrite carts_insert_cart_items. exact Hd.
    + intros r x d Hd Hr. apply cart_items_update_keeps_quantities; [|exact Hd].
      unfold quantities_positive in Hd. rewrite Forall_forall in Hd.
      specialize (Hd r Hr). lia.
    + intros c p x d Hd. unfold quantities_positive in *.
      destruct (cart_items_insert_rows c p q (session w) x d) as [E|[i [t E]]];
        rewrite E; [exact Hd|].
      apply Forall_app. split; [exact Hd|]. repeat constructor. exact Hq.
Qed.

Lemma cart_quantities_witness :
  quantities_positive
    (db (exec (ProductDetailPage.addToCart (Some Shop.budi) (Some Shop.paracetamol) 3)
              (Shop.world Shop.budi))).
Proof.
  apply (proj2 (proj2 (proj2 (cart_quantities_stay_positive
                                (Shop.world Shop.budi)
                                ltac:(repeat constructor; cbn; lia))))).
  lia.
Defined.

(** ** The items of other users' carts *)

Lemma item_of_another_cart_same (s : Session) (r : CartItemRow.t) (d d' : DB) :
  carts d' = carts d -> cart_items d' = cart_items d ->
  item_of_another_cart s r d -> item_of_another_cart s r d'.
Proof.
  unfold item_of_another_cart. intros Hc Hi.
  rewrite (owns_cart_carts d d' s _ Hc), Hc, Hi. tauto.
Qed.

Lemma cart_items_update_keeps_others (s : Session) (r : CartItemRow.t) (i : Id)
  (q : Z) :
  keeps_as s (item_of_another_cart s r) (Backend.cart_items_update i q).
Proof.
  intros x d [Hin [Hown Hcart]]. unfold item_of_another_cart.
  cbn [snd Backend.cart_items_update cart_items with_cart_items carts].
  split; [|split; [exact Hown|exact Hcart]].
  apply in_map_iff. exists r. split; [|exact Hin].
  unfold Backend.visible_item. rewrite Hown. reflexivity.
Qed.

Lemma cart_items_delete_keeps_others (s : Session) (r : CartItemRow.t)
  (f : CartItemRow.t -> bool) (d : DB) :
  item_of_another_cart s r d ->
  item_of_another_cart s r
    (with_cart_items d
       (filter (fun r0 => negb (Backend.visible_item d s r0 && f r0)) (cart_items d))).
Proof.
  intros [Hin [Hown Hcart]]. unfold item_of_another_cart.
  cbn [cart_items with_cart_items carts].
  split; [|split; [exact Hown|exact Hcart]].
  apply filter_In. split; [exact Hin|].
  unfold Backend.visible_item. rewrite Hown. reflexivity.
Qed.

Lemma carts_insert_keeps_others (s : Session) (r : CartItemRow.t) (u : Id) :
  keeps_as s (item_of_another_cart s r) (Backend.carts_insert u).
Proof.
  intros x d H. unfold Backend.carts_insert.
  destruct (negb _); [exact H|].
  destruct (_ || _) eqn:Hdup; [exact H|].
  apply orb_false_iff in Hdup. destruct Hdup as [Hfresh _].
  destruct H as [Hin [Hown Hcart]]. unfold item_of_another_cart.
  cbn [snd cart_items with_carts carts Cart.id].
  split; [exact Hin|]. split.
  - unfold owns_cart in *. cbn [carts with_carts]. rewrite existsb_app, Hown.
    cbn [existsb Cart.id Cart.user_id orb].
    destruct (String.eqb_spec (gen_random_uuid x 0%nat) (CartItemRow.cart_id r))
      as [E|E]; [|reflexivity].
    exfalso. rewrite E in Hfresh.
    assert (Ht : Backend.taken (CartItemRow.cart_id r) (map Cart.id (carts d)) = true).
    { apply existsb_exists. exists (CartItemRow.cart_id r).
      split; [exact Hcart|apply String.eqb_refl]. }
    congruence.
  - rewrite map_app. apply in_or_app. left. exact Hcart.
Qed.

Lemma cart_items_insert_keeps_others (s : Session) (r : CartItemRow.t) (c p : Id)
  (q : Z) :
  keeps_as s (item_of_another_cart s r) (Backend.cart_items_insert c p q).
Proof.
  intros x d [Hin [Hown Hcart]]. unfold item_of_another_cart.
  rewrite (owns_cart_carts d _ s _ (cart_items_insert_carts c p q s x d)).
  rewrite (cart_items_insert_carts c p q s x d).
  split; [|split; [exact Hown|exact Hcart]].
  destruct (cart_items_insert_rows c p q s x d) as [E|[i [t E]]]; rewrite E;
    [exact Hin|apply in_or_app; left; exact Hin].
Qed.

(** X4. An item in a cart that is not the session's stays as it is, with its
    quantity, whatever a handler of the cart or addToCart is called with and
    whatever becomes of its requests: the policies on [cart_items] hide the
    item from the updates and deletes that the handlers send. *)
Theorem cart_handlers_leave_the_items_of_other_carts :
  forall (w : World) (r : CartItemRow.t),
    In r (cart_items (db w)) ->
    owns_cart (db w) (session w) (CartItemRow.cart_id r) = false ->
    In (CartItemRow.cart_id r) (map Cart.id (carts (db w))) ->
    (forall user itemId newQuantity,
        In r (cart_items (db (exec (CartPage.updateQuantity user itemId newQuantity) w))))
    /\ (forall user itemId,
           In r (cart_items (db (exec (Removal.removeItem user itemId) w))))
    /\ (forall user cartId cartItems shippingAddress,
           In r (cart_items (db (exec (CartPage.handleCheckout
                                         user cartId cartItems shippingAddress) w))))
    /\ (forall user product quantity,
           In r (cart_items
                   (db (exec (ProductDetailPage.addToCart user product quantity) w)))).
Proof.
  intros w r Hin Hown Hcart.
  assert (H : item_of_another_cart (session w) r (db w)) by (repeat split; assumption).
  repeat split.
  - intros user itemId n.
    apply (updateQuantity_preserves_as (session w) (item_of_another_cart (session w) r)
                                       user itemId n); [|reflexivity|exact H].
    intros _. apply cart_items_update_keeps_others.
  - intros user itemId.
    apply (removeItem_preserves_as (session w) (item_of_another_cart (session w) r)
                                   user itemId); [|reflexivity|exact H].
    intros x d Hd. apply cart_items_delete_keeps_others. exact Hd.
  - intros user cartId cartItems a.
    apply (handleCheckout_preserves_as (session w) (item_of_another_cart (session w) r)
                                       user cartId cartItems a);
      [| | | |reflexivity|exact H].
    + intros o x d Hd.
      destruct (orders_insert_carts o (session w) x d) as [Hc Hi].
      exact (item_of_another_cart_same _ _ _ _ Hc Hi Hd).
    + intros rows x d Hd.
      destruct (order_items_insert_carts rows (session w) x d) as [Hc Hi].
      exact (item_of_another_cart_same _ _ _ _ Hc Hi Hd).
    + intros i n x d Hd. exact Hd.
    + intros c x d Hd. apply cart_items_delete_keeps_others. exact Hd.
  - intros user product q.
    apply (addToCart_preserves_as (session w) (item_of_another_cart (session w) r)
                                  user product q); [| | |reflexivity|exact H].
    + intros u. apply carts_insert_keeps_others.
    + intros r0 x d Hd _. apply cart_items_update_keeps_others. exact Hd.
    + intros c p. apply cart_items_insert_keeps_others.
Qed.

Lemma other_carts_witness :
  In (CartItemRow.mk "ci-2" "cart-siti" "p-paracetamol" 2 0)
     (cart_items (db (exec (CartPage.handleCheckout
                              (Some Shop.budi) (Some "cart-siti")
                              [Shop.cart_line "ci-2"] "Jl. Merdeka 1")
                           (Shop.world Shop.budi)))).
Proof.
  apply (proj1 (proj2 (proj2 (cart_handlers_leave_the_items_of_other_carts
                                (Shop.world Shop.budi)
                                (CartItemRow.mk "ci-2" "cart-siti" "p-paracetamol" 2 0)
                                ltac:(cbn; tauto) eq_refl ltac:(cbn; tauto))))).
Defined.

(** ** One cart per user *)

Lemma carts_insert_keeps_one_cart (s : Session) (u : Id) :
  keeps_as s one_cart_per_user (Backend.carts_insert u).
Proof.
  intros x d H. unfold Backend.carts_insert.
  destruct (negb _); [exact H|].
  destruct (_ || _) eqn:Hdup; [exact H|].
  apply orb_false_iff in Hdup. destruct Hdup as [_ Hnew].
  unfold one_cart_per_user in *. cbn [snd carts with_carts Cart.id].
  rewrite map_app. cbn [map Cart.user_id].
  apply NoDup_app; [exact H|repeat constructor; intros []|].
  intros v Hv [<-|[]].
  apply in_map_iff in Hv. destruct Hv as [c [Hc Hin]].
  assert (Hex : existsb (fun c => String.eqb (Cart.user_id c) u) (carts d) = true).
  { apply existsb_exists. exists c. split; [exact Hin|].
    rewrite Hc. apply String.eqb_refl. }
  congruence.
Qed.

(** X11. addToCart never gives a user a second cart: when its first query
    finds none (also because the query failed) it asks for a new one, and
    [UNIQUE(user_id)] holds afterwards as it held before. The handlers of the
    cart page leave [carts] alone altogether. *)
Theorem handlers_keep_one_cart_per_user :
  forall w : World,
    one_cart_per_user (db w) ->
    (forall user product quantity,
        one_cart_per_user
          (db (exec (ProductDetailPage.addToCart user product quantity) w)))
    /\ (forall user itemId newQuantity,
           carts (db (exec (CartPage.updateQuantity user itemId newQuantity) w))
           = carts (db w))
    /\ (forall user itemId,
           carts (db (exec (Removal.removeItem user itemId) w)) = carts (db w))
    /\ (forall user cartId cartItems shippingAddress,
           carts (db (exec (CartPage.handleCheckout user cartId cartItems
                                                    shippingAddress) w))
           = carts (db w)).
Proof.
  intros w H. repeat split.
  - intros user product q.
    apply (addToCart_preserves_as (session w) one_cart_per_user user product q);
      [| | |reflexivity|exact H].
    + intros u. apply carts_insert_keeps_one_cart.
    + intros r x d Hd _. exact Hd.
    + intros c p x d Hd. unfold one_cart_per_user in *.
      rewrite cart_items_insert_carts. exact Hd.
  - intros user itemId n.
    apply (updateQuantity_preserves_as (session w) (fun d => carts d = carts (db w))
                                       user itemId n); [|reflexivity|reflexivity].
    intros _ x d Hd. exact Hd.
  - intros user itemId.
    apply (removeItem_preserves_as (session w) (fun d => carts d = carts (db w))
                                   user itemId); [|reflexivity|reflexivity].
    intros x d Hd. exact Hd.
  - intros user cartId cartItems a.
    apply (handleCheckout_preserves_as (session w) (fun d => carts d = carts (db w))
                                       user cartId cartItems a);
      [| | | |reflexivity|reflexivity].
    + intros o x d Hd. rewrite (proj1 (orders_insert_carts o (session w) x d)). exact Hd.
    + intros rows x d Hd.
      rewrite (proj1 (order_items_insert_carts rows (session w) x d)). exact Hd.
    + intros i n x d Hd. exact Hd.
    + intros c x d Hd. exact Hd.
Qed.

Lemma one_cart_per_user_witness :
  one_cart_per_user
    (db (exec (ProductDetailPage.addToCart (Some wati) (Some Shop.paracetamol) 1)
              (Shop.world wati))).
Proof.
  apply (proj1 (handlers_keep_one_cart_per_user
                  (Shop.world wati)
                  ltac:(repeat constructor; cbn; intuition discriminate))).
Defined.

(** ** Removing an item *)

Lemma detached_world (c : M unit) (w : World) : exec (detached c) w = exec c w.
Proof.
  unfold detached, try_catch, exec, ret. destruct (c w) as [[a|e] w1]; reflexivity.
Qed.

Lemma fetchCart_ui_extends (user : option User.t) (w : World) :
  exists shown, ui (exec (CartPage.fetchCart user) w) = (ui w ++ shown)%list.
Proof.
  unfold CartPage.fetchCart. destruct user as [u|];
    [|exists []; cbn; rewrite app_nil_r; reflexivity].
  destruct w as [d s nt ck rq u0].
  unfold exec, bind, rpc, emit, ret. world_simpl.
  destruct (fate (nt (List.length rq))); world_simpl;
    [|exists []; rewrite app_nil_r; reflexivity..].
  destruct (fst _) as [c|e]; world_simpl;
    [|exists []; cbn; rewrite app_nil_r; reflexivity].
  destruct (fate (nt (S (List.length rq)))); world_simpl.
  - destruct (fst _); world_simpl; rewrite <- app_assoc; eexists; reflexivity.
  - rewrite <- app_assoc; eexists; reflexivity.
  - eexists; reflexivity.
Qed.

(** X1. removeItem sends one DELETE of [cart_items] and, after it, only
    reads. Once the delete is applied, the items with the given key in a
    cart of the session are gone and every other item is as it was; when the
    request resolves with an error, nothing is deleted and the page says
    so. *)
Theorem removeItem_deletes_the_item_and_nothing_else :
  forall (user : option User.t) (itemId : Id) (w : World),
    let w' := exec (Removal.removeItem user itemId) w in
    (exists reads,
        requests w' = (requests w ++ mkRequest DELETE "cart_items" :: reads)%list
        /\ Forall (fun r => is_write r = false) reads)
    /\ (fate (net w (List.length (requests w))) = Applied ->
        (forall r : CartItemRow.t,
            In r (cart_items (db w')) <->
            In r (cart_items (db w))
            /\ ~ (CartItemRow.id r = itemId
                  /\ owns_cart (db w) (session w) (CartItemRow.cart_id r) = true))
        /\ exists shown,
             ui w' = (ui w ++ ToastSuccess "Item dihapus" :: shown)%list)
    /\ (forall e, fate (net w (List.length (requests w))) = Refused e ->
                  db w' = db w
                  /\ ui w' = (ui w ++ [ToastError "Gagal menghapus item"])%list).
Proof.
  intros user itemId w w'.
  destruct (fate (net w (List.length (requests w)))) eqn:F.
  - set (w1 := mkWorld (snd (Store.cart_items_delete_one
                               itemId (session w)
                               (net w (List.length (requests w))) (db w)))
                       (session w) (net w) (clock w)
                       (requests w ++ [mkRequest DELETE "cart_items"])
                       (ui w ++ [ToastSuccess "Item dihapus"])).
    assert (E : w' = exec (CartPage.fetchCart user) w1).
    { subst w' w1. rewrite <- (detached_world (CartPage.fetchCart user)).
      unfold Removal.removeItem, exec, bind, rpc, emit. cbv zeta. rewrite F.
      reflexivity. }
    clearbody w'. subst w'.
    destruct (fetchCart_reads_only user w1) as [Hdb [reads [Hreq Hreads]]].
    destruct (fetchCart_ui_extends user w1) as [shown Hui].
    subst w1. cbn [db requests ui] in Hdb, Hreq, Hui.
    split; [|split].
    + exists reads. rewrite Hreq, <- app_assoc. split; [reflexivity|exact Hreads].
    + intros _. split.
      * intros r. rewrite Hdb.
        cbn [snd Store.cart_items_delete_one cart_items with_cart_items].
        rewrite filter_In. unfold Backend.visible_item.
        split; intros [Hin Hr]; (split; [exact Hin|]).
        -- intros [Hid Hown]. rewrite Hown, <- Hid, String.eqb_refl in Hr.
           discriminate Hr.
        -- destruct (owns_cart _ _ _) eqn:Hown; [|reflexivity].
           destruct (String.eqb_spec (CartItemRow.id r) itemId) as [Hid|Hid];
             [|reflexivity].
           exfalso. apply Hr. split; [exact Hid|reflexivity].
      * exists shown. rewrite Hui, <- app_assoc. reflexivity.
    + discriminate.
  - assert (E : w' = mkWorld (db w) (session w) (net w) (clock w)
                             (requests w ++ [mkRequest DELETE "cart_items"])
                             (ui w ++ [ToastError "Gagal menghapus item"])).
    { subst w'. unfold Removal.removeItem, exec, bind, rpc, emit. cbv zeta. rewrite F.
      reflexivity. }
    clearbody w'. subst w'. cbn [db requests ui]. split; [|split].
    + exists []. split; [reflexivity|constructor].
    + discriminate.
    + intros e0 _. split; reflexivity.
  - assert (E : w' = mkWorld (db w) (session w) (net w) (clock w)
                             (requests w ++ [mkRequest DELETE "cart_items"])
                             (ui w)).
    { subst w'. unfold Removal.removeItem, exec, bind, rpc, emit. cbv zeta. rewrite F.
      reflexivity. }
    clearbody w'. subst w'. cbn [db requests ui]. split; [|split].
    + exists []. split; [reflexivity|constructor].
    + discriminate.
    + discriminate.
Qed.

Lemma removeItem_witness :
  cart_items (db (exec (Removal.removeItem (Some Shop.budi) "ci-1")
                       (Shop.world Shop.budi)))
  = [CartItemRow.mk "ci-2" "cart-siti" "p-paracetamol" 2 0]
  /\ forall r,
       In r (cart_items (db (exec (Removal.removeItem (Some Shop.budi) "ci-2")
                                  (Shop.world Shop.budi)))) <->
       In r (cart_items (db (Shop.world Shop.budi)))
       /\ ~ (CartItemRow.id r = "ci-2"
             /\ owns_cart (db (Shop.world Shop.budi))
                          (session (Shop.world Shop.budi))
                          (CartItemRow.cart_id r) = true).
Proof.
  split; [reflexivity|].
  apply (proj1 (proj1 (proj2 (removeItem_deletes_the_item_and_nothing_else
                                (Some Shop.budi) "ci-2" (Shop.world Shop.budi)))
                      eq_refl)).
Defined.

(** ** What the cart page shows *)

(** With both of its requests applied and one cart of the user in sight,
    fetchCart shows that cart and its lines. *)
Lemma fetchCart_shows (u : User.t) (w : World) (cart : Cart.t) :
  fate (net w (List.length (requests w))) = Applied ->
  fate (net w (S (List.length (requests w)))) = Applied ->
  own_carts u w = [cart] ->
  ui (exec (CartPage.fetchCart (Some u)) w)
  = (ui w ++ [SetCartId (Cart.id cart); SetCartItems (shown_lines w (Cart.id cart))])%list.
Proof.
  intros F0 F1 Hcart. unfold own_carts in Hcart.
  destruct w as [d s nt ck rq u0]. cbn [db session net requests ui] in *.
  unfold CartPage.fetchCart, exec, bind, rpc, emit, shown_lines,
         Backend.carts_select.
  world_simpl. rewrite F0. world_simpl. rewrite Hcart. world_simpl.
  cbn [single]. world_simpl. rewrite F1. world_simpl.
  unfold Backend.cart_items_select. world_simpl.
  rewrite <- app_assoc. reflexivity.
Qed.

Lemma nothing_shown (shown evs : list UiEvent) :
  shown = (shown ++ evs)%list -> evs = [].
Proof.
  intros H. rewrite <- (app_nil_r shown) in H at 1.
  apply app_inv_head in H. auto.
Qed.

(** X2. The lines fetchCart hands to the page are items of a cart that
    belongs to the user the page was given, who is also the one the session
    is signed in as; each line carries the key and the quantity of its item
    and the name, price, stock and image of the item's product as they are
    in the database. *)
Theorem fetchCart_shows_only_the_users_own_items :
  forall (user : option User.t) (w : World) (c : Id) (l : list CartItem.t),
    ui (exec (CartPage.fetchCart user) w)
    = (ui w ++ [SetCartId c; SetCartItems l])%list ->
    exists (u : User.t) (cart : Cart.t),
      user = Some u
      /\ session w = Some (User.id u)
      /\ In cart (carts (db w))
      /\ Cart.id cart = c
      /\ Cart.user_id cart = User.id u
      /\ Forall (fun line =>
                   exists (r : CartItemRow.t) (p : Product.t),
                     In r (cart_items (db w))
                     /\ CartItemRow.cart_id r = c
                     /\ In p (products (db w))
                     /\ Product.id p = CartItemRow.product_id r
                     /\ line = line_of r p) l.
Proof.
  intros user w c l. unfold CartPage.fetchCart.
  destruct user as [u|]; [|intros H; apply nothing_shown in H; discriminate H].
  destruct w as [d s nt ck rq u0].
  unfold exec, bind, rpc, emit, ret, Backend.carts_select. world_simpl.
  destruct (fate (nt (List.length rq))); world_simpl;
    [|intros H; apply nothing_shown in H; discriminate H..].
  destruct (single _) as [cart|e] eqn:Hsingle; world_simpl;
    [|intros H; apply nothing_shown in H; discriminate H].
  apply single_one in Hsingle.
  assert (Hcart : In cart [cart]) by (left; reflexivity).
  rewrite <- Hsingle in Hcart. apply filter_In in Hcart.
  destruct Hcart as [Hin Hown]. apply andb_true_iff in Hown.
  destruct Hown as [Huid Hu]. apply String.eqb_eq in Hu.
  destruct (fate (nt (S (List.length rq)))); world_simpl;
    unfold Backend.cart_items_select; world_simpl;
    rewrite <- ?app_assoc; intros H; apply app_inv_head in H;
    cbn [app] in H; [|discriminate H..].
  injection H as Hc Hl. exists u, cart.
  split; [reflexivity|]. split.
  { destruct s as [v|]; cbn in Huid; [|discriminate Huid].
    apply String.eqb_eq in Huid. congruence. }
  split; [exact Hin|]. split; [exact Hc|]. split; [exact Hu|].
  subst l. apply Forall_forall. intros line Hline.
  apply in_flat_map in Hline. destruct Hline as [r [Hr Hline]].
  apply filter_In in Hr. destruct Hr as [Hr Hvis].
  apply andb_true_iff in Hvis. destruct Hvis as [_ Hcid].
  apply String.eqb_eq in Hcid.
  unfold Backend.find_product in Hline.
  destruct (find _ (products d)) as [p|] eqn:Hp; [|destruct Hline].
  destruct Hline as [<-|[]]. apply find_some in Hp. destruct Hp as [Hp Hid].
  apply String.eqb_eq in Hid.
  exists r, p. repeat split; try assumption. congruence.
Qed.

Lemma fetchCart_witness :
  exists (u : User.t) (cart : Cart.t),
    Some Shop.budi = Some u
    /\ session (Shop.world Shop.budi) = Some (User.id u)
    /\ In cart (carts (db (Shop.world Shop.budi)))
    /\ Cart.id cart = "cart-budi"
    /\ Cart.user_id cart = User.id u
    /\ Forall (fun line =>
                 exists (r : CartItemRow.t) (p : Product.t),
                   In r (cart_items (db (Shop.world Shop.budi)))
                   /\ CartItemRow.cart_id r = "cart-budi"
                   /\ In p (products (db (Shop.world Shop.budi)))
                   /\ Product.id p = CartItemRow.product_id r
                   /\ line = line_of r p) [Shop.cart_line "ci-1"].
Proof.
  apply (fetchCart_shows_only_the_users_own_items
           (Some Shop.budi) (Shop.world Shop.budi) "cart-budi" [Shop.cart_line "ci-1"]).
  reflexivity.
Defined.

Lemma own_carts_same (u : User.t) (w w1 : World) :
  session w1 = session w -> carts (db w1) = carts (db w) ->
  own_carts u w1 = own_carts u w.
Proof. intros Hs Hc. unfold own_carts. rewrite Hs, Hc. reflexivity. Qed.

Lemma own_cart_is_owned (u : User.t) (w : World) (cart : Cart.t) :
  own_carts u w = [cart] ->
  owns_cart (db w) (session w) (Cart.id cart) = true.
Proof.
  intros H. assert (Hin : In cart [cart]) by (left; reflexivity).
  rewrite <- H in Hin. apply filter_In in Hin. destruct Hin as [Hin Hown].
  apply andb_true_iff in Hown. destruct Hown as [Huid _].
  unfold owns_cart. apply existsb_exists. exists cart. split; [exact Hin|].
  rewrite String.eqb_refl, Huid. reflexivity.
Qed.

(** X9. After updateQuantity has set a quantity of one or more, with every
    request applied, the cart page is handed the user's cart again, and the
    line of the item shows the new quantity. *)
Theorem updateQuantity_shows_the_new_quantity :
  forall (u : User.t) (itemId : Id) (newQuantity : Z) (w : World)
         (cart : Cart.t) (r : CartItemRow.t) (p : Product.t),
    1 <= newQuantity ->
    every_request_applied w ->
    own_carts u w = [cart] ->
    In r (cart_items (db w)) ->
    CartItemRow.id r = itemId ->
    CartItemRow.cart_id r = Cart.id cart ->
    Backend.find_product (db w) (CartItemRow.product_id r) = Some p ->
    exists l,
      ui (exec (CartPage.updateQuantity (Some u) itemId newQuantity) w)
      = (ui w ++ [SetCartId (Cart.id cart); SetCartItems l])%list
      /\ In (CartItem.mk itemId newQuantity (Backend.embed_product p)) l.
Proof.
  intros u itemId n w cart r p Hn Hall Hcart Hr Hid Hcid Hp.
  set (w1 := mkWorld (snd (Backend.cart_items_update
                             itemId n (session w)
                             (net w (List.length (requests w))) (db w)))
                     (session w) (net w) (clock w)
                     (requests w ++ [mkRequest UPDATE "cart_items"]) (ui w)).
  assert (E : exec (CartPage.updateQuantity (Some u) itemId n) w
              = exec (CartPage.fetchCart (Some u)) w1).
  { subst w1. unfold CartPage.updateQuantity.
    destruct (Z.ltb_spec n 1); [lia|].
    unfold exec, bind, rpc. cbv zeta. rewrite (Hall _). reflexivity. }
  rewrite E.
  exists (shown_lines w1 (Cart.id cart)). split.
  - rewrite (fetchCart_shows u w1 cart); [reflexivity|apply Hall|apply Hall|].
    rewrite (own_carts_same u w w1); [exact Hcart|reflexivity|reflexivity].
  - pose proof (own_cart_is_owned u w cart Hcart) as Hown.
    subst w1. unfold shown_lines, Backend.cart_items_select.
    cbn [fst snd db session Backend.cart_items_update].
    apply in_flat_map. exists (Backend.set_quantity n r). split.
    + apply filter_In. split.
      * cbn [cart_items with_cart_items]. apply in_map_iff. exists r.
        split; [|exact Hr].
        unfold Backend.visible_item. rewrite Hcid, Hown, Hid, String.eqb_refl.
        reflexivity.
      * unfold Backend.visible_item, owns_cart.
        cbn [carts with_cart_items Backend.set_quantity CartItemRow.cart_id].
        fold (owns_cart (db w) (session w) (CartItemRow.cart_id r)).
        rewrite Hcid, Hown, String.eqb_refl. reflexivity.
    + unfold Backend.find_product in *.
      cbn [products with_cart_items Backend.set_quantity CartItemRow.product_id
           CartItemRow.id CartItemRow.quantity].
      rewrite Hp, Hid. left. reflexivity.
Qed.

Lemma updateQuantity_shows_witness :
  exists l,
    ui (exec (CartPage.updateQuantity (Some Shop.budi) "ci-1" 5) (Shop.world Shop.budi))
    = (ui (Shop.world Shop.budi) ++ [SetCartId "cart-budi"; SetCartItems l])%list
    /\ In (CartItem.mk "ci-1" 5 (Backend.embed_product Shop.paracetamol)) l.
Proof.
  apply (updateQuantity_shows_the_new_quantity
           Shop.budi "ci-1" 5 (Shop.world Shop.budi)
           (Cart.mk "cart-budi" "u-budi" 0 0)
           (CartItemRow.mk "ci-1" "cart-budi" "p-paracetamol" 2 0)
           Shop.paracetamol);
    try reflexivity; [lia|intros k; reflexivity|cbn; tauto].
Defined.

(** ** After a checkout *)

(** A checkout that announced success with every request applied went all
    the way: what it left is the database [d3] of after the stock updates,
    with the same carts and items as before, less the items it deleted. *)
Lemma checkout_success_world (u : User.t) (c : Id) (cartItems : list CartItem.t)
  (a : string) (w : World) :
  checkout_succeeded w (exec (CartPage.handleCheckout (Some u) (Some c) cartItems a) w) ->
  every_request_applied w ->
  exists d3 x sent,
    exec (CartPage.handleCheckout (Some u) (Some c) cartItems a) w
    = went_through w (snd (Backend.cart_items_delete c (session w) x d3)) sent
    /\ carts d3 = carts (db w)
    /\ cart_items d3 = cart_items (db w).
Proof.
  intros Hok Hall.
  destruct (checkout_succeeded_guards _ _ _ _ _ Hok)
    as [u' [c' [i [l [Hu [Hc [Hitems [Htc Hta]]]]]]]].
  injection Hu as <-. injection Hc as <-. subst cartItems.
  rewrite (handleCheckout_outcome u c i l a w Htc Hta) in *.
  unfold checkout_outcome in *. cbv zeta in *.
  rewrite (Hall _) in *.
  destruct (Backend.orders_insert _ _ _ _) as [[order|e] d1] eqn:Ho;
    [|exfalso; exact (gave_up_is_no_success _ _ _ _ Hok)].
  rewrite (Hall _) in *.
  destruct (Backend.order_items_insert _ _ _ _) as [[[]|e] d2] eqn:Hi;
    [|exfalso; exact (gave_up_is_no_success _ _ _ _ Hok)].
  destruct (stopped _) as [e|] eqn:Hs;
    [exfalso; exact (gave_up_is_no_success _ _ _ _ Hok)|].
  rewrite (Hall _) in *.
  eexists. eexists. eexists. split; [reflexivity|].
  pose proof (orders_insert_carts
                (order_payload u (i :: l) a w) (session w)
                (net w (List.length (requests w))) (db w)) as [Hc1 Hi1].
  rewrite Ho in Hc1, Hi1. cbn [snd] in Hc1, Hi1.
  pose proof (order_items_insert_carts
                (CartPage.orderItems order (i :: l)) (session w)
                (net w (S (List.length (requests w)))) d1) as [Hc2 Hi2].
  rewrite Hi in Hc2, Hi2. cbn [snd] in Hc2, Hi2.
  cbn [carts cart_items with_products]. split; congruence.
Qed.

Lemma filter_nothing {A : Type} (f : A -> bool) (l : list A) :
  filter f (filter (fun a => negb (f a)) l) = [].
Proof.
  induction l as [|a l IH]; [reflexivity|]. cbn [filter].
  destruct (f a) eqn:Hf; cbn [negb filter]; [exact IH|].
  rewrite Hf. exact IH.
Qed.

(** X8. After a checkout of the user's own cart that announced success, with
    every request applied, the cart page that loads next is handed the same
    cart, empty. *)
Theorem cart_is_empty_after_checkout :
  forall (u : User.t) (cartItems : list CartItem.t) (shippingAddress : string)
         (w : World) (cart : Cart.t),
    let w1 := exec (CartPage.handleCheckout (Some u) (Some (Cart.id cart)) cartItems
                                            shippingAddress) w in
    checkout_succeeded w w1 ->
    every_request_applied w ->
    own_carts u w = [cart] ->
    ui (exec (CartPage.fetchCart (Some u)) w1)
    = (ui w1 ++ [SetCartId (Cart.id cart); SetCartItems []])%list.
Proof.
  intros u cartItems a w cart w1 Hok Hall Hcart.
  destruct (checkout_success_world u (Cart.id cart) cartItems a w Hok Hall)
    as [d3 [x [sent [E [Hc Hi]]]]].
  subst w1. rewrite E.
  rewrite (fetchCart_shows u _ cart); [| | |].
  - f_equal. f_equal. f_equal.
    unfold shown_lines, went_through, Backend.cart_items_select,
           Backend.cart_items_delete.
    cbn [fst snd db session cart_items with_cart_items].
    unfold Backend.visible_item, owns_cart. cbn [carts with_cart_items].
    rewrite (filter_nothing
               (fun r => existsb (fun c0 => String.eqb (Cart.id c0) (CartItemRow.cart_id r)
                                            && uid_is (session w) (Cart.user_id c0))
                                 (carts d3)
                         && String.eqb (CartItemRow.cart_id r) (Cart.id cart))).
    reflexivity.
  - apply Hall.
  - apply Hall.
  - rewrite (own_carts_same u w); [exact Hcart|reflexivity|].
    unfold went_through. cbn [db snd Backend.cart_items_delete carts with_cart_items].
    exact Hc.
Qed.

Lemma cart_is_empty_witness :
  ui (exec (CartPage.fetchCart (Some Shop.budi))
           (exec (CartPage.handleCheckout (Some Shop.budi) (Some "cart-budi")
                                          [Shop.cart_line "ci-1"] "Jl. Merdeka 1")
                 (Shop.world Shop.budi)))
  = (ui (exec (CartPage.handleCheckout (Some Shop.budi) (Some "cart-budi")
                                       [Shop.cart_line "ci-1"] "Jl. Merdeka 1")
              (Shop.world Shop.budi))
     ++ [SetCartId "cart-budi"; SetCartItems []])%list.
Proof.
  apply (cart_is_empty_after_checkout
           Shop.budi [Shop.cart_line "ci-1"] "Jl. Merdeka 1" (Shop.world Shop.budi)
           (Cart.mk "cart-budi" "u-budi" 0 0));
    [reflexivity|intros k; reflexivity|reflexivity].
Defined.

(** ** An order number that is taken *)

(** X7. The order number is made of the client's clock alone. When an order
    with that number exists already, the checkout gives up at its first
    request: no order and no order item is added, no stock changes, the cart
    stays as it is, and the page shows the error. *)
Theorem checkout_with_a_taken_order_number_creates_nothing :
  forall (u : User.t) (c : Id) (i : CartItem.t) (l : list CartItem.t)
         (shippingAddress : string) (w : World),
    Text.truthy c = true ->
    Text.truthy (Text.trim shippingAddress) = true ->
    In ("WM" ++ Text.of_Z (clock w)) (map Order.order_number (orders (db w))) ->
    exists e,
      exec (CartPage.handleCheckout (Some u) (Some c) (i :: l) shippingAddress) w
      = gave_up w (db w) [ins_orders] e.
Proof.
  intros u c i l a w Hc Ha Htaken.
  rewrite (handleCheckout_outcome u c i l a w Hc Ha).
  unfold checkout_outcome. cbv zeta.
  destruct (fate (net w (List.length (requests w)))) as [|e|e];
    [|exists e; reflexivity..].
  destruct (Backend.orders_insert _ _ _ _) as [[order|e] d1] eqn:Ho;
    [|exists e; reflexivity].
  exfalso. unfold Backend.orders_insert in Ho.
  destruct (negb _); [discriminate Ho|].
  destruct (_ || _) eqn:Hdup; [discriminate Ho|].
  apply orb_false_iff in Hdup. destruct Hdup as [_ Hdup].
  apply in_map_iff in Htaken. destruct Htaken as [o [Ho' Hin]].
  assert (Hex : existsb (fun r => String.eqb (Order.order_number r)
                                             (NewOrder.order_number
                                                (order_payload u (i :: l) a w)))
                        (orders (db w)) = true).
  { apply existsb_exists. exists o. split; [exact Hin|].
    unfold order_payload. cbn [NewOrder.order_number]. rewrite Ho'.
    apply String.eqb_refl. }
  congruence.
Qed.

Lemma taken_order_number_witness :
  exists e,
    exec (CartPage.handleCheckout (Some Shop.budi) (Some "cart-budi")
                                  [Shop.cart_line "ci-1"] "Jl. Merdeka 1")
         (mkWorld (with_orders Shop.database [first_order]) (Some "u-budi")
                  Shop.fair 500 [] [])
    = gave_up (mkWorld (with_orders Shop.database [first_order]) (Some "u-budi")
                       Shop.fair 500 [] [])
              (with_orders Shop.database [first_order]) [ins_orders] e.
Proof.
  apply (checkout_with_a_taken_order_number_creates_nothing
           Shop.budi "cart-budi" (Shop.cart_line "ci-1") [] "Jl. Merdeka 1"
           (mkWorld (with_orders Shop.database [first_order]) (Some "u-budi")
                    Shop.fair 500 [] []));
    [reflexivity|reflexivity|left; reflexivity].
Defined.

(** ** Sessions without the admin role *)

Lemma filter_none {A : Type} (f : A -> bool) (l : list A) :
  (forall a, f a = false) -> filter f l = [].
Proof.
  intros H. induction l as [|a l IH]; [reflexivity|].
  cbn [filter]. rewrite H. exact IH.
Qed.

Lemma filter_all {A : Type} (f : A -> bool) (l : list A) :
  (forall a, f a = true) -> filter f l = l.
Proof.
  intros H. induction l as [|a l IH]; [reflexivity|].
  cbn [filter]. rewrite H, IH. reflexivity.
Qed.

Lemma map_same {A : Type} (f : A -> A) (l : list A) :
  (forall a, f a = a) -> map f l = l.
Proof.
  intros H. induction l as [|a l IH]; [reflexivity|].
  cbn [map]. rewrite H, IH. reflexivity.
Qed.

Lemma products_update_not_admin (i : Id) (n : Z) (s : Session) (x : Exchange)
  (d : DB) :
  is_admin d s = false -> snd (Backend.products_update i n s x d) = d.
Proof.
  intros H. unfold Backend.products_update. rewrite H. cbn [snd andb].
  rewrite map_same by reflexivity. destruct d; reflexivity.
Qed.

Lemma orders_update_not_admin (i : Id) (st : string) (s : Session) (x : Exchange)
  (d : DB) :
  is_admin d s = false -> snd (Backend.orders_update i st s x d) = d.
Proof.
  intros H. unfold Backend.orders_update. rewrite H. cbn [snd andb].
  rewrite map_same by reflexivity. destruct d; reflexivity.
Qed.

Lemma products_update_row_not_admin (i : Id) (n : ProductData.t) (s : Session)
  (x : Exchange) (d : DB) :
  is_admin d s = false -> snd (Store.products_update_row i n s x d) = d.
Proof.
  intros H. unfold Store.products_update_row. cbv zeta. rewrite H. cbn [andb].
  rewrite filter_none by reflexivity. reflexivity.
Qed.

Lemma products_insert_not_admin (current_date : Timestamp -> string)
  (n : ProductData.t) (s : Session) (x : Exchange) (d : DB) :
  is_admin d s = false -> snd (Store.products_insert current_date n s x d) = d.
Proof.
  intros H. unfold Store.products_insert. rewrite H. reflexivity.
Qed.

Lemma products_delete_not_admin (i : Id) (s : Session) (x : Exchange) (d : DB) :
  is_admin d s = false -> snd (Store.products_delete i s x d) = d.
Proof.
  intros H. unfold Store.products_delete. cbv zeta. rewrite H. cbn [snd andb negb].
  rewrite !filter_all by reflexivity. rewrite map_same by reflexivity.
  destruct d; reflexivity.
Qed.

Lemma is_admin_roles (d d' : DB) (s : Session) :
  user_roles d' = user_roles d -> is_admin d' s = is_admin d s.
Proof.
  intros H. unfold is_admin, has_role. rewrite H. reflexivity.
Qed.

Section PreservationOfTheShelves.

Variable s : Session.
Variable I : DB -> Prop.

Lemma fetchProducts_preserves_as : preserves_as s I Inventory.fetchProducts.
Proof.
  unfold Inventory.fetchProducts. apply preserves_as_bind.
  - apply preserves_as_rpc, keeps_as_read. reflexivity.
  - intros r. apply preserves_as_emit.
Qed.

Lemma handleProductSubmit_preserves_as
  (parseFloat parseInt : string -> option Z) (current_date : Timestamp -> string)
  (page : Inventory.Page) :
  (forall i n, keeps_as s I (Store.products_update_row i n)) ->
  (forall n, keeps_as s I (Store.products_insert current_date n)) ->
  preserves_as s I (Inventory.handleProductSubmit parseFloat parseInt current_date page).
Proof.
  intros Hupd Hins. unfold Inventory.handleProductSubmit.
  destruct (Inventory.editing page) as [i|].
  - apply preserves_as_bind; [apply preserves_as_rpc, Hupd|].
    intros r. destruct (error r).
    + apply preserves_as_bind; [apply preserves_as_emit|intros; apply preserves_as_ret].
    + apply preserves_as_bind; [apply preserves_as_emit|intros _].
      apply preserves_as_bind;
        [apply preserves_as_detached, fetchProducts_preserves_as|].
      intros; apply preserves_as_ret.
  - apply preserves_as_bind; [apply preserves_as_rpc, Hins|].
    intros r. destruct (error r).
    + apply preserves_as_bind; [apply preserves_as_emit|intros; apply preserves_as_ret].
    + apply preserves_as_bind; [apply preserves_as_emit|intros _].
      apply preserves_as_bind;
        [apply preserves_as_detached, fetchProducts_preserves_as|].
      intros; apply preserves_as_ret.
Qed.

Lemma handleDeleteProduct_preserves_as (confirmed : bool) (id : Id) :
  keeps_as s I (Store.products_delete id) ->
  preserves_as s I (Inventory.handleDeleteProduct confirmed id).
Proof.
  intros Hdel. unfold Inventory.handleDeleteProduct.
  destruct (negb confirmed); [apply preserves_as_ret|].
  apply preserves_as_bind; [apply preserves_as_rpc, Hdel|].
  intros r. destruct (error r); [apply preserves_as_emit|].
  apply preserves_as_bind; [apply preserves_as_emit|intros _].
  apply preserves_as_detached, fetchProducts_preserves_as.
Qed.

Lemma updateOrderStatus_preserves_as (orderId : Id) (status : string) :
  keeps_as s I (Backend.orders_update orderId status) ->
  preserves_as s I (AdminPage.updateOrderStatus orderId status).
Proof.
  intros Hupd. unfold AdminPage.updateOrderStatus, AdminPage.fetchOrders.
  apply preserves_as_bind; [apply preserves_as_rpc, Hupd|].
  intros r. destruct (error r); [apply preserves_as_emit|].
  apply preserves_as_bind; [apply preserves_as_emit|intros _].
  apply preserves_as_bind.
  - apply preserves_as_rpc, keeps_as_read. reflexivity.
  - intros r'. apply preserves_as_emit.
Qed.

End PreservationOfTheShelves.

Lemma detached_world_snd (c : M unit) (w : World) : snd (detached c w) = snd (c w).
Proof. exact (detached_world c w). Qed.

Lemma fetchProducts_ui_extends (w : World) :
  exists shown, ui (exec Inventory.fetchProducts w) = (ui w ++ shown)%list.
Proof.
  unfold Inventory.fetchProducts, exec, bind, rpc, emit. cbv zeta.
  destruct (fate (net w (List.length (requests w)))); cbn [fst snd ui];
    eexists; try reflexivity.
  rewrite <- (app_nil_r (ui w)) at 1. reflexivity.
Qed.

(** X6. Whatever a session without the admin role sends through the
    handlers, it manages nothing: a checkout leaves every product, and with
    it every stock, as it was; submitting the product form, deleting a
    product and setting the status of an order leave the whole database as it
    was. The deletion changes no row and yet, its request applied, the page
    announces success. *)
Theorem without_the_admin_role_nothing_is_managed :
  forall w : World,
    is_admin (db w) (session w) = false ->
    (forall user cartId cartItems shippingAddress,
        products (db (exec (CartPage.handleCheckout user cartId cartItems
                                                    shippingAddress) w))
        = products (db w))
    /\ (forall parseFloat parseInt current_date page,
           db (exec (Inventory.handleProductSubmit parseFloat parseInt current_date
                                                   page) w) = db w)
    /\ (forall confirmed id,
           db (exec (Inventory.handleDeleteProduct confirmed id) w) = db w)
    /\ (forall orderId status,
           db (exec (AdminPage.updateOrderStatus orderId status) w) = db w)
    /\ (forall id,
           fate (net w (List.length (requests w))) = Applied ->
           exists shown,
             ui (exec (Inventory.handleDeleteProduct true id) w)
             = (ui w ++ ToastSuccess "Produk berhasil dihapus" :: shown)%list).
Proof.
  intros w H. split; [|split; [|split; [|split]]].
  - intros user cartId cartItems a.
    apply (handleCheckout_preserves_as
             (session w)
             (fun d => user_roles d = user_roles (db w) /\ products d = products (db w))
             user cartId cartItems a); [| | | |reflexivity|split; reflexivity].
    + intros o x d Hd. unfold Backend.orders_insert.
      destruct (negb _); [exact Hd|]. destruct (_ || _); exact Hd.
    + intros rows x d Hd. unfold Backend.order_items_insert.
      destruct (negb _); [exact Hd|]. destruct (negb _); [exact Hd|].
      destruct (_ || _); exact Hd.
    + intros i n x d Hd. rewrite products_update_not_admin; [exact Hd|].
      rewrite (is_admin_roles (db w) d); [exact H|apply Hd].
    + intros c x d Hd. exact Hd.
  - intros pf pi cd page.
    apply (handleProductSubmit_preserves_as (session w) (fun d => d = db w)
                                           pf pi cd page);
      [| |reflexivity|reflexivity].
    + intros i n x d ->. apply products_update_row_not_admin, H.
    + intros n x d ->. apply products_insert_not_admin, H.
  - intros confirmed id.
    apply (handleDeleteProduct_preserves_as (session w) (fun d => d = db w)
                                            confirmed id);
      [|reflexivity|reflexivity].
    intros x d ->. apply products_delete_not_admin, H.
  - intros orderId status.
    apply (updateOrderStatus_preserves_as (session w) (fun d => d = db w)
                                          orderId status);
      [|reflexivity|reflexivity].
    intros x d ->. apply orders_update_not_admin, H.
  - intros id F. unfold Inventory.handleDeleteProduct. cbn [negb].
    unfold exec, bind, rpc, emit. cbv zeta. rewrite F.
    cbn [fst snd respond error Store.products_delete].
    rewrite detached_world_snd.
    destruct (fetchProducts_ui_extends
                (mkWorld (snd (Store.products_delete
                                 id (session w)
                                 (net w (List.length (requests w))) (db w)))
                         (session w) (net w) (clock w)
                         (requests w ++ [mkRequest DELETE "products"])
                         (ui w ++ [ToastSuccess "Produk berhasil dihapus"])))
      as [shown Hshown].
    exists shown. unfold exec in Hshown. cbn [ui] in Hshown.
    rewrite <- app_assoc in Hshown. exact Hshown.
Qed.

Lemma not_admin_witness :
  db (exec (Inventory.handleDeleteProduct true "p-paracetamol") (Shop.world Shop.budi))
  = db (Shop.world Shop.budi).
Proof.
  apply (proj1 (proj2 (proj2 (without_the_admin_role_nothing_is_managed
                                (Shop.world Shop.budi) eq_refl)))).
Defined.

(** ** The quantity field of the product page *)

(** X10. Whatever is typed into the quantity field, the quantity the page
    keeps is one or more; it is no more than the stock of the product unless
    that stock is below one, in which case it is one; and a number between
    one and the stock is kept as it is. *)
Theorem quantity_input_stays_between_one_and_the_stock :
  forall (parseInt : string -> option Z) (product : Product.t) (value : string),
    let q := ProductPage.quantity_input parseInt product value in
    1 <= q
    /\ (1 <= Product.stock product -> q <= Product.stock product)
    /\ (Product.stock product < 1 -> q = 1)
    /\ (forall n, parseInt value = Some n ->
                  1 <= n <= Product.stock product -> q = n).
Proof.
  intros parseInt product value q. subst q.
  unfold ProductPage.quantity_input, ProductPage.or_one.
  repeat split; try lia.
  intros n Hn Hrange. rewrite Hn.
  destruct (Z.eqb_spec n 0); lia.
Qed.

Lemma quantity_input_witness :
  ProductPage.quantity_input (fun _ => Some 500) Shop.paracetamol "500" <= 120
  /\ ProductPage.quantity_input (fun _ => Some 7) Shop.paracetamol "7" = 7.
Proof.
  split.
  - apply (proj1 (proj2 (quantity_input_stays_between_one_and_the_stock
                           (fun _ => Some 500) Shop.paracetamol "500"))).
    cbn. lia.
  - apply (proj2 (proj2 (proj2 (quantity_input_stays_between_one_and_the_stock
                                  (fun _ => Some 7) Shop.paracetamol "7")))
                 7 eq_refl).
    cbn. lia.
Defined.

(** ** The product page *)

Lemma filter_absent {A : Type} (key : A -> string) (l : list A) (k : string) :
  ~ In k (map key l) -> filter (fun c => String.eqb (key c) k) l = [].
Proof.
  intros Hk. induction l as [|c l IH]; [reflexivity|].
  cbn [filter]. destruct (String.eqb_spec (key c) k) as [E|E].
  - exfalso. apply Hk. left. exact E.
  - apply IH. intros H. apply Hk. right. exact H.
Qed.

Lemma filter_unique {A : Type} (key : A -> string) (l : list A) (a : A) :
  NoDup (map key l) -> In a l ->
  filter (fun b => String.eqb (key b) (key a)) l = [a].
Proof.
  induction l as [|b l IH]; intros Hnd Hin; [destruct Hin|].
  cbn [map] in Hnd. inversion Hnd as [|k ks Hk Hnd']. subst.
  cbn [filter]. destruct Hin as [->|Hin].
  - rewrite String.eqb_refl, (filter_absent key l (key a) Hk). reflexivity.
  - destruct (String.eqb_spec (key b) (key a)) as [E|E].
    + exfalso. apply Hk. rewrite E. apply in_map. exact Hin.
    + apply IH; assumption.
Qed.

(** X12. fetchProduct sends one read. The product it hands to the page is a
    product of the database with the slug of the route, with the name of its
    category; when it hands none, it shows "Produk tidak ditemukan" and goes
    to the home page. With [UNIQUE(slug)] in force and the request applied,
    every product is found by its own slug. *)
Theorem fetchProduct_finds_the_product_of_the_slug :
  forall (slug : string) (w : World),
    let w' := exec (ProductPage.fetchProduct slug) w in
    let found := completion (ProductPage.fetchProduct slug) w in
    db w' = db w
    /\ requests w' = (requests w ++ [mkRequest SELECT "products"])%list
    /\ (forall l,
           found = Normal (Some l) ->
           In (Listed.product l) (products (db w))
           /\ Product.slug (Listed.product l) = slug
           /\ l = Store.with_category (db w) (Listed.product l)
           /\ ui w' = ui w)
    /\ (found = Normal None ->
        ui w' = (ui w ++ [ToastError "Produk tidak ditemukan"; Navigate "/"])%list)
    /\ (forall p,
           fate (net w (List.length (requests w))) = Applied ->
           NoDup (map Product.slug (products (db w))) ->
           In p (products (db w)) ->
           Product.slug p = slug ->
           found = Normal (Some (Store.with_category (db w) p))).
Proof.
  intros slug w w' found. subst w' found.
  unfold ProductPage.fetchProduct, exec, completion, bind, rpc, emit, ret,
         Store.products_select_by_slug.
  cbv zeta.
  destruct (fate (net w (List.length (requests w)))) eqn:F;
    cbn [fst snd respond error data db requests ui].
  - destruct (filter _ (products (db w))) as [|p [|p' rest]] eqn:Hf;
      cbn [map single respond error data fst snd db requests ui].
    + split; [reflexivity|]. split; [reflexivity|].
      split; [discriminate|]. split; [intros _; rewrite <- app_assoc; reflexivity|].
      intros p _ Hnd Hin Hslug. exfalso.
      assert (Hp : In p (filter (fun p0 => String.eqb (Product.slug p0) slug)
                                (products (db w)))).
      { apply filter_In. split; [exact Hin|]. rewrite Hslug. apply String.eqb_refl. }
      rewrite Hf in Hp. destruct Hp.
    + assert (Hp : In p (filter (fun p0 => String.eqb (Product.slug p0) slug)
                                (products (db w)))) by (rewrite Hf; left; reflexivity).
      apply filter_In in Hp. destruct Hp as [Hin Hslug].
      apply String.eqb_eq in Hslug.
      split; [reflexivity|]. split; [reflexivity|]. split; [|split; [discriminate|]].
      * intros l Hl. injection Hl as <-.
        split; [exact Hin|]. split; [exact Hslug|]. split; reflexivity.
      * intros p0 _ Hnd Hin0 Hslug0.
        rewrite <- Hslug0 in Hf. rewrite (filter_unique Product.slug _ p0 Hnd Hin0) in Hf.
        injection Hf as ->. reflexivity.
    + split; [reflexivity|]. split; [reflexivity|].
      split; [discriminate|]. split; [intros _; rewrite <- app_assoc; reflexivity|].
      intros p0 _ Hnd Hin0 Hslug0. exfalso.
      rewrite <- Hslug0 in Hf. rewrite (filter_unique Product.slug _ p0 Hnd Hin0) in Hf.
      discriminate Hf.
  - split; [reflexivity|]. split; [reflexivity|].
    split; [discriminate|]. split; [intros _; rewrite <- app_assoc; reflexivity|].
    discriminate.
  - split; [reflexivity|]. split; [reflexivity|].
    split; [discriminate|]. split; discriminate.
Qed.

Lemma fetchProduct_witness :
  completion (ProductPage.fetchProduct "tolak-angin") (Shop.world Shop.budi)
  = Normal (Some (Store.with_category (db (Shop.world Shop.budi)) Shop.tolak_angin)).
Proof.
  apply (proj2 (proj2 (proj2 (proj2 (fetchProduct_finds_the_product_of_the_slug
                                       "tolak-angin" (Shop.world Shop.budi)))))
               Shop.tolak_angin eq_refl).
  - repeat constructor; cbn; intuition discriminate.
  - left. reflexivity.
  - reflexivity.
Defined.

(** ** The lists of categories, products and orders *)

(** X13. fetchCategories of the home page sends one read and changes
    nothing. Once the read is applied, the page gets every category of the
    database, each once, sorted by name in the collation of the database (a
    total one), and so does the administration page from its fetchCategories.
    When the read resolves with an error, the home page keeps the list it
    has and says so, while the administration page shows an empty list. *)
Theorem fetchCategories_lists_every_category_by_name :
  forall w : World,
    let w' := exec Categories.fetchCategories w in
    db w' = db w
    /\ requests w' = (requests w ++ [mkRequest SELECT "categories"])%list
    /\ (fate (net w (List.length (requests w))) = Applied ->
        exists l,
          completion Categories.fetchCategories w = Normal (Some l)
          /\ completion Inventory.fetchCategories w = Normal l
          /\ ui w' = ui w
          /\ Permutation l (categories (db w))
          /\ ((forall a b, collation (db w) a b = true \/ collation (db w) b a = true) ->
              Sorted (by_category_name (db w)) l))
    /\ (forall e,
           fate (net w (List.length (requests w))) = Refused e ->
           completion Categories.fetchCategories w = Normal None
           /\ ui w' = (ui w ++ [ToastError "Gagal memuat kategori"])%list
           /\ completion Inventory.fetchCategories w = Normal []).
Proof.
  intros w w'. subst w'.
  unfold Categories.fetchCategories, Inventory.fetchCategories, exec, completion,
         bind, rpc, emit, ret, Store.categories_select.
  cbv zeta.
  destruct (fate (net w (List.length (requests w)))) eqn:F;
    cbn [fst snd respond error data db requests ui].
  - split; [reflexivity|]. split; [reflexivity|]. split; [|discriminate].
    intros _. eexists. split; [reflexivity|]. split; [reflexivity|].
    split; [reflexivity|]. split.
    + apply order_by_permutation.
    + intros Htotal. apply order_by_sorted. intros a b. apply Htotal.
  - split; [reflexivity|]. split; [reflexivity|]. split; [discriminate|].
    intros e0 _. split; [reflexivity|]. split; reflexivity.
  - split; [reflexivity|]. split; [reflexivity|]. split; discriminate.
Qed.

Lemma fetchCategories_witness :
  exists l,
    completion Categories.fetchCategories (Shop.world Shop.budi) = Normal (Some l)
    /\ completion Inventory.fetchCategories (Shop.world Shop.budi) = Normal l
    /\ ui (exec Categories.fetchCategories (Shop.world Shop.budi))
       = ui (Shop.world Shop.budi)
    /\ Permutation l (categories (db (Shop.world Shop.budi)))
    /\ ((forall a b, collation (db (Shop.world Shop.budi)) a b = true
                     \/ collation (db (Shop.world Shop.budi)) b a = true) ->
        Sorted (by_category_name (db (Shop.world Shop.budi))) l).
Proof.
  apply (proj1 (proj2 (proj2 (fetchCategories_lists_every_category_by_name
                                (Shop.world Shop.budi))))).
  reflexivity.
Defined.

(** X20. fetchProducts of the administration page sends one read and
    changes nothing. Once the read is applied, the list it sets has every
    product of the database, in stock or not, each once and with the name of
    its category, sorted by name; when the read resolves with an error, it
    sets an empty list and shows no message. *)
Theorem admin_fetchProducts_lists_every_product_by_name :
  forall w : World,
    let w' := exec Inventory.fetchProducts w in
    db w' = db w
    /\ requests w' = (requests w ++ [mkRequest SELECT "products"])%list
    /\ (fate (net w (List.length (requests w))) = Applied ->
        exists l,
          ui w' = (ui w ++ [SetProducts l])%list
          /\ Permutation l (map (Store.with_category (db w)) (products (db w)))
          /\ ((forall a b, collation (db w) a b = true \/ collation (db w) b a = true) ->
              Sorted (by_product_name (db w)) l))
    /\ (forall e,
           fate (net w (List.length (requests w))) = Refused e ->
           ui w' = (ui w ++ [SetProducts []])%list).
Proof.
  intros w w'. subst w'.
  unfold Inventory.fetchProducts, exec, bind, rpc, emit, Store.products_select_all.
  cbv zeta.
  destruct (fate (net w (List.length (requests w)))) eqn:F;
    cbn [fst snd respond error data db requests ui].
  - split; [reflexivity|]. split; [reflexivity|]. split; [|discriminate].
    intros _. eexists. split; [reflexivity|]. split.
    + apply order_by_permutation.
    + intros Htotal. apply order_by_sorted. intros a b. apply Htotal.
  - split; [reflexivity|]. split; [reflexivity|]. split; [discriminate|].
    intros e0 _. reflexivity.
  - split; [reflexivity|]. split; [reflexivity|]. split; discriminate.
Qed.

Lemma admin_fetchProducts_witness :
  exists l,
    ui (exec Inventory.fetchProducts (Shop.world Shop.siti))
    = (ui (Shop.world Shop.siti) ++ [SetProducts l])%list
    /\ Permutation l (map (Store.with_category (db (Shop.world Shop.siti)))
                          (products (db (Shop.world Shop.siti))))
    /\ ((forall a b, collation (db (Shop.world Shop.siti)) a b = true
                     \/ collation (db (Shop.world Shop.siti)) b a = true) ->
        Sorted (by_product_name (db (Shop.world Shop.siti))) l).
Proof.
  apply (proj1 (proj2 (proj2 (admin_fetchProducts_lists_every_product_by_name
                                (Shop.world Shop.siti))))).
  reflexivity.
Defined.

(** An order the session may see is shown with all of its items. *)
Lemma with_items_all (timestamptz : Timestamp -> string) (d : DB) (s : Session)
  (o : Order.t) :
  In o (orders d) ->
  uid_is s (Order.user_id o) || is_admin d s = true ->
  Store.with_items timestamptz d s o = with_all_items timestamptz d o.
Proof.
  intros Hin Hvis. unfold Store.with_items, with_all_items. f_equal. f_equal.
  apply filter_ext. intros r.
  destruct (String.eqb_spec (OrderItem.order_id r) (Order.id o)) as [E|E];
    [|apply andb_false_r].
  rewrite andb_true_r. unfold Store.visible_order_item.
  apply orb_true_iff in Hvis. destruct Hvis as [Hown|Hadmin].
  - apply orb_true_iff. left. unfold owns_order. apply existsb_exists.
    exists o. split; [exact Hin|]. rewrite E, String.eqb_refl, Hown. reflexivity.
  - rewrite Hadmin. apply orb_true_r.
Qed.

(** X14. The orders that fetchOrders of the orders page hands over are
    orders of the database placed by the user the page was given, the newest
    first, each with all the rows of [order_items] that refer to it; the
    handler sends one read and ends the loading state. Signed in as that
    user, with the read applied, the page gets every order of the user. *)
Theorem fetchOrders_shows_the_users_orders_with_their_items :
  forall (timestamptz : Timestamp -> string) (user : option User.t) (w : World),
    let w' := exec (History.fetchOrders timestamptz user) w in
    db w' = db w
    /\ (forall l,
           completion (History.fetchOrders timestamptz user) w = Normal (Some l) ->
           exists (u : User.t) (rows : list Order.t),
             user = Some u
             /\ l = map (with_all_items timestamptz (db w)) rows
             /\ Sorted newest_first rows
             /\ (forall o, In o rows ->
                           In o (orders (db w)) /\ Order.user_id o = User.id u)
             /\ requests w' = (requests w ++ [mkRequest SELECT "orders"])%list
             /\ ui w' = (ui w ++ [SetLoading false])%list)
    /\ (forall u o,
           user = Some u ->
           session w = Some (User.id u) ->
           fate (net w (List.length (requests w))) = Applied ->
           In o (orders (db w)) ->
           Order.user_id o = User.id u ->
           exists l,
             completion (History.fetchOrders timestamptz user) w = Normal (Some l)
             /\ In (with_all_items timestamptz (db w) o) l).
Proof.
  intros tz user w w'. subst w'. unfold History.fetchOrders.
  destruct user as [u|].
  2:{ split; [reflexivity|]. split; [discriminate|]. discriminate. }
  unfold exec, completion, bind, rpc, emit, ret, Store.orders_select_of.
  cbv zeta.
  destruct (fate (net w (List.length (requests w)))) eqn:F;
    cbn [fst snd respond error data db requests ui].
  - set (mine := filter (fun o => (uid_is (session w) (Order.user_id o)
                                   || is_admin (db w) (session w))
                                  && String.eqb (Order.user_id o) (User.id u))
                        (orders (db w))).
    set (rows := order_by (fun a b => Order.created_at b <=? Order.created_at a) mine).
    assert (Hrows : forall o, In o rows <-> In o mine).
    { intros o. split; apply Permutation_in;
        [|apply Permutation_sym]; apply order_by_permutation. }
    assert (Hmap : map (Store.with_items tz (db w) (session w)) rows
                   = map (with_all_items tz (db w)) rows).
    { apply map_ext_in. intros o Ho. apply Hrows in Ho. apply filter_In in Ho.
      destruct Ho as [Hin Hvis]. apply andb_true_iff in Hvis.
      apply with_items_all; tauto. }
    split; [reflexivity|]. split.
    + intros l Hl. injection Hl as <-. exists u, rows.
      split; [reflexivity|]. split; [exact Hmap|]. split.
      { apply order_by_sorted. intros a b.
        destruct (Z.leb_spec (Order.created_at b) (Order.created_at a));
          [left; reflexivity|right; apply Z.leb_le; lia]. }
      split; [|split; reflexivity].
      intros o Ho. apply Hrows in Ho. apply filter_In in Ho.
      destruct Ho as [Hin Hvis]. apply andb_true_iff in Hvis.
      split; [exact Hin|]. apply String.eqb_eq. tauto.
    + intros u0 o Hu Hs _ Hin Huser. injection Hu as <-.
      eexists. split; [reflexivity|]. rewrite Hmap. apply in_map.
      apply Hrows. apply filter_In. split; [exact Hin|].
      rewrite Hs, Huser. cbn [uid_is]. rewrite String.eqb_refl. reflexivity.
  - split; [reflexivity|]. split; [discriminate|]. discriminate.
  - split; [reflexivity|]. split; [discriminate|]. discriminate.
Qed.

Lemma fetchOrders_witness :
  exists l,
    completion (History.fetchOrders Text.of_Z (Some Shop.budi))
               (shop_with_order Shop.budi) = Normal (Some l)
    /\ In (with_all_items Text.of_Z (db (shop_with_order Shop.budi)) first_order) l.
Proof.
  apply (proj2 (proj2 (fetchOrders_shows_the_users_orders_with_their_items
                         Text.of_Z (Some Shop.budi) (shop_with_order Shop.budi)))
               Shop.budi first_order eq_refl eq_refl eq_refl).
  - left. reflexivity.
  - reflexivity.
Defined.

(** ** The slug of a product *)

Lemma toLowerCase_again (c : ascii) :
  Inventory.toLowerCase (Inventory.toLowerCase c) = Inventory.toLowerCase c.
Proof. destruct c as [[] [] [] [] [] [] [] []]; reflexivity. Qed.

Lemma toLowerCase_white_space (c : ascii) :
  Text.is_white_space (Inventory.toLowerCase c) = Text.is_white_space c.
Proof. destruct c as [[] [] [] [] [] [] [] []]; reflexivity. Qed.

Lemma dashes_no_white_space (s : list ascii) :
  forall in_run : bool,
    Forall (fun c => Text.is_white_space c = false) (Inventory.dashes in_run s).
Proof.
  induction s as [|c s IH]; intros in_run; cbn [Inventory.dashes]; [constructor|].
  destruct (Text.is_white_space c) eqn:Hc.
  - destruct in_run; [apply IH|]. constructor; [reflexivity|apply IH].
  - constructor; [exact Hc|apply IH].
Qed.

Lemma dashes_lower_case (s : list ascii) :
  forall in_run : bool,
    Forall (fun c => Inventory.toLowerCase c = c) s ->
    Forall (fun c => Inventory.toLowerCase c = c) (Inventory.dashes in_run s).
Proof.
  induction s as [|c s IH]; intros in_run H; cbn [Inventory.dashes]; [constructor|].
  inversion H as [|c' s' Hc Hs]. subst.
  destruct (Text.is_white_space c).
  - destruct in_run; [apply IH; exact Hs|].
    constructor; [reflexivity|apply IH; exact Hs].
  - constructor; [exact Hc|apply IH; exact Hs].
Qed.

Lemma dashes_nothing_to_do (s : list ascii) :
  forall in_run : bool,
    Forall (fun c => Text.is_white_space c = false) s ->
    Inventory.dashes in_run s = s.
Proof.
  induction s as [|c s IH]; intros in_run H; cbn [Inventory.dashes]; [reflexivity|].
  inversion H as [|c' s' Hc Hs]. subst. rewrite Hc. f_equal. apply IH. exact Hs.
Qed.

Lemma map_toLowerCase_lower_case (s : list ascii) :
  Forall (fun c => Inventory.toLowerCase c = c) (map Inventory.toLowerCase s).
Proof.
  induction s as [|c s IH]; cbn [map]; constructor;
    [apply toLowerCase_again|exact IH].
Qed.

Lemma map_same_on {A : Type} (f : A -> A) (l : list A) :
  Forall (fun a => f a = a) l -> map f l = l.
Proof.
  induction 1 as [|a l Ha Hl IH]; [reflexivity|].
  cbn [map]. rewrite Ha, IH. reflexivity.
Qed.

(** X15. The slug that the product form derives from a name has no white
    space and no capital letter in it, and deriving a slug from it again
    gives the same slug. *)
Theorem slug_of_name_is_lower_case_without_white_space :
  forall name : string,
    let slug := list_ascii_of_string (Inventory.slug_of_name name) in
    Forall (fun c => Text.is_white_space c = false) slug
    /\ Forall (fun c => Inventory.toLowerCase c = c) slug
    /\ Inventory.slug_of_name (Inventory.slug_of_name name)
       = Inventory.slug_of_name name.
Proof.
  intros name slug. subst slug. unfold Inventory.slug_of_name.
  rewrite !list_ascii_of_string_of_list_ascii.
  set (l := map Inventory.toLowerCase (list_ascii_of_string name)).
  assert (Hw : Forall (fun c => Text.is_white_space c = false)
                      (Inventory.dashes false l)) by apply dashes_no_white_space.
  assert (Hl : Forall (fun c => Inventory.toLowerCase c = c)
                      (Inventory.dashes false l)).
  { apply dashes_lower_case. apply map_toLowerCase_lower_case. }
  split; [exact Hw|]. split; [exact Hl|].
  f_equal. rewrite (map_same_on _ _ Hl). apply dashes_nothing_to_do. exact Hw.
Qed.

(** ** The products of the administration page *)

Lemma detached_run (c : M unit) (w : World) :
  detached c w = (Normal tt, snd (c w)).
Proof.
  unfold detached, try_catch, ret. destruct (c w) as [[[]|e] w1]; reflexivity.
Qed.

Lemma fetchProducts_run (w : World) :
  db (snd (Inventory.fetchProducts w)) = db w
  /\ session (snd (Inventory.fetchProducts w)) = session w
  /\ net (snd (Inventory.fetchProducts w)) = net w
  /\ clock (snd (Inventory.fetchProducts w)) = clock w
  /\ requests (snd (Inventory.fetchProducts w))
     = (requests w ++ [mkRequest SELECT "products"])%list
  /\ exists shown, ui (snd (Inventory.fetchProducts w)) = (ui w ++ shown)%list.
Proof.
  unfold Inventory.fetchProducts, bind, rpc, emit. cbv zeta.
  destruct (fate (net w (List.length (requests w))));
    cbn [fst snd db session net clock requests ui]; repeat split;
    try (eexists; reflexivity).
  exists []. rewrite app_nil_r. reflexivity.
Qed.

(** What submitting the form for a new product comes to, by the answer of
    the backend. *)
Lemma submit_new_product (parseFloat parseInt : string -> option Z)
  (current_date : Timestamp -> string) (page : Inventory.Page) (w : World) :
  Inventory.editing page = None ->
  fate (net w (List.length (requests w))) = Applied ->
  let answer :=
    Store.products_insert current_date
      (Inventory.productData parseFloat parseInt (Inventory.productForm page))
      (session w) (net w (List.length (requests w))) (db w) in
  let sent := (requests w ++ [mkRequest INSERT "products"])%list in
  Inventory.handleProductSubmit parseFloat parseInt current_date page w
  = match fst answer with
    | inl _ =>
        (Normal (Inventory.mkPage (Inventory.editingProduct page) Inventory.Form.empty),
         exec Inventory.fetchProducts
              (mkWorld (snd answer) (session w) (net w) (clock w) sent
                       (ui w ++ [ToastSuccess "Produk berhasil ditambahkan"])))
    | inr _ =>
        (Normal page,
         mkWorld (snd answer) (session w) (net w) (clock w) sent
                 (ui w ++ [ToastError "Gagal menambah produk"]))
    end.
Proof.
  intros He F answer sent. subst answer sent.
  unfold Inventory.handleProductSubmit. rewrite He.
  unfold exec, bind, rpc. cbv zeta. rewrite F.
  destruct (Store.products_insert _ _ _ _ _) as [[[]|e] d1];
    cbn [fst snd respond error]; unfold emit, ret; [|reflexivity].
  rewrite detached_run. reflexivity.
Qed.

(** What submitting the form for the product [i] under edit comes to. *)
Lemma submit_edited_product (parseFloat parseInt : string -> option Z)
  (current_date : Timestamp -> string) (page : Inventory.Page) (i : Id) (w : World) :
  Inventory.editing page = Some i ->
  fate (net w (List.length (requests w))) = Applied ->
  let answer :=
    Store.products_update_row i
      (Inventory.productData parseFloat parseInt (Inventory.productForm page))
      (session w) (net w (List.length (requests w))) (db w) in
  let sent := (requests w ++ [mkRequest UPDATE "products"])%list in
  Inventory.handleProductSubmit parseFloat parseInt current_date page w
  = match fst answer with
    | inl _ =>
        (Normal (Inventory.mkPage None Inventory.Form.empty),
         exec Inventory.fetchProducts
              (mkWorld (snd answer) (session w) (net w) (clock w) sent
                       (ui w ++ [ToastSuccess "Produk berhasil diupdate"])))
    | inr _ =>
        (Normal page,
         mkWorld (snd answer) (session w) (net w) (clock w) sent
                 (ui w ++ [ToastError "Gagal update produk"]))
    end.
Proof.
  intros He F answer sent. subst answer sent.
  unfold Inventory.handleProductSubmit. rewrite He.
  unfold exec, bind, rpc. cbv zeta. rewrite F.
  destruct (Store.products_update_row _ _ _ _ _) as [[[]|e] d1];
    cbn [fst snd respond error]; unfold emit, ret; [|reflexivity].
  rewrite detached_run. reflexivity.
Qed.

(** What a confirmed deletion comes to once its request is applied. *)
Lemma delete_product_run (id : Id) (w : World) :
  fate (net w (List.length (requests w))) = Applied ->
  exec (Inventory.handleDeleteProduct true id) w
  = exec Inventory.fetchProducts
         (mkWorld (snd (Store.products_delete id (session w)
                                              (net w (List.length (requests w)))
                                              (db w)))
                  (session w) (net w) (clock w)
                  (requests w ++ [mkRequest DELETE "products"])
                  (ui w ++ [ToastSuccess "Produk berhasil dihapus"])).
Proof.
  intros F. unfold Inventory.handleDeleteProduct. cbn [negb].
  unfold exec, bind, rpc, emit. cbv zeta. rewrite F.
  cbn [fst snd respond error Store.products_delete].
  rewrite detached_run. reflexivity.
Qed.

Lemma taken_in (i : Id) (keys : list Id) : In i keys -> Backend.taken i keys = true.
Proof.
  intros H. apply existsb_exists. exists i. split; [exact H|apply String.eqb_refl].
Qed.

(** X17. A deletion that the administrator declines in the dialog does
    nothing at all. One that is confirmed and applied, by an administrator
    and for a product that exists, removes that product and no other; the
    cart items of the product go with it and no other cart item does; the
    order items stay, with the name, price, quantity and subtotal they had,
    none of them referring to the product any more; orders and carts are as
    before. *)
Theorem handleDeleteProduct_takes_the_cart_items_along :
  forall (id : Id) (w : World),
    Inventory.handleDeleteProduct false id w = (Normal tt, w)
    /\ (is_admin (db w) (session w) = true ->
        fate (net w (List.length (requests w))) = Applied ->
        In id (map Product.id (products (db w))) ->
        let w' := exec (Inventory.handleDeleteProduct true id) w in
        (forall p, In p (products (db w')) <->
                   In p (products (db w)) /\ Product.id p <> id)
        /\ (forall r, In r (cart_items (db w')) <->
                      In r (cart_items (db w)) /\ CartItemRow.product_id r <> id)
        /\ map Store.as_item (order_items (db w'))
           = map Store.as_item (order_items (db w))
        /\ (forall r, In r (order_items (db w')) -> OrderItem.product_id r <> Some id)
        /\ orders (db w') = orders (db w)
        /\ carts (db w') = carts (db w)).
Proof.
  intros id w. split; [reflexivity|].
  intros Hadmin F Hin w'. subst w'.
  rewrite (delete_product_run id w F).
  match goal with
  | |- context [exec Inventory.fetchProducts ?w1] =>
      destruct (fetchProducts_run w1) as [Hd _]; unfold exec; rewrite Hd; clear Hd
  end.
  cbn [db]. unfold Store.products_delete. cbv zeta.
  rewrite Hadmin, (taken_in _ _ Hin).
  cbn [snd andb products cart_items order_items orders carts].
  split; [|split; [|split; [|split; [|split; reflexivity]]]].
  - intros p. rewrite filter_In.
    destruct (String.eqb_spec (Product.id p) id) as [E|E]; cbn [negb];
      intuition congruence.
  - intros r. rewrite filter_In.
    destruct (String.eqb_spec (CartItemRow.product_id r) id) as [E|E]; cbn [negb];
      intuition congruence.
  - rewrite map_map. apply map_ext. intros r.
    destruct (Store.refers_to id (OrderItem.product_id r)); reflexivity.
  - intros r Hr. apply in_map_iff in Hr. destruct Hr as [r0 [Hr0 _]].
    destruct (Store.refers_to id (OrderItem.product_id r0)) eqn:Href.
    + subst r. cbn. discriminate.
    + subst r. unfold Store.refers_to in Href.
      destruct (OrderItem.product_id r0) as [j|]; [|discriminate].
      apply String.eqb_neq in Href. congruence.
Qed.

Lemma handleDeleteProduct_witness :
  cart_items (db (exec (Inventory.handleDeleteProduct true "p-tolak-angin")
                       (Shop.world Shop.siti)))
  = cart_items (db (Shop.world Shop.siti))
  /\ map Store.as_item
         (order_items (db (exec (Inventory.handleDeleteProduct true "p-paracetamol")
                                (Shop.world Shop.siti))))
     = map Store.as_item (order_items (db (Shop.world Shop.siti))).
Proof.
  split; [reflexivity|].
  apply (proj1 (proj2 (proj2 (proj2 (handleDeleteProduct_takes_the_cart_items_along
                                       "p-paracetamol" (Shop.world Shop.siti))
                                    eq_refl eq_refl ltac:(cbn; tauto))))).
Defined.

Lemma NoDup_nth_error_key {A : Type} (key : A -> string) (l : list A) :
  NoDup (map key l) ->
  forall (j k : nat) (a b : A),
    nth_error l j = Some a -> nth_error l k = Some b -> key a = key b -> j = k.
Proof.
  intros Hnd j k a b Hj Hk Hkey.
  assert (Hlen : (j < List.length (map key l))%nat).
  { rewrite length_map. apply nth_error_Some. congruence. }
  apply (proj1 (NoDup_nth_error (map key l)) Hnd j k Hlen).
  rewrite !nth_error_map, Hj, Hk. cbn. congruence.
Qed.

(** X16. handleEditProduct fills the form with the name, the price and the
    stock of the product and leaves the other fields empty. Submitting the
    form as it is, by an administrator and with the update applied, keeps
    name, price and stock as the form has them, and resets what the form
    does not show: the description and the dosage become empty, the category
    is unset, and the slug becomes the one derived from the name; every other
    product is as it was. *)
Theorem editing_a_product_resets_what_the_form_does_not_show :
  forall (parseFloat parseInt : string -> option Z) (Number_toString : Z -> string)
         (current_date : Timestamp -> string) (product : Listed.t) (w : World)
         (k : nat) (row : Product.t) (price stock : Z),
    let listed := Listed.product product in
    let h := Inventory.handleProductSubmit
               parseFloat parseInt current_date
               (Inventory.handleEditProduct Number_toString product) in
    is_admin (db w) (session w) = true ->
    fate (net w (List.length (requests w))) = Applied ->
    Text.truthy (Product.id listed) = true ->
    NoDup (map Product.id (products (db w))) ->
    nth_error (products (db w)) k = Some row ->
    Product.id row = Product.id listed ->
    parseFloat (Number_toString (Product.price listed)) = Some price ->
    parseInt (Text.of_Z (Product.stock listed)) = Some stock ->
    (forall p, In p (products (db w)) ->
               Product.id p <> Product.id listed ->
               Product.slug p <> Inventory.slug_of_name (Product.name listed)) ->
    nth_error (products (db (exec h w))) k
    = Some (Product.mk (Product.id row) (Product.name listed)
                       (Inventory.slug_of_name (Product.name listed))
                       (Some EmptyString) price stock None
                       (Product.image_url row) (Some EmptyString)
                       (Product.is_popular row) (Product.created_at row)
                       (now (net w (List.length (requests w))))
                       (Product.barcode row) (Product.expiry_date row)
                       (Product.stock_entry_date row))
    /\ (forall j, j <> k ->
                  nth_error (products (db (exec h w))) j
                  = nth_error (products (db w)) j)
    /\ completion h w = Normal (Inventory.mkPage None Inventory.Form.empty).
Proof.
  intros pf pi ns cd product w k row price stock listed h
         Hadmin F Hid Hnd Hk Hrow Hprice Hstock Hslug.
  subst h. unfold exec, completion.
  rewrite (submit_edited_product pf pi cd _ (Product.id listed) w);
    [|unfold Inventory.editing; cbn [Inventory.handleEditProduct Inventory.editingProduct];
      fold listed; rewrite Hid; reflexivity|exact F].
  cbv zeta.
  assert (Hdata : Inventory.productData pf pi
                    (Inventory.productForm (Inventory.handleEditProduct ns product))
                  = ProductData.mk (Product.name listed)
                                   (Inventory.slug_of_name (Product.name listed))
                                   EmptyString (Some price) (Some stock) None
                                   EmptyString).
  { unfold Inventory.productData, Inventory.handleEditProduct.
    cbn [Inventory.productForm Inventory.Form.name Inventory.Form.slug
         Inventory.Form.description Inventory.Form.price Inventory.Form.stock
         Inventory.Form.category_id Inventory.Form.dosage Text.or_else Text.truthy].
    fold listed. rewrite Hprice, Hstock. reflexivity. }
  rewrite Hdata. clear Hdata.
  assert (Hin : In row (products (db w))) by (eapply nth_error_In; exact Hk).
  unfold Store.products_update_row. cbv zeta. rewrite Hadmin. cbn [andb].
  rewrite <- Hrow.
  rewrite (filter_unique Product.id _ row Hnd Hin).
  cbn [ProductData.price ProductData.stock ProductData.slug ProductData.category_id
       Store.category_known negb].
  destruct (existsb _ (products (db w))) eqn:Hex.
  { exfalso. apply existsb_exists in Hex. destruct Hex as [p [Hp Hc]].
    apply andb_true_iff in Hc. destruct Hc as [Hne Heq].
    apply negb_true_iff, String.eqb_neq in Hne. apply String.eqb_eq in Heq.
    apply (Hslug p Hp); congruence. }
  cbn [fst snd].
  match goal with
  | |- context [exec Inventory.fetchProducts ?w1] =>
      destruct (fetchProducts_run w1) as [Hd _]; unfold exec; rewrite Hd; clear Hd
  end.
  cbn [db products with_products].
  split; [|split; [|reflexivity]].
  - rewrite nth_error_map, Hk. cbn [option_map]. rewrite String.eqb_refl.
    reflexivity.
  - intros j Hj. rewrite nth_error_map.
    destruct (nth_error (products (db w)) j) as [p|] eqn:Hp; [|reflexivity].
    cbn [option_map].
    destruct (String.eqb_spec (Product.id p) (Product.id row)) as [E|E];
      [|reflexivity].
    exfalso. apply Hj.
    exact (NoDup_nth_error_key Product.id _ Hnd j k p row Hp Hk E).
Qed.

Lemma editing_witness :
  nth_error
    (products
       (db (exec (Inventory.handleProductSubmit
                    (fun _ => Some 800000) (fun _ => Some 120) (fun _ => "2025-11-06")
                    (Inventory.handleEditProduct
                       (fun _ => "8000")
                       (Listed.mk Shop.paracetamol (Some "Obat Demam"))))
                 (Shop.world Shop.siti)))) 1
  = Some (Product.mk "p-paracetamol" "Paracetamol 500mg" "paracetamol-500mg"
                     (Some EmptyString) 800000 120 None None (Some EmptyString)
                     (Some false) 0 1000 None None (Some "2025-11-06")).
Proof.
  apply (proj1 (editing_a_product_resets_what_the_form_does_not_show
                  (fun _ => Some 800000) (fun _ => Some 120) (fun _ => "8000")
                  (fun _ => "2025-11-06")
                  (Listed.mk Shop.paracetamol (Some "Obat Demam"))
                  (Shop.world Shop.siti) 1 Shop.paracetamol 800000 120
                  eq_refl eq_refl eq_refl
                  ltac:(repeat constructor; cbn; intuition discriminate)
                  eq_refl eq_refl eq_refl eq_refl
                  ltac:(intros p [<-|[<-|[]]] Hne;
                        [vm_compute; discriminate|exfalso; apply Hne; reflexivity]))).
Defined.

Lemma existsb_none {A : Type} (f : A -> bool) (l : list A) :
  (forall a, In a l -> f a = false) -> existsb f l = false.
Proof.
  intros H. destruct (existsb f l) eqn:E; [|reflexivity].
  apply existsb_exists in E. destruct E as [a [Ha Hf]].
  rewrite (H a Ha) in Hf. discriminate Hf.
Qed.

Lemma not_taken (i : Id) (keys : list Id) : ~ In i keys -> Backend.taken i keys = false.
Proof.
  intros H. apply existsb_none. intros k Hk. apply String.eqb_neq.
  intros E. apply H. rewrite E. exact Hk.
Qed.

(** The insert of a product by an administrator, with numbers for price and
    stock, a key and a slug that are free and a category that exists, adds
    the product at the end. *)
Lemma products_insert_done (current_date : Timestamp -> string)
  (n : ProductData.t) (s : Session) (x : Exchange) (d : DB) (price stock : Z) :
  is_admin d s = true ->
  ProductData.price n = Some price ->
  ProductData.stock n = Some stock ->
  ~ In (gen_random_uuid x 0%nat) (map Product.id (products d)) ->
  ~ In (ProductData.slug n) (map Product.slug (products d)) ->
  Store.category_known d (ProductData.category_id n) = true ->
  Store.products_insert current_date n s x d
  = (inl tt,
     with_products d (products d ++ [Store.new_product current_date x n price stock])).
Proof.
  intros Hadmin Hprice Hstock Hkey Hslug Hcat. unfold Store.products_insert.
  rewrite Hadmin, Hprice, Hstock, (not_taken _ _ Hkey), Hcat. cbn [negb orb].
  rewrite existsb_none; [reflexivity|].
  intros p Hp. apply String.eqb_neq. intros E. apply Hslug. rewrite <- E.
  apply in_map. exact Hp.
Qed.

(** X18. Submitting the form while no product is under edit, by an
    administrator and with the insert applied, adds one product at the end of
    [products] when the price and the stock are numbers, the slug is not the
    slug of a product yet and the category, if one is chosen, exists: the
    product has the name, description and dosage of the form, the slug of the
    form or, when that is empty, the slug derived from the name, no image, is
    not popular, and is stamped with the time of the insert. The page says so
    and empties the form. *)
Theorem handleProductSubmit_adds_the_product_of_the_form :
  forall (parseFloat parseInt : string -> option Z)
         (current_date : Timestamp -> string) (page : Inventory.Page) (w : World)
         (price stock : Z),
    let form := Inventory.productForm page in
    let x := net w (List.length (requests w)) in
    let h := Inventory.handleProductSubmit parseFloat parseInt current_date page in
    let slug := Text.or_else (Inventory.Form.slug form)
                             (Inventory.slug_of_name (Inventory.Form.name form)) in
    let category := if Text.truthy (Inventory.Form.category_id form)
                    then Some (Inventory.Form.category_id form) else None in
    Inventory.editing page = None ->
    is_admin (db w) (session w) = true ->
    fate x = Applied ->
    parseFloat (Inventory.Form.price form) = Some price ->
    parseInt (Inventory.Form.stock form) = Some stock ->
    ~ In slug (map Product.slug (products (db w))) ->
    ~ In (gen_random_uuid x 0%nat) (map Product.id (products (db w))) ->
    Store.category_known (db w) category = true ->
    products (db (exec h w))
    = (products (db w)
       ++ [Product.mk (gen_random_uuid x 0%nat) (Inventory.Form.name form) slug
                      (Some (Inventory.Form.description form)) price stock category
                      None (Some (Inventory.Form.dosage form)) (Some false)
                      (now x) (now x) None None (Some (current_date (now x)))])%list
    /\ completion h w
       = Normal (Inventory.mkPage (Inventory.editingProduct page) Inventory.Form.empty)
    /\ exists shown,
         ui (exec h w)
         = (ui w ++ ToastSuccess "Produk berhasil ditambahkan" :: shown)%list.
Proof.
  intros pf pi cd page w price stock form x h slug category
         He Hadmin F Hprice Hstock Hslug Hkey Hcat.
  subst h slug category form x. unfold exec, completion.
  rewrite (submit_new_product pf pi cd page w He F). cbv zeta.
  rewrite (products_insert_done
             cd (Inventory.productData pf pi (Inventory.productForm page))
             (session w) (net w (List.length (requests w))) (db w) price stock
             Hadmin Hprice Hstock Hkey Hslug Hcat).
  cbn [fst snd].
  match goal with
  | |- context [exec Inventory.fetchProducts ?w1] =>
      destruct (fetchProducts_run w1) as [Hd [_ [_ [_ [_ [shown Hu]]]]]];
      unfold exec; rewrite Hd, Hu; clear Hd Hu
  end.
  cbn [db ui products with_products].
  split; [reflexivity|]. split; [reflexivity|].
  exists shown. rewrite <- app_assoc. reflexivity.
Qed.

Lemma handleProductSubmit_witness :
  products
    (db (exec (Inventory.handleProductSubmit
                 (fun _ => Some 750000) (fun _ => Some 40) (fun _ => "2025-11-06")
                 (Inventory.mkPage None jamu))
              (Shop.world Shop.siti)))
  = [ Shop.tolak_angin; Shop.paracetamol;
      Product.mk "row-0-0" "Jamu Kunyit  Asam" "jamu-kunyit-asam" (Some "Jamu segar")
                 750000 40 (Some "c-herbal") None (Some "1x sehari") (Some false)
                 1000 1000 None None (Some "2025-11-06") ].
Proof.
  apply (proj1 (handleProductSubmit_adds_the_product_of_the_form
                  (fun _ => Some 750000) (fun _ => Some 40) (fun _ => "2025-11-06")
                  (Inventory.mkPage None jamu) (Shop.world Shop.siti) 750000 40
                  eq_refl eq_refl eq_refl eq_refl eq_refl
                  ltac:(vm_compute; intuition discriminate)
                  ltac:(vm_compute; intuition discriminate)
                  eq_refl)).
Defined.

(** X19. A submission of the form for a new product whose insert is applied
    adds nothing when the slug of the form (or, that being empty, the one
    derived from the name) is the slug of a product already, or when the
    price or the stock is not a number: the database is as it was, the page
    says "Gagal menambah produk" and keeps the form as it is filled in. *)
Theorem handleProductSubmit_adds_nothing_for_a_taken_slug :
  forall (parseFloat parseInt : string -> option Z)
         (current_date : Timestamp -> string) (page : Inventory.Page) (w : World),
    let form := Inventory.productForm page in
    let h := Inventory.handleProductSubmit parseFloat parseInt current_date page in
    let slug := Text.or_else (Inventory.Form.slug form)
                             (Inventory.slug_of_name (Inventory.Form.name form)) in
    Inventory.editing page = None ->
    fate (net w (List.length (requests w))) = Applied ->
    In slug (map Product.slug (products (db w)))
    \/ parseFloat (Inventory.Form.price form) = None
    \/ parseInt (Inventory.Form.stock form) = None ->
    db (exec h w) = db w
    /\ completion h w = Normal page
    /\ ui (exec h w) = (ui w ++ [ToastError "Gagal menambah produk"])%list.
Proof.
  intros pf pi cd page w form h slug He F Hbad.
  subst h slug form. unfold exec, completion.
  rewrite (submit_new_product pf pi cd page w He F). cbv zeta.
  assert (Hans : exists e,
             Store.products_insert
               cd (Inventory.productData pf pi (Inventory.productForm page))
               (session w) (net w (List.length (requests w))) (db w)
             = (inr e, db w)).
  { unfold Store.products_insert.
    destruct (negb _); [eexists; reflexivity|].
    cbn [Inventory.productData ProductData.price ProductData.stock ProductData.slug].
    destruct (pf _) as [price|]; [|eexists; reflexivity].
    destruct (pi _) as [stock|]; [|eexists; reflexivity].
    destruct Hbad as [Hslug|[Hp|Hs]]; [|discriminate Hp|discriminate Hs].
    assert (Hex : existsb
                    (fun p =>
                       String.eqb (Product.slug p)
                         (Text.or_else
                            (Inventory.Form.slug (Inventory.productForm page))
                            (Inventory.slug_of_name
                               (Inventory.Form.name (Inventory.productForm page)))))
                    (products (db w)) = true).
    { apply in_map_iff in Hslug. destruct Hslug as [p [Hp Hin]].
      apply existsb_exists. exists p. split; [exact Hin|].
      rewrite Hp. apply String.eqb_refl. }
    rewrite Hex, orb_true_r. eexists; reflexivity. }
  destruct Hans as [e Hans]. rewrite Hans. cbn [fst snd db ui].
  split; [reflexivity|]. split; reflexivity.
Qed.

Lemma taken_slug_witness :
  db (exec (Inventory.handleProductSubmit
              (fun _ => Some 500000) (fun _ => Some 10) (fun _ => "2025-11-06")
              (Inventory.mkPage None
                 (Inventory.Form.mk "TOLAK   ANGIN" EmptyString EmptyString "5000" "10"
                                    EmptyString EmptyString)))
           (Shop.world Shop.siti))
  = db (Shop.world Shop.siti).
Proof.
  apply (proj1 (handleProductSubmit_adds_nothing_for_a_taken_slug
                  (fun _ => Some 500000) (fun _ => Some 10) (fun _ => "2025-11-06")
                  (Inventory.mkPage None
                     (Inventory.Form.mk "TOLAK   ANGIN" EmptyString EmptyString
                                        "5000" "10" EmptyString EmptyString))
                  (Shop.world Shop.siti) eq_refl eq_refl
                  ltac:(left; vm_compute; tauto))).
Defined.

Lemma category_name_products (d : DB) (l : list Product.t) (c : option Id) :
  Backend.category_name (with_products d l) c = Backend.category_name d c.
Proof. reflexivity. Qed.

(** X21. A product that the form has just added is found by the product
    page under its slug: after a submission by an administrator that adds a
    product, with the next read applied, fetchProduct for the slug of the
    form hands the page the new product with the name of its category. *)
Theorem an_added_product_is_found_by_its_slug :
  forall (parseFloat parseInt : string -> option Z)
         (current_date : Timestamp -> string) (page : Inventory.Page) (w : World)
         (price stock : Z),
    let form := Inventory.productForm page in
    let x := net w (List.length (requests w)) in
    let h := Inventory.handleProductSubmit parseFloat parseInt current_date page in
    let slug := Text.or_else (Inventory.Form.slug form)
                             (Inventory.slug_of_name (Inventory.Form.name form)) in
    let category := if Text.truthy (Inventory.Form.category_id form)
                    then Some (Inventory.Form.category_id form) else None in
    Inventory.editing page = None ->
    is_admin (db w) (session w) = true ->
    fate x = Applied ->
    fate (net w (S (S (List.length (requests w))))) = Applied ->
    parseFloat (Inventory.Form.price form) = Some price ->
    parseInt (Inventory.Form.stock form) = Some stock ->
    ~ In slug (map Product.slug (products (db w))) ->
    ~ In (gen_random_uuid x 0%nat) (map Product.id (products (db w))) ->
    Store.category_known (db w) category = true ->
    completion (ProductPage.fetchProduct slug) (exec h w)
    = Normal (Some (Listed.mk
                      (Product.mk (gen_random_uuid x 0%nat) (Inventory.Form.name form)
                                  slug (Some (Inventory.Form.description form))
                                  price stock category None
                                  (Some (Inventory.Form.dosage form)) (Some false)
                                  (now x) (now x) None None
                                  (Some (current_date (now x))))
                      (Backend.category_name (db w) category))).
Proof.
  intros pf pi cd page w price stock form x h slug category
         He Hadmin F F2 Hprice Hstock Hslug Hkey Hcat.
  subst h slug category form x. unfold exec.
  rewrite (submit_new_product pf pi cd page w He F). cbv zeta.
  rewrite (products_insert_done
             cd (Inventory.productData pf pi (Inventory.productForm page))
             (session w) (net w (List.length (requests w))) (db w) price stock
             Hadmin Hprice Hstock Hkey Hslug Hcat).
  cbn [fst snd].
  match goal with
  | |- context [exec Inventory.fetchProducts ?w1] =>
      destruct (fetchProducts_run w1) as [Hd [_ [Hn [_ [Hr _]]]]];
      unfold exec; set (w2 := snd (Inventory.fetchProducts w1)) in *
  end.
  cbn [db net requests] in Hd, Hn, Hr.
  unfold completion, ProductPage.fetchProduct, bind, rpc. cbv zeta.
  rewrite Hr, Hn, Hd, <- app_assoc, length_app. cbn [List.length app].
  replace (List.length (requests w) + 2)%nat
    with (S (S (List.length (requests w)))) by lia.
  rewrite F2. unfold Store.products_select_by_slug.
  cbn [fst snd products with_products].
  rewrite filter_app.
  rewrite (filter_absent Product.slug (products (db w)) _ Hslug).
  cbn [filter app Store.new_product Product.slug ProductData.slug
       Inventory.productData].
  rewrite String.eqb_refl. cbn [map single respond error data].
  unfold ret. cbn [fst]. reflexivity.
Qed.

Lemma added_product_witness :
  completion (ProductPage.fetchProduct "jamu-kunyit-asam")
             (exec (Inventory.handleProductSubmit
                      (fun _ => Some 750000) (fun _ => Some 40) (fun _ => "2025-11-06")
                      (Inventory.mkPage None jamu))
                   (Shop.world Shop.siti))
  = Normal (Some (Listed.mk
                    (Product.mk "row-0-0" "Jamu Kunyit  Asam" "jamu-kunyit-asam"
                                (Some "Jamu segar") 750000 40 (Some "c-herbal") None
                                (Some "1x sehari") (Some false) 1000 1000 None None
                                (Some "2025-11-06"))
                    (Some "Obat Herbal"))).
Proof.
  apply (an_added_product_is_found_by_its_slug
           (fun _ => Some 750000) (fun _ => Some 40) (fun _ => "2025-11-06")
           (Inventory.mkPage None jamu) (Shop.world Shop.siti) 750000 40
           eq_refl eq_refl eq_refl eq_refl eq_refl eq_refl
           ltac:(vm_compute; intuition discriminate)
           ltac:(vm_compute; intuition discriminate)
           eq_refl).
Defined.

(** X22. A product that an administrator has deleted is not found by the
    product page any more: with slugs unique, after a confirmed and applied
    deletion of a product, fetchProduct for its slug hands the page no
    product, shows "Produk tidak ditemukan" and goes to the home page. *)
Theorem a_deleted_product_is_not_found_any_more :
  forall (p : Product.t) (w : World),
    let w' := exec (Inventory.handleDeleteProduct true (Product.id p)) w in
    is_admin (db w) (session w) = true ->
    fate (net w (List.length (requests w))) = Applied ->
    fate (net w (S (S (List.length (requests w))))) = Applied ->
    NoDup (map Product.slug (products (db w))) ->
    In p (products (db w)) ->
    completion (ProductPage.fetchProduct (Product.slug p)) w' = Normal None
    /\ exists shown,
         ui (exec (ProductPage.fetchProduct (Product.slug p)) w')
         = (ui w ++ ToastSuccess "Produk berhasil dihapus" :: shown
                 ++ [ToastError "Produk tidak ditemukan"; Navigate "/"])%list.
Proof.
  intros p w w' Hadmin F F2 Hnd Hin. subst w'.
  rewrite (delete_product_run (Product.id p) w F).
  match goal with
  | |- context [exec Inventory.fetchProducts ?w1] =>
      destruct (fetchProducts_run w1) as [Hd [_ [Hn [_ [Hr [shown Hu]]]]]];
      unfold exec; set (w2 := snd (Inventory.fetchProducts w1)) in *
  end.
  cbn [db net requests ui] in Hd, Hn, Hr, Hu.
  unfold completion, ProductPage.fetchProduct, bind, rpc. cbv zeta.
  rewrite Hr, Hn, Hd, <- app_assoc, length_app. cbn [List.length app].
  replace (List.length (requests w) + 2)%nat
    with (S (S (List.length (requests w)))) by lia.
  rewrite F2. unfold Store.products_select_by_slug, Store.products_delete.
  cbv zeta. rewrite Hadmin, (taken_in _ _ (in_map Product.id _ _ Hin)).
  cbn [fst snd products andb].
  assert (Hnone : filter (fun q => String.eqb (Product.slug q) (Product.slug p))
                         (filter (fun q => negb (String.eqb (Product.id q) (Product.id p)))
                                 (products (db w))) = []).
  { destruct (filter _ (filter _ _)) as [|q rest] eqn:Hf; [reflexivity|].
    exfalso.
    assert (Hq : In q (q :: rest)) by (left; reflexivity).
    rewrite <- Hf in Hq. apply filter_In in Hq. destruct Hq as [Hq Hslug].
    apply filter_In in Hq. destruct Hq as [Hq Hid].
    assert (Hone : In q [p]).
    { rewrite <- (filter_unique Product.slug _ p Hnd Hin).
      apply filter_In. split; assumption. }
    destruct Hone as [<-|[]]. rewrite String.eqb_refl in Hid. discriminate Hid. }
  rewrite Hnone. cbn [map single respond error data fst snd].
  unfold emit, ret. cbn [fst snd ui]. split; [reflexivity|].
  exists shown. rewrite Hu, <- !app_assoc. reflexivity.
Qed.

Lemma deleted_product_witness :
  completion (ProductPage.fetchProduct "paracetamol-500mg")
             (exec (Inventory.handleDeleteProduct true "p-paracetamol")
                   (Shop.world Shop.siti))
  = Normal None.
Proof.
  apply (proj1 (a_deleted_product_is_not_found_any_more
                  Shop.paracetamol (Shop.world Shop.siti)
                  eq_refl eq_refl eq_refl
                  ltac:(repeat constructor; cbn; intuition discriminate)
                  ltac:(cbn; tauto))).
Defined.

(** ** The constraints of the tables *)

Lemma map_id_set_stock (f : Product.t -> bool) (n : Z) (t : Timestamp)
  (l : list Product.t) :
  map Product.id (map (fun p => if f p then Backend.set_stock n t p else p) l)
  = map Product.id l
  /\ map Product.slug (map (fun p => if f p then Backend.set_stock n t p else p) l)
     = map Product.slug l.
Proof.
  rewrite !map_map. split; apply map_ext; intros p; destruct (f p); reflexivity.
Qed.

Lemma map_id_set_fields (f : Product.t -> bool) (n : ProductData.t) (price stock : Z)
  (t : Timestamp) (l : list Product.t) :
  map Product.id
      (map (fun p => if f p then Store.set_fields n price stock t p else p) l)
  = map Product.id l.
Proof.
  rewrite map_map. apply map_ext. intros p. destruct (f p); reflexivity.
Qed.

(** What an update of a product by the form does to the keys. *)
Lemma products_update_row_ids (i : Id) (n : ProductData.t) (s : Session)
  (x : Exchange) (d : DB) :
  map Product.id (products (snd (Store.products_update_row i n s x d)))
  = map Product.id (products d)
  /\ cart_items (snd (Store.products_update_row i n s x d)) = cart_items d.
Proof.
  unfold Store.products_update_row. cbv zeta.
  destruct (filter _ (products d)) as [|p [|p' rest]]; [split; reflexivity| |].
  - destruct (ProductData.price n) as [price|]; [|split; reflexivity].
    destruct (ProductData.stock n) as [stock|]; [|split; reflexivity].
    destruct (existsb _ _); [split; reflexivity|].
    destruct (negb _); [split; reflexivity|].
    cbn [snd products with_products cart_items].
    split; [apply map_id_set_fields|reflexivity].
  - destruct (ProductData.price n) as [price|]; [|split; reflexivity].
    destruct (ProductData.stock n) as [stock|]; split; reflexivity.
Qed.

Lemma products_insert_ids (current_date : Timestamp -> string) (n : ProductData.t)
  (s : Session) (x : Exchange) (d : DB) :
  cart_items (snd (Store.products_insert current_date n s x d)) = cart_items d
  /\ forall i, In i (map Product.id (products d)) ->
               In i (map Product.id
                         (products (snd (Store.products_insert current_date n s x d)))).
Proof.
  unfold Store.products_insert.
  destruct (negb _); [split; [reflexivity|auto]|].
  destruct (ProductData.price n) as [price|]; [|split; [reflexivity|auto]].
  destruct (ProductData.stock n) as [stock|]; [|split; [reflexivity|auto]].
  destruct (_ || _); [split; [reflexivity|auto]|].
  destruct (negb _); [split; [reflexivity|auto]|].
  cbn [snd products with_products cart_items]. split; [reflexivity|].
  intros i Hi. rewrite map_app. apply in_or_app. left. exact Hi.
Qed.

Lemma cart_items_update_keeps_products_of_items (s : Session) (i : Id) (q : Z) :
  keeps_as s items_refer_to_products (Backend.cart_items_update i q).
Proof.
  intros x d H r Hr.
  cbn [snd Backend.cart_items_update cart_items with_cart_items products] in *.
  apply in_map_iff in Hr. destruct Hr as [r0 [Hr0 Hin]].
  specialize (H r0 Hin). destruct (_ && _); subst r; exact H.
Qed.

Lemma filter_keeps_products_of_items (f : CartItemRow.t -> bool) (d : DB) :
  items_refer_to_products d ->
  items_refer_to_products (with_cart_items d (filter f (cart_items d))).
Proof.
  intros H r Hr. cbn [cart_items with_cart_items products] in *.
  apply filter_In in Hr. apply H. tauto.
Qed.

Lemma cart_items_insert_keeps_products_of_items (s : Session) (c p : Id) (q : Z) :
  keeps_as s items_refer_to_products (Backend.cart_items_insert c p q).
Proof.
  intros x d H. unfold Backend.cart_items_insert.
  destruct (negb _); [exact H|].
  unfold Backend.find_product.
  destruct (find _ (products d)) as [row|] eqn:Hfind; [|exact H].
  destruct (_ || _); [exact H|].
  intros r Hr. cbn [snd cart_items with_cart_items products] in *.
  apply in_app_or in Hr. destruct Hr as [Hr|[<-|[]]]; [apply H; exact Hr|].
  cbn [CartItemRow.product_id]. apply find_some in Hfind.
  destruct Hfind as [Hin Hid]. apply String.eqb_eq in Hid. rewrite <- Hid.
  apply in_map. exact Hin.
Qed.

Lemma products_delete_keeps_products_of_items (s : Session) (i : Id) :
  keeps_as s items_refer_to_products (Store.products_delete i).
Proof.
  intros x d H r Hr. unfold Store.products_delete in *. cbv zeta in *.
  cbn [snd cart_items products] in *.
  apply filter_In in Hr. destruct Hr as [Hr Hkept].
  specialize (H r Hr). apply in_map_iff in H. destruct H as [p [Hid Hp]].
  apply in_map_iff. exists p. split; [exact Hid|].
  apply filter_In. split; [exact Hp|]. rewrite Hid. exact Hkept.
Qed.

(** X23. No handler leaves a cart item that refers to a product which is
    not there: the foreign key of [cart_items.product_id] holds after
    updateQuantity, removeItem, handleCheckout, addToCart and the
    administrator's handleProductSubmit and handleDeleteProduct if it held
    before, whatever they are called with and whatever becomes of their
    requests: an insert checks the key, and a deleted product takes its cart
    items along. *)
Theorem cart_items_keep_referring_to_products :
  forall w : World,
    items_refer_to_products (db w) ->
    (forall user itemId newQuantity,
        items_refer_to_products
          (db (exec (CartPage.updateQuantity user itemId newQuantity) w)))
    /\ (forall user itemId,
           items_refer_to_products (db (exec (Removal.removeItem user itemId) w)))
    /\ (forall user cartId cartItems shippingAddress,
           items_refer_to_products
             (db (exec (CartPage.handleCheckout user cartId cartItems
                                                shippingAddress) w)))
    /\ (forall user product quantity,
           items_refer_to_products
             (db (exec (ProductDetailPage.addToCart user product quantity) w)))
    /\ (forall parseFloat parseInt current_date page,
           items_refer_to_products
             (db (exec (Inventory.handleProductSubmit parseFloat parseInt
                                                      current_date page) w)))
    /\ (forall confirmed id,
           items_refer_to_products
             (db (exec (Inventory.handleDeleteProduct confirmed id) w))).
Proof.
  intros w H. split; [|split; [|split; [|split; [|split]]]].
  - intros user itemId n.
    apply (updateQuantity_preserves_as (session w) items_refer_to_products
                                       user itemId n); [|reflexivity|exact H].
    intros _. apply cart_items_update_keeps_products_of_items.
  - intros user itemId.
    apply (removeItem_preserves_as (session w) items_refer_to_products user itemId);
      [|reflexivity|exact H].
    intros x d Hd. apply filter_keeps_products_of_items. exact Hd.
  - intros user cartId cartItems a.
    apply (handleCheckout_preserves_as (session w) items_refer_to_products
                                       user cartId cartItems a);
      [| | | |reflexivity|exact H].
    + intros o x d Hd. unfold Backend.orders_insert.
      destruct (negb _); [exact Hd|]. destruct (_ || _); exact Hd.
    + intros rows x d Hd. unfold Backend.order_items_insert.
      destruct (negb _); [exact Hd|]. destruct (negb _); [exact Hd|].
      destruct (_ || _); exact Hd.
    + intros i n x d Hd r Hr.
      cbn [snd Backend.products_update cart_items with_products products] in *.
      rewrite (proj1 (map_id_set_stock _ _ _ _)). apply Hd. exact Hr.
    + intros c x d Hd. apply filter_keeps_products_of_items. exact Hd.
  - intros user product q.
    apply (addToCart_preserves_as (session w) items_refer_to_products user product q);
      [| | |reflexivity|exact H].
    + intros u x d Hd. unfold Backend.carts_insert.
      destruct (negb _); [exact Hd|]. destruct (_ || _); exact Hd.
    + intros r x d Hd _. apply cart_items_update_keeps_products_of_items. exact Hd.
    + intros c p. apply cart_items_insert_keeps_products_of_items.
  - intros pf pi cd page.
    apply (handleProductSubmit_preserves_as (session w) items_refer_to_products
                                           pf pi cd page);
      [| |reflexivity|exact H].
    + intros i n x d Hd r Hr.
      destruct (products_update_row_ids i n (session w) x d) as [Hids Hitems].
      rewrite Hids. rewrite Hitems in Hr. apply Hd. exact Hr.
    + intros n x d Hd r Hr.
      destruct (products_insert_ids cd n (session w) x d) as [Hitems Hids].
      rewrite Hitems in Hr. apply Hids, Hd. exact Hr.
  - intros confirmed id.
    apply (handleDeleteProduct_preserves_as (session w) items_refer_to_products
                                            confirmed id);
      [|reflexivity|exact H].
    apply products_delete_keeps_products_of_items.
Qed.

Lemma items_refer_witness :
  items_refer_to_products
    (db (exec (Inventory.handleDeleteProduct true "p-paracetamol")
              (Shop.world Shop.siti))).
Proof.
  apply (proj2 (proj2 (proj2 (proj2 (proj2
           (cart_items_keep_referring_to_products
              (Shop.world Shop.siti)
              ltac:(intros r [<-|[<-|[]]]; cbn; tauto))))))).
Defined.

Lemma NoDup_map_filter {A B : Type} (f : A -> B) (g : A -> bool) (l : list A) :
  NoDup (map f l) -> NoDup (map f (filter g l)).
Proof.
  induction l as [|a l IH]; intros H; [constructor|].
  cbn [map] in H. inversion H as [|b bs Hb Hbs]. subst.
  cbn [filter]. destruct (g a); [|apply IH; exact Hbs].
  cbn [map]. constructor; [|apply IH; exact Hbs].
  intros Hin. apply Hb. apply in_map_iff in Hin. destruct Hin as [c [Hc Hin]].
  apply filter_In in Hin. rewrite <- Hc. apply in_map. tauto.
Qed.

(** Rewriting the one row that [hit] picks, with a slug that no other row
    has, keeps the slugs distinct. *)
Lemma NoDup_slugs_after_update (hit : Product.t -> bool) (new : Product.t -> Product.t)
  (slug : string) (l : list Product.t) (row : Product.t) :
  (forall p, Product.slug (new p) = slug) ->
  filter hit l = [row] ->
  existsb (fun p => negb (hit p) && String.eqb (Product.slug p) slug) l = false ->
  NoDup (map Product.slug l) ->
  NoDup (map Product.slug (map (fun p => if hit p then new p else p) l)).
Proof.
  intros Hnew. revert row.
  induction l as [|a l IH]; intros row Hone Hfree Hnd; [constructor|].
  cbn [map] in Hnd. inversion Hnd as [|b bs Ha Hl]. subst.
  cbn [existsb] in Hfree. apply orb_false_iff in Hfree. destruct Hfree as [Hfa Hfl].
  assert (Hother : forall p, In p l -> hit p = false -> Product.slug p <> slug).
  { intros p Hp Hhit E.
    assert (Hex : existsb (fun p => negb (hit p) && String.eqb (Product.slug p) slug) l
                  = true).
    { apply existsb_exists. exists p. split; [exact Hp|].
      rewrite Hhit, E, String.eqb_refl. reflexivity. }
    congruence. }
  cbn [filter] in Hone. cbn [map]. destruct (hit a) eqn:Hhit.
  - injection Hone as _ Hrest.
    assert (Hnone : forall p, In p l -> hit p = false).
    { intros p Hp. destruct (hit p) eqn:E; [|reflexivity].
      assert (Hin : In p (filter hit l)) by (apply filter_In; tauto).
      rewrite Hrest in Hin. destruct Hin. }
    assert (Hsame : map (fun p => if hit p then new p else p) l = l).
    { clear - Hnone. induction l as [|p l IH]; [reflexivity|].
      cbn [map]. rewrite (Hnone p (or_introl eq_refl)), IH; [reflexivity|].
      intros q Hq. apply Hnone. right. exact Hq. }
    rewrite Hsame, Hnew. constructor; [|exact Hl].
    intros Hin. apply in_map_iff in Hin. destruct Hin as [p [Hp Hin]].
    exact (Hother p Hin (Hnone p Hin) Hp).
  - constructor; [|exact (IH row Hone Hfl Hl)].
    intros Hin. rewrite map_map in Hin. apply in_map_iff in Hin.
    destruct Hin as [p [Hp Hin]]. destruct (hit p) eqn:Hhp.
    + rewrite Hnew in Hp. cbn [negb andb] in Hfa.
      apply String.eqb_neq in Hfa. congruence.
    + apply Ha. rewrite <- Hp. apply in_map. exact Hin.
Qed.

Lemma products_update_row_keeps_keys (s : Session) (i : Id) (n : ProductData.t) :
  keeps_as s product_keys_unique (Store.products_update_row i n).
Proof.
  intros x d [Hid Hslug]. unfold product_keys_unique.
  split; [rewrite (proj1 (products_update_row_ids i n s x d)); exact Hid|].
  unfold Store.products_update_row. cbv zeta.
  destruct (filter _ (products d)) as [|row [|p' rest]] eqn:Hone; [exact Hslug| |].
  - destruct (ProductData.price n) as [price|]; [|exact Hslug].
    destruct (ProductData.stock n) as [stock|]; [|exact Hslug].
    destruct (existsb _ _) eqn:Hfree; [exact Hslug|].
    destruct (negb _); [exact Hslug|].
    cbn [snd products with_products].
    apply (NoDup_slugs_after_update _ _ (ProductData.slug n) _ row);
      [reflexivity|exact Hone|exact Hfree|exact Hslug].
  - destruct (ProductData.price n) as [price|]; [|exact Hslug].
    destruct (ProductData.stock n) as [stock|]; exact Hslug.
Qed.

Lemma products_insert_keeps_keys (s : Session) (current_date : Timestamp -> string)
  (n : ProductData.t) :
  keeps_as s product_keys_unique (Store.products_insert current_date n).
Proof.
  intros x d H. unfold Store.products_insert.
  destruct (negb _); [exact H|].
  destruct (ProductData.price n) as [price|]; [|exact H].
  destruct (ProductData.stock n) as [stock|]; [|exact H].
  destruct (_ || _) eqn:Hdup; [exact H|].
  destruct (negb _); [exact H|].
  apply orb_false_iff in Hdup. destruct Hdup as [Hkey Hfree].
  destruct H as [Hid Hslug]. unfold product_keys_unique.
  cbn [snd products with_products]. rewrite !map_app.
  cbn [map Store.new_product Product.id Product.slug].
  split; (apply NoDup_app; [assumption|repeat constructor; intros []|]).
  - intros k Hk [<-|[]].
    rewrite (taken_in _ _ Hk) in Hkey. discriminate Hkey.
  - intros k Hk [<-|[]]. apply in_map_iff in Hk. destruct Hk as [p [Hp Hin]].
    assert (Hex : existsb (fun p => String.eqb (Product.slug p) (ProductData.slug n))
                          (products d) = true).
    { apply existsb_exists. exists p. split; [exact Hin|].
      rewrite Hp. apply String.eqb_refl. }
    congruence.
Qed.

(** X24. The keys of the products stay what the tables declare them to
    be: after handleProductSubmit, handleDeleteProduct and handleCheckout no
    two products have the same key and no two have the same slug, if that
    was so before, whatever the handlers are called with and whatever becomes
    of their requests. *)
Theorem product_keys_stay_unique :
  forall w : World,
    product_keys_unique (db w) ->
    (forall parseFloat parseInt current_date page,
        product_keys_unique
          (db (exec (Inventory.handleProductSubmit parseFloat parseInt
                                                   current_date page) w)))
    /\ (forall confirmed id,
           product_keys_unique
             (db (exec (Inventory.handleDeleteProduct confirmed id) w)))
    /\ (forall user cartId cartItems shippingAddress,
           product_keys_unique
             (db (exec (CartPage.handleCheckout user cartId cartItems
                                                shippingAddress) w))).
Proof.
  intros w H. split; [|split].
  - intros pf pi cd page.
    apply (handleProductSubmit_preserves_as (session w) product_keys_unique
                                           pf pi cd page);
      [| |reflexivity|exact H].
    + intros i n. apply products_update_row_keeps_keys.
    + intros n. apply products_insert_keeps_keys.
  - intros confirmed id.
    apply (handleDeleteProduct_preserves_as (session w) product_keys_unique
                                            confirmed id);
      [|reflexivity|exact H].
    intros x d [Hid Hslug]. unfold product_keys_unique, Store.products_delete.
    cbv zeta. cbn [snd products]. split; apply NoDup_map_filter; assumption.
  - intros user cartId cartItems a.
    apply (handleCheckout_preserves_as (session w) product_keys_unique
                                       user cartId cartItems a);
      [| | | |reflexivity|exact H].
    + intros o x d Hd. unfold Backend.orders_insert.
      destruct (negb _); [exact Hd|]. destruct (_ || _); exact Hd.
    + intros rows x d Hd. unfold Backend.order_items_insert.
      destruct (negb _); [exact Hd|]. destruct (negb _); [exact Hd|].
      destruct (_ || _); exact Hd.
    + intros i n x d [Hid Hslug]. unfold product_keys_unique.
      cbn [snd Backend.products_update products with_products].
      destruct (map_id_set_stock
                  (fun p => is_admin d (session w) && String.eqb (Product.id p) i)
                  n (now x) (products d)) as [E1 E2].
      rewrite E1, E2. split; assumption.
    + intros c x d Hd. exact Hd.
Qed.

Lemma product_keys_witness :
  product_keys_unique
    (db (exec (Inventory.handleProductSubmit
                 (fun _ => Some 750000) (fun _ => Some 40) (fun _ => "2025-11-06")
                 (Inventory.mkPage None jamu))
              (Shop.world Shop.siti))).
Proof.
  apply (proj1 (product_keys_stay_unique
                  (Shop.world Shop.siti)
                  ltac:(split; repeat constructor; cbn; intuition discriminate))).
Defined.

(** ** The orders, after a change of status and after a checkout *)

(** X25. After updateOrderStatus by an administrator, with every request
    applied, the administration page says so and is handed the list of the
    orders anew: the order is in it with the status that was set (and the
    time of the update), and the list has the same orders as before. *)
Theorem updateOrderStatus_shows_the_new_status :
  forall (orderId : Id) (status : string) (w : World) (o : Order.t),
    is_admin (db w) (session w) = true ->
    every_request_applied w ->
    In o (orders (db w)) ->
    Order.id o = orderId ->
    exists l,
      ui (exec (AdminPage.updateOrderStatus orderId status) w)
      = (ui w ++ [ToastSuccess "Status berhasil diupdate"; SetOrders l])%list
      /\ In (Backend.set_status status (now (net w (List.length (requests w)))) o) l
      /\ Permutation (map Order.id l) (map Order.id (orders (db w))).
Proof.
  intros orderId status w o Hadmin Hall Hin Hid.
  unfold AdminPage.updateOrderStatus, AdminPage.fetchOrders, exec, bind, rpc, emit.
  cbv zeta. rewrite (Hall _).
  cbn [fst snd respond error data db session net requests ui
       Backend.orders_update].
  rewrite (Hall _).
  cbn [fst snd respond error data db session net requests ui
       Backend.orders_select].
  rewrite <- app_assoc. cbn [app].
  eexists. split; [reflexivity|].
  assert (Hvisible :
            forall l : list Order.t,
              filter (fun o0 => uid_is (session w) (Order.user_id o0)
                                || is_admin (with_orders (db w) l) (session w))
                     l = l).
  { intros l. apply filter_all. intros o0.
    rewrite (is_admin_roles (db w) (with_orders (db w) l) (session w) eq_refl).
    rewrite Hadmin. apply orb_true_r. }
  cbn [orders with_orders]. rewrite Hvisible. split.
  - eapply Permutation_in; [apply Permutation_sym, order_by_permutation|].
    apply in_map_iff. exists o. split; [|exact Hin].
    rewrite Hadmin, Hid, String.eqb_refl. reflexivity.
  - eapply perm_trans; [apply Permutation_map, order_by_permutation|].
    rewrite map_map. erewrite map_ext; [apply Permutation_refl|].
    intros o0. destruct (_ && _); reflexivity.
Qed.

Lemma updateOrderStatus_shows_witness :
  exists l,
    ui (exec (AdminPage.updateOrderStatus "o-1" "shipped") (shop_with_order Shop.siti))
    = (ui (shop_with_order Shop.siti)
       ++ [ToastSuccess "Status berhasil diupdate"; SetOrders l])%list
    /\ In (Backend.set_status "shipped" 1000 first_order) l
    /\ Permutation (map Order.id l)
                   (map Order.id (orders (db (shop_with_order Shop.siti)))).
Proof.
  apply (updateOrderStatus_shows_the_new_status
           "o-1" "shipped" (shop_with_order Shop.siti) first_order);
    [reflexivity|intros k; reflexivity|left; reflexivity|reflexivity].
Defined.

Lemma orders_insert_checks (p : NewOrder.t) (s : Session) (x : Exchange)
  (d d1 : DB) (o : Order.t) :
  Backend.orders_insert p s x d = (inl o, d1) ->
  uid_is s (NewOrder.user_id p) = true
  /\ ~ In (gen_random_uuid x 0%nat) (map Order.id (orders d)).
Proof.
  unfold Backend.orders_insert.
  destruct (uid_is s (NewOrder.user_id p)); [|discriminate].
  cbn [negb]. destruct (_ || _) eqn:Hdup; [discriminate|].
  apply orb_false_iff in Hdup. destruct Hdup as [Hkey _].
  intros _. split; [reflexivity|].
  intros Hin. rewrite (taken_in _ _ Hin) in Hkey. discriminate Hkey.
Qed.

(** The order and the order items that a checkout which announced success,
    with every request applied, has left in the database. *)
Lemma checkout_success_order (u : User.t) (c : Id) (cartItems : list CartItem.t)
  (a : string) (w : World) :
  let w1 := exec (CartPage.handleCheckout (Some u) (Some c) cartItems a) w in
  let x0 := net w (List.length (requests w)) in
  let x1 := net w (S (List.length (requests w))) in
  let o := Order.mk (gen_random_uuid x0 0%nat) (User.id u)
                    ("WM" ++ Text.of_Z (clock w))
                    (CartPage.calculateTotal cartItems) "pending" (Some "cash") a
                    (now x0) (now x0) in
  checkout_succeeded w w1 ->
  every_request_applied w ->
  orders (db w1) = (orders (db w) ++ [o])%list
  /\ order_items (db w1)
     = (order_items (db w)
        ++ map (Backend.new_order_item x1)
               (Backend.number_rows 0 (CartPage.orderItems o cartItems)))%list
  /\ session w1 = session w
  /\ net w1 = net w
  /\ uid_is (session w) (User.id u) = true
  /\ ~ In (Order.id o) (map Order.id (orders (db w))).
Proof.
  intros w1 x0 x1 o Hok Hall. subst w1.
  destruct (checkout_succeeded_guards _ _ _ _ _ Hok)
    as [u' [c' [i [l [Hu [Hc [Hitems [Htc Hta]]]]]]]].
  injection Hu as <-. injection Hc as <-. subst cartItems.
  rewrite (handleCheckout_outcome u c i l a w Htc Hta) in *.
  unfold checkout_outcome in *. cbv zeta in *.
  rewrite (Hall _) in *.
  destruct (Backend.orders_insert _ _ _ _) as [[order|e] d1] eqn:Ho;
    [|exfalso; exact (gave_up_is_no_success _ _ _ _ Hok)].
  rewrite (Hall _) in *.
  destruct (Backend.order_items_insert _ _ _ _) as [[[]|e] d2] eqn:Hi;
    [|exfalso; exact (gave_up_is_no_success _ _ _ _ Hok)].
  destruct (stopped _) as [e|] eqn:Hs;
    [exfalso; exact (gave_up_is_no_success _ _ _ _ Hok)|].
  rewrite (Hall _) in *.
  destruct (orders_insert_checks _ _ _ _ _ _ Ho) as [Huid Hfresh].
  apply orders_insert_done in Ho. destruct Ho as [Horder Hd1].
  apply order_items_insert_done in Hi.
  unfold order_payload in Horder.
  cbn [NewOrder.user_id NewOrder.order_number NewOrder.total_amount NewOrder.status
       NewOrder.payment_method NewOrder.shipping_address] in Horder, Huid.
  fold x0 in Horder, Hfresh. fold o in Horder. subst order.
  unfold went_through.
  cbn [db session net snd Backend.cart_items_delete orders order_items
       with_cart_items with_products].
  subst d2 d1. cbn [orders order_items with_order_items with_orders].
  repeat split; try reflexivity; assumption.
Qed.

Lemma items_of_lines (x : Exchange) (o : Order.t) (items : list CartItem.t) :
  forall n : nat,
    let rows := map (Backend.new_order_item x)
                    (Backend.number_rows n (CartPage.orderItems o items)) in
    map Store.as_item rows = map item_of_line items
    /\ Forall (fun r => OrderItem.order_id r = Order.id o) rows.
Proof.
  unfold CartPage.orderItems.
  induction items as [|i l IH]; intros n; cbn; [split; [reflexivity|constructor]|].
  destruct (IH (S n)) as [Hmap Hall]. cbn in Hmap, Hall. split.
  - rewrite Hmap. reflexivity.
  - constructor; [reflexivity|exact Hall].
Qed.

(** fetchOrders hands over every order of the user the session is signed
    in as, once its read is applied. *)
Lemma fetchOrders_lists (timestamptz : Timestamp -> string) (u : User.t) (w : World)
  (o : Order.t) :
  uid_is (session w) (User.id u) = true ->
  fate (net w (List.length (requests w))) = Applied ->
  In o (orders (db w)) ->
  Order.user_id o = User.id u ->
  exists l,
    completion (History.fetchOrders timestamptz (Some u)) w = Normal (Some l)
    /\ In (with_all_items timestamptz (db w) o) l.
Proof.
  intros Huid F Hin Huser.
  unfold History.fetchOrders, completion, bind, rpc, emit, ret,
         Store.orders_select_of.
  cbv zeta. rewrite F. cbn [fst snd respond error data].
  eexists. split; [reflexivity|].
  rewrite <- (with_items_all timestamptz (db w) (session w) o Hin);
    [|rewrite Huser, Huid; reflexivity].
  apply in_map.
  eapply Permutation_in; [apply Permutation_sym, order_by_permutation|].
  apply filter_In. split; [exact Hin|].
  rewrite Huser, Huid, String.eqb_refl. reflexivity.
Qed.

Lemma filter_none_in {A : Type} (f : A -> bool) (l : list A) :
  (forall a, In a l -> f a = false) -> filter f l = [].
Proof.
  intros H. induction l as [|a l IH]; [reflexivity|].
  cbn [filter]. rewrite (H a (or_introl eq_refl)). apply IH.
  intros b Hb. apply H. right. exact Hb.
Qed.

Lemma filter_all_in {A : Type} (f : A -> bool) (l : list A) :
  Forall (fun a => f a = true) l -> filter f l = l.
Proof.
  induction 1 as [|a l Ha Hl IH]; [reflexivity|].
  cbn [filter]. rewrite Ha, IH. reflexivity.
Qed.

(** X26. An order that a checkout has placed is on the orders page: after a
    checkout that announced success, with every request applied and the
    foreign key of [order_items.order_id] in force, fetchOrders for the same
    user hands over the new order with the number made of the clock, the
    total of the cart, the status "pending" and the address, and with one
    item per line of the cart, in order: the name, the price and the
    quantity of the line and their product as subtotal. *)
Theorem a_placed_order_is_on_the_orders_page :
  forall (timestamptz : Timestamp -> string) (u : User.t) (c : Id)
         (cartItems : list CartItem.t) (shippingAddress : string) (w : World),
    let w1 := exec (CartPage.handleCheckout (Some u) (Some c) cartItems
                                            shippingAddress) w in
    let x0 := net w (List.length (requests w)) in
    checkout_succeeded w w1 ->
    every_request_applied w ->
    order_items_refer_to_orders (db w) ->
    exists l,
      completion (History.fetchOrders timestamptz (Some u)) w1 = Normal (Some l)
      /\ In (OrdersPage.Order.mk
               (gen_random_uuid x0 0%nat) ("WM" ++ Text.of_Z (clock w))
               (CartPage.calculateTotal cartItems) "pending" shippingAddress
               (timestamptz (now x0)) (map item_of_line cartItems)) l.
Proof.
  intros tz u c cartItems a w w1 x0 Hok Hall Hfk.
  destruct (checkout_success_order u c cartItems a w Hok Hall)
    as [Horders [Hitems [Hs [Hn [Huid Hfresh]]]]].
  fold w1 in Horders, Hitems, Hs, Hn. fold x0 in Horders, Hitems, Hfresh.
  set (o := Order.mk (gen_random_uuid x0 0%nat) (User.id u)
                     ("WM" ++ Text.of_Z (clock w))
                     (CartPage.calculateTotal cartItems) "pending" (Some "cash") a
                     (now x0) (now x0)) in *.
  destruct (fetchOrders_lists tz u w1 o) as [l [Hl Hin]].
  - rewrite Hs. exact Huid.
  - rewrite Hn. apply Hall.
  - rewrite Horders. apply in_or_app. right. left. reflexivity.
  - reflexivity.
  - exists l. split; [exact Hl|].
    replace (OrdersPage.Order.mk _ _ _ _ _ _ _) with (with_all_items tz (db w1) o);
      [exact Hin|].
    unfold with_all_items. cbn [Order.id Order.order_number Order.total_amount
                                Order.status Order.shipping_address Order.created_at o].
    f_equal. rewrite Hitems, filter_app, map_app.
    destruct (items_of_lines (net w (S (List.length (requests w)))) o cartItems 0%nat)
      as [Hmap Hmine].
    cbv zeta in Hmap, Hmine.
    rewrite (filter_none_in _ (order_items (db w))).
    2:{ intros r Hr. apply String.eqb_neq. intros E. apply Hfresh.
        pose proof (Hfk r Hr) as Hr'. rewrite E in Hr'. exact Hr'. }
    cbn [map app]. rewrite filter_all_in; [exact Hmap|].
    eapply Forall_impl; [|exact Hmine].
    intros r Hr. cbn beta. rewrite Hr. apply String.eqb_refl.
Qed.

Lemma placed_order_witness :
  exists l,
    completion (History.fetchOrders Text.of_Z (Some Shop.budi))
               (exec (CartPage.handleCheckout (Some Shop.budi) (Some "cart-budi")
                                              [Shop.cart_line "ci-1"] "Jl. Merdeka 1")
                     (Shop.world Shop.budi))
    = Normal (Some l)
    /\ In (OrdersPage.Order.mk
             "row-0-0" "WM1730000000000" 1600000 "pending" "Jl. Merdeka 1" "1000"
             [OrdersPage.Item.mk "Paracetamol 500mg" 800000 2 1600000]) l.
Proof.
  apply (a_placed_order_is_on_the_orders_page
           Text.of_Z Shop.budi "cart-budi" [Shop.cart_line "ci-1"] "Jl. Merdeka 1"
           (Shop.world Shop.budi));
    [reflexivity|intros k; reflexivity|intros r []].
Defined.
